(** * sqlitedb: statements, connections, transactions and batch execution

    A shallow embedding of the C++ wrapper classes [SqliteStatement],
    [SqliteValueBinder], [SqliteDb] and [SqliteTransaction].

    The SQL engine (sqlite3) is an external collaborator.  It is a
    parameter of the development: an [Engine] gives the reply of every
    C-API call as a function of the calls made so far, so any
    deterministic engine is an instance.  The state threaded through the
    methods is the log of the calls that reached the engine, in program
    order.  C++ exceptions are the [Throw] outcome of a state-and-error
    monad; a throw keeps the calls already logged.

    Covered: the bind overloads, [step], [reset] and [clearBindings] of a
    statement; [prepare], [execute], [executeBatch] and the pragma setters
    of a connection; construction, [commit], [rollback] and destruction
    of a transaction; then the column getters, [bindAll], the
    introspection calls and [loadExtension].  Opening a database is left
    out. *)

From Stdlib Require Import ZArith List String Bool Lia DecimalString.
From Stdlib Require Import Strings.Byte.
Import ListNotations.

Local Open Scope string_scope.
Local Open Scope list_scope.
Local Open Scope Z_scope.

Infix "+++" := String.append (at level 60, right associativity).

(** ** Machine integers *)

Definition INT_MAX : Z := 2147483647.
Definition SIZE_MAX : Z := 18446744073709551615.

(** [static_cast<int>(x)]: reduction modulo 2^32 into the signed range. *)
Definition static_cast_int (x : Z) : Z := (x + 2147483648) mod 4294967296 - 2147483648.

(** [static_cast<std::int64_t>(x)]: reduction modulo 2^64 into the signed
    range. *)
Definition static_cast_int64 (x : Z) : Z :=
  (x + 9223372036854775808) mod 18446744073709551616 - 9223372036854775808.

(** [idx++] on a [std::size_t]. *)
Definition size_t_succ (idx : Z) : Z := (idx + 1) mod (SIZE_MAX + 1).

Definition is_int (x : Z) : Prop := - INT_MAX - 1 <= x <= INT_MAX.
Definition is_size_t (x : Z) : Prop := 0 <= x <= SIZE_MAX.

(** [std::to_string] on an integer. *)
Definition to_string (x : Z) : string := NilZero.string_of_int (Z.to_int x).

(** ** Result codes of sqlite3.h used by the wrappers *)

Definition SQLITE_OK : Z := 0.
Definition SQLITE_ROW : Z := 100.
Definition SQLITE_DONE : Z := 101.

(** ** Exceptions (SqliteException.hpp) *)

Inductive exception_class : Set :=
| SqliteDbException
| SqliteStatementException
| SqliteTransactionException
| invalid_argument.

Record exception : Set := mkException {
  class : exception_class;
  what : string;
  errorCode : Z
}.

(** [catch (SqliteException& e)] matches the three derived classes and not
    [std::invalid_argument]. *)
Definition is_SqliteException (e : exception) : bool :=
  match class e with
  | invalid_argument => false
  | _ => true
  end.

(** The constructors inherited from [SqliteException(message, error_code = 0)]. *)
Definition SqliteDbException_ (message : string) : exception :=
  mkException SqliteDbException message 0.
Definition SqliteStatementException_ (message : string) : exception :=
  mkException SqliteStatementException message 0.
Definition SqliteTransactionException_ (message : string) : exception :=
  mkException SqliteTransactionException message 0.
Definition invalid_argument_ (message : string) : exception :=
  mkException invalid_argument message 0.

(** ** Values (SqliteTypes.hpp) *)

(** The payload of a [double] is never inspected by the wrappers; it is
    carried as its 64-bit pattern. *)
Definition double : Set := Z.

Inductive SqliteValue : Set :=
| monostate
| int64_value (v : Z)
| double_value (v : double)
| string_value (v : string)
| blob_value (v : list byte).

Inductive JournalMode : Set :=
| JournalMode_DELETE | JournalMode_TRUNCATE | JournalMode_PERSIST
| JournalMode_MEMORY | JournalMode_WAL | JournalMode_OFF.

Inductive Synchronous : Set :=
| Synchronous_OFF | Synchronous_NORMAL | Synchronous_FULL | Synchronous_EXTRA.

Inductive TempStore : Set :=
| TempStore_DEFAULT | TempStore_FILE | TempStore_MEMORY.

(** ** The engine *)

(** A compiled statement: its SQL text and its number of placeholders
    (what [sqlite3_sql] and [sqlite3_bind_parameter_count] read). *)
Record sqlite3_stmt : Set := mkStmt {
  zSql : string;
  nVar : Z
}.

(** What a [sqlite3_stmt*] points to; [None] is the null pointer. *)
Definition stmt_ptr : Set := option sqlite3_stmt.

(** The native connection handle. *)
Inductive sqlite3 : Set := sqlite3_handle (id : nat).

(** The typed argument of a [sqlite3_bind_*] call. *)
Inductive bind_arg : Set :=
| arg_int (v : Z)
| arg_int64 (v : Z)
| arg_double (v : double)
| arg_text (v : string)
| arg_blob (v : list byte)
| arg_null.

(** The calls that reach the engine. *)
Inductive Call : Set :=
| Exec (sql : string)
| Prepare (sql : string)
| Bind (stmt : stmt_ptr) (index : Z) (arg : bind_arg)
| Step (stmt : stmt_ptr)
| Reset (stmt : stmt_ptr)
| ClearBindings (stmt : stmt_ptr)
| Finalize (stmt : sqlite3_stmt).

Abbreviation World := (list Call) (only parsing).

(** Replies of the engine, each a function of the calls made before. *)
Record Engine : Type := mkEngine {
  (* sqlite3_exec: result code and the message stored through [&errMsg] *)
  exec_reply : World -> string -> Z * option string;
  (* sqlite3_errmsg *)
  errmsg_reply : World -> string;
  (* sqlite3_prepare_v2: result code and the statement stored through [&rawStmt] *)
  prepare_reply : World -> string -> Z * stmt_ptr;
  (* sqlite3_bind_int, _int64, _double, _text, _blob, _null *)
  bind_reply : World -> stmt_ptr -> Z -> bind_arg -> Z;
  (* sqlite3_step *)
  step_reply : World -> stmt_ptr -> Z
}.

(** ** State and exceptions *)

Inductive outcome (A : Type) : Type :=
| Ok (a : A)
| Throw (e : exception).
Arguments Ok {A} a.
Arguments Throw {A} e.

Definition M (S A : Type) : Type := S -> outcome A * S.

Definition ret {S A} (a : A) : M S A := fun s => (Ok a, s).

Definition throw {S A} (e : exception) : M S A := fun s => (Throw e, s).

Definition bind {S A B} (c : M S A) (k : A -> M S B) : M S B :=
  fun s =>
    match c s with
    | (Ok a, s') => k a s'
    | (Throw e, s') => (Throw e, s')
    end.

(** [try { c } catch (E& e) { h e }] where [sel] says whether the handler
    matches the exception. *)
Definition try_catch {S A} (c : M S A) (sel : exception -> bool)
    (h : exception -> M S A) : M S A :=
  fun s =>
    match c s with
    | (Ok a, s') => (Ok a, s')
    | (Throw e, s') => if sel e then h e s' else (Throw e, s')
    end.

(** [catch (...)] *)
Definition any_exception (e : exception) : bool := true.

Notation "x <- c ;; k" := (bind c (fun x => k))
  (at level 100, c at next level, right associativity).
Notation "c ;; k" := (bind c (fun _ => k))
  (at level 100, right associativity).

(** A method of an object with mutable fields runs on the pair of the
    object and the world; the methods of the objects it holds run on the
    world alone. *)
Definition on_world {O A} (c : M World A) : M (O * World) A :=
  fun s =>
    let (r, w') := c (snd s) in (r, (fst s, w')).

Definition get_object {O} : M (O * World) O :=
  fun s => (Ok (fst s), s).

Definition set_object {O} (o : O) : M (O * World) unit :=
  fun s => (Ok tt, (o, snd s)).

(** A block that owns a local object: the destructor runs when the block
    is left, normally or by an exception; destructors here do not throw. *)
Definition scoped {S A} (body : M S A) (destructor : M S unit) : M S A :=
  fun s =>
    let (r, s') := body s in (r, snd (destructor s')).

(** ** C-API calls: log the call, return the engine's reply *)

Section CApi.
Variable eng : Engine.

Definition sqlite3_exec (sql : string) : M World (Z * option string) :=
  fun w => (Ok (exec_reply eng w sql), w ++ [Exec sql]).

Definition sqlite3_errmsg : M World string :=
  fun w => (Ok (errmsg_reply eng w), w).

Definition sqlite3_prepare_v2 (sql : string) : M World (Z * stmt_ptr) :=
  fun w => (Ok (prepare_reply eng w sql), w ++ [Prepare sql]).

Definition sqlite3_bind (stmt : stmt_ptr) (index : Z) (arg : bind_arg) : M World Z :=
  fun w => (Ok (bind_reply eng w stmt index arg), w ++ [Bind stmt index arg]).

Definition sqlite3_step (stmt : stmt_ptr) : M World Z :=
  fun w => (Ok (step_reply eng w stmt), w ++ [Step stmt]).

(* the wrappers discard what sqlite3_reset, sqlite3_clear_bindings and
   sqlite3_finalize return *)
Definition sqlite3_reset (stmt : stmt_ptr) : M World unit :=
  fun w => (Ok tt, w ++ [Reset stmt]).

Definition sqlite3_clear_bindings (stmt : stmt_ptr) : M World unit :=
  fun w => (Ok tt, w ++ [ClearBindings stmt]).

Definition sqlite3_finalize (stmt : sqlite3_stmt) : M World unit :=
  fun w => (Ok tt, w ++ [Finalize stmt]).

(* the engine counts no placeholder behind a null pointer *)
Definition sqlite3_bind_parameter_count (stmt : stmt_ptr) : Z :=
  match stmt with
  | Some s => nVar s
  | None => 0
  end.
End CApi.

(** SqliteTypes.hpp: the deleter of [SqliteStatementPtr]. *)
Definition SqliteStatementDeleter (stmt : stmt_ptr) : M World unit :=
  match stmt with
  | Some s => sqlite3_finalize s
  | None => ret tt
  end.

(** ** SqliteStatement.cpp *)

Module SqliteStatement.

Record t : Set := mk { mStatement : stmt_ptr }.

Section Methods.
Variable eng : Engine.

Definition getParameterCount (this : t) : Z :=
  sqlite3_bind_parameter_count (mStatement this).

Definition checkParameterIndex (this : t) (index : Z) : M World unit :=
  if index <? 1 then
    throw (SqliteStatementException_
             ("Parameter index must be >= 1, got " +++ to_string index))
  else
    let paramCount := getParameterCount this in
    if index >? paramCount then
      throw (SqliteStatementException_
               ("Parameter index " +++ to_string index +++ " out of range [1, "
                +++ to_string paramCount +++ "]"))
    else ret tt.

(* bind(int index, int value) *)
Definition bind_int (this : t) (index : Z) (value : Z) : M World unit :=
  checkParameterIndex this index ;;
  result <- sqlite3_bind eng (mStatement this) index (arg_int value) ;;
  if negb (result =? SQLITE_OK) then
    throw (SqliteStatementException_ ("Failed to bind int at index " +++ to_string index))
  else ret tt.

(* bind(int index, std::int64_t value) *)
Definition bind_int64 (this : t) (index : Z) (value : Z) : M World unit :=
  checkParameterIndex this index ;;
  result <- sqlite3_bind eng (mStatement this) index (arg_int64 value) ;;
  if negb (result =? SQLITE_OK) then
    throw (SqliteStatementException_ ("Failed to bind int64 at index " +++ to_string index))
  else ret tt.

(* bind(int index, double value) *)
Definition bind_double (this : t) (index : Z) (value : double) : M World unit :=
  checkParameterIndex this index ;;
  result <- sqlite3_bind eng (mStatement this) index (arg_double value) ;;
  if negb (result =? SQLITE_OK) then
    throw (SqliteStatementException_ ("Failed to bind double at index " +++ to_string index))
  else ret tt.

(* bind(int index, const std::string& value) *)
Definition bind_string (this : t) (index : Z) (value : string) : M World unit :=
  checkParameterIndex this index ;;
  result <- sqlite3_bind eng (mStatement this) index (arg_text value) ;;
  if negb (result =? SQLITE_OK) then
    throw (SqliteStatementException_ ("Failed to bind text at index " +++ to_string index))
  else ret tt.

(* bind(int index, const char* value) *)
Definition bind_cstr (this : t) (index : Z) (value : string) : M World unit :=
  checkParameterIndex this index ;;
  result <- sqlite3_bind eng (mStatement this) index (arg_text value) ;;
  if negb (result =? SQLITE_OK) then
    throw (SqliteStatementException_ ("Failed to bind text at index " +++ to_string index))
  else ret tt.

(* bind(int index, const std::vector<std::byte>& blob) *)
Definition bind_blob (this : t) (index : Z) (blob : list byte) : M World unit :=
  checkParameterIndex this index ;;
  result <- sqlite3_bind eng (mStatement this) index (arg_blob blob) ;;
  if negb (result =? SQLITE_OK) then
    throw (SqliteStatementException_ ("Failed to bind text at index " +++ to_string index))
  else ret tt.

Definition bindNull (this : t) (index : Z) : M World unit :=
  checkParameterIndex this index ;;
  result <- sqlite3_bind eng (mStatement this) index arg_null ;;
  if negb (result =? SQLITE_OK) then
    throw (SqliteStatementException_ ("Failed to bind null at index " +++ to_string index))
  else ret tt.

Definition step (this : t) : M World bool :=
  result <- sqlite3_step eng (mStatement this) ;;
  if result =? SQLITE_ROW then ret true
  else if result =? SQLITE_DONE then ret false
  else throw (SqliteStatementException_
                ("Step failed with error code: " +++ to_string result)).

Definition reset (this : t) : M World unit :=
  sqlite3_reset (mStatement this).

Definition clearBindings (this : t) : M World unit :=
  sqlite3_clear_bindings (mStatement this).
End Methods.

(* the implicit destructor releases [mStatement] *)
Definition dtor (this : t) : M World unit :=
  SqliteStatementDeleter (mStatement this).

End SqliteStatement.

(** ** SqliteValueBinder.cpp *)

Module SqliteValueBinder.

Record t : Set := mk { mStmt : SqliteStatement.t }.

Section Methods.
Variable eng : Engine.

(* std::visit over the five alternatives of the variant *)
Definition bind (this : t) (index : Z) (value : SqliteValue) : M World unit :=
  match value with
  | monostate => SqliteStatement.bindNull eng (mStmt this) index
  | int64_value v => SqliteStatement.bind_int64 eng (mStmt this) index v
  | double_value v => SqliteStatement.bind_double eng (mStmt this) index v
  | string_value v => SqliteStatement.bind_string eng (mStmt this) index v
  | blob_value v => SqliteStatement.bind_blob eng (mStmt this) index v
  end.
End Methods.

End SqliteValueBinder.

(** ** SqliteDb.cpp, SqliteDb.hpp *)

Module SqliteDb.

Record t : Set := mk { mConnection : option sqlite3 }.

Definition isOpen (this : t) : bool :=
  match mConnection this with
  | Some _ => true
  | None => false
  end.

Section Methods.
Variable eng : Engine.

Definition checkConnection (this : t) : M World unit :=
  if negb (isOpen this) then throw (SqliteDbException_ "Database not open")
  else ret tt.

Definition getErrorMessage (this : t) : M World string :=
  if isOpen this then sqlite3_errmsg eng else ret "No database connection".

(* the lock_guard on mMutex, here and in execute, is not modelled: one
   thread of control *)
Definition prepare (this : t) (sql : string) : M World SqliteStatement.t :=
  checkConnection this ;;
  r <- sqlite3_prepare_v2 eng sql ;;
  let (result, rawStmt) := r : Z * stmt_ptr in
  if negb (result =? SQLITE_OK) then
    msg <- sqlite3_errmsg eng ;;
    throw (SqliteDbException_ ("Failed to prepare statement: " +++ msg))
  else ret (SqliteStatement.mk rawStmt).

Definition execute (this : t) (sql : string) : M World unit :=
  checkConnection this ;;
  r <- sqlite3_exec eng sql ;;
  let (rc, errMsg) := r : Z * option string in
  if negb (rc =? SQLITE_OK) then
    error <- match errMsg with
             | Some m => ret m
             | None => getErrorMessage this
             end ;;
    throw (SqliteDbException_ ("SQL execution error: " +++ error))
  else ret tt.

(* for (const auto& v : row) binder.bind(static_cast<int>(idx++), v); *)
Fixpoint bind_row (binder : SqliteValueBinder.t) (idx : Z) (row : list SqliteValue)
    : M World unit :=
  match row with
  | [] => ret tt
  | v :: row' =>
      SqliteValueBinder.bind eng binder (static_cast_int idx) v ;;
      bind_row binder (size_t_succ idx) row'
  end.

(* for (auto&& row : rows) { ... } *)
Fixpoint for_rows (stmt : SqliteStatement.t) (binder : SqliteValueBinder.t)
    (rows : list (list SqliteValue)) : M World unit :=
  match rows with
  | [] => ret tt
  | row :: rows' =>
      bind_row binder 1 row ;;
      _ <- SqliteStatement.step eng stmt ;;
      SqliteStatement.reset stmt ;;
      SqliteStatement.clearBindings stmt ;;
      for_rows stmt binder rows'
  end.

Definition executeBatch (this : t) (sql : string) (rows : list (list SqliteValue))
    : M World unit :=
  if negb (isOpen this) then throw (SqliteDbException_ "Database not open")
  else
    stmt <- prepare this sql ;;
    scoped (let binder := SqliteValueBinder.mk stmt in
            for_rows stmt binder rows)
           (SqliteStatement.dtor stmt).

Definition optimize (this : t) : M World unit :=
  execute this "VACUUM;".

Definition setForeignKeyOn (this : t) (value : bool) : M World unit :=
  execute this ("PRAGMA foreign_keys = " +++ (if value then "ON" else "OFF")).

Definition journalModeToString (m : JournalMode) : string :=
  match m with
  | JournalMode_TRUNCATE => "TRUNCATE"
  | JournalMode_PERSIST => "PERSIST"
  | JournalMode_MEMORY => "MEMORY"
  | JournalMode_WAL => "WAL"
  | JournalMode_OFF => "OFF"
  | _ => "DELETE"
  end.

Definition setJournalMode (this : t) (mode : JournalMode) : M World unit :=
  execute this ("PRAGMA journal_mode = " +++ journalModeToString mode).

Definition synchronousToString (s : Synchronous) : string :=
  match s with
  | Synchronous_EXTRA => "EXTRA"
  | Synchronous_NORMAL => "NORMAL"
  | Synchronous_OFF => "OFF"
  | _ => "FULL"
  end.

Definition setSynchronous (this : t) (sync : Synchronous) : M World unit :=
  execute this ("PRAGMA synchronous = " +++ synchronousToString sync).

Definition tempStoreToString (s : TempStore) : string :=
  match s with
  | TempStore_FILE => "FILE"
  | TempStore_MEMORY => "MEMORY"
  | _ => "DEFAULT"
  end.

Definition setTempStore (this : t) (store : TempStore) : M World unit :=
  execute this ("PRAGMA temp_store = " +++ tempStoreToString store).

Definition MIN_CACHE_KB : Z := 0.
Definition MAX_CACHE_KB : Z := 2000000.

(* sizeKb is a std::size_t *)
Definition setCacheSize (this : t) (sizeKb : Z) : M World unit :=
  if sizeKb <? MIN_CACHE_KB then
    throw (invalid_argument_
             ("Cache size too small: " +++ to_string sizeKb +++ " KB (minimum: "
              +++ to_string MIN_CACHE_KB +++ " KB)"))
  else if sizeKb >? MAX_CACHE_KB then
    throw (invalid_argument_
             ("Cache size too large: " +++ to_string sizeKb +++ " KB (maximum: "
              +++ to_string MAX_CACHE_KB +++ " KB)"))
  else execute this ("PRAGMA cache_size = " +++ to_string (static_cast_int64 sizeKb)).
End Methods.

End SqliteDb.

(** ** SqliteTransaction.cpp *)

Module SqliteTransaction.

Inductive Mode : Set := Deferred | Immediate | Exclusive.

Record t : Set := mk {
  mSqliteDb : SqliteDb.t;
  mIntransaction : bool
}.

Definition inTransaction (this : t) : bool := mIntransaction this.

Section Methods.
Variable eng : Engine.

(* the object exists only when the constructor returns *)
Definition ctor (sqliteDb : SqliteDb.t) (mode : Mode) : M World t :=
  if negb (SqliteDb.isOpen sqliteDb) then
    throw (SqliteTransactionException_ "No database")
  else
    let sql := match mode with
               | Deferred => "BEGIN DEFERRED;"
               | Exclusive => "BEGIN EXCLUSIVE;"
               | _ => "BEGIN IMMEDIATE;"
               end in
    SqliteDb.execute eng sqliteDb sql ;;
    ret (mk sqliteDb true).

Definition set_mIntransaction (b : bool) : M (t * World) unit :=
  this <- get_object ;;
  set_object (mk (mSqliteDb this) b).

Definition dtor : M (t * World) unit :=
  this <- get_object ;;
  if mIntransaction this then
    try_catch
      (on_world (SqliteDb.execute eng (mSqliteDb this) "ROLLBACK") ;;
       set_mIntransaction false)
      any_exception
      (fun _ => ret tt)
  else ret tt.

Definition exec (sql : string) : M (t * World) unit :=
  this <- get_object ;;
  if mIntransaction this then
    try_catch
      (on_world (SqliteDb.execute eng (mSqliteDb this) sql) ;;
       set_mIntransaction false)
      is_SqliteException
      (fun e => throw (SqliteTransactionException_ (what e)))
  else ret tt.

Definition commit : M (t * World) unit := exec "COMMIT".

Definition rollback : M (t * World) unit := exec "ROLLBACK".
End Methods.

End SqliteTransaction.

(** ** Observations on the log *)

Section Observations.
Variable eng : Engine.

(** Whether the engine reported success for call [c] made after the
    calls [h].  The wrappers never read a status from reset,
    clear-bindings or finalize. *)
Definition call_ok (h : World) (c : Call) : bool :=
  match c with
  | Exec sql => fst (exec_reply eng h sql) =? SQLITE_OK
  | Prepare sql => fst (prepare_reply eng h sql) =? SQLITE_OK
  | Bind s i a => bind_reply eng h s i a =? SQLITE_OK
  | Step s => (step_reply eng h s =? SQLITE_ROW) || (step_reply eng h s =? SQLITE_DONE)
  | Reset _ | ClearBindings _ | Finalize _ => true
  end.

(** Every call of the segment [t], made after [h], succeeded. *)
Fixpoint calls_ok (h : World) (t : list Call) : bool :=
  match t with
  | [] => true
  | c :: t' => call_ok h c && calls_ok (h ++ [c]) t'
  end.

Definition is_finalizing (c : Call) : bool :=
  match c with
  | Exec sql => (sql =? "COMMIT")%string || (sql =? "ROLLBACK")%string
  | _ => false
  end.

(** How many COMMIT or ROLLBACK commands of the segment [t] took effect. *)
Fixpoint finalized (h : World) (t : list Call) : nat :=
  match t with
  | [] => O
  | c :: t' =>
      ((if is_finalizing c && call_ok h c then 1 else 0) + finalized (h ++ [c]) t')%nat
  end.
End Observations.

Definition is_step (c : Call) : bool :=
  match c with Step _ => true | _ => false end.

Definition is_prepare (c : Call) : bool :=
  match c with Prepare _ => true | _ => false end.

Definition is_bind (c : Call) : bool :=
  match c with Bind _ _ _ => true | _ => false end.

Definition count (p : Call -> bool) (t : list Call) : nat :=
  List.length (List.filter p t).

(** The calls of one batch row, and of a whole batch, as the protocol
    prescribes them. *)
Definition bind_arg_of (v : SqliteValue) : bind_arg :=
  match v with
  | monostate => arg_null
  | int64_value x => arg_int64 x
  | double_value x => arg_double x
  | string_value x => arg_text x
  | blob_value x => arg_blob x
  end.

Fixpoint row_binds (stmt : stmt_ptr) (index : Z) (row : list SqliteValue) : list Call :=
  match row with
  | [] => []
  | v :: row' => Bind stmt index (bind_arg_of v) :: row_binds stmt (index + 1) row'
  end.

Definition row_calls (stmt : stmt_ptr) (row : list SqliteValue) : list Call :=
  row_binds stmt 1 row ++ [Step stmt; Reset stmt; ClearBindings stmt].

Definition finalize_calls (stmt : stmt_ptr) : list Call :=
  match stmt with
  | Some s => [Finalize s]
  | None => []
  end.

Definition batch_calls (sql : string) (stmt : stmt_ptr) (rows : list (list SqliteValue))
    : list Call :=
  Prepare sql :: flat_map (row_calls stmt) rows ++ finalize_calls stmt.

(** A caller that issues commit and rollback calls one after the other on
    the same transaction and catches whatever each of them raises. *)
Inductive tx_call : Set := call_commit | call_rollback.

Definition run_tx_call (eng : Engine) (c : tx_call)
    : M (SqliteTransaction.t * World) unit :=
  match c with
  | call_commit => SqliteTransaction.commit eng
  | call_rollback => SqliteTransaction.rollback eng
  end.

Fixpoint run_tx_calls (eng : Engine) (cs : list tx_call)
    (s : SqliteTransaction.t * World) : SqliteTransaction.t * World :=
  match cs with
  | [] => s
  | c :: cs' => run_tx_calls eng cs' (snd (run_tx_call eng c s))
  end.

(** The index test of [checkParameterIndex]. *)
Definition in_range (stmt : SqliteStatement.t) (index : Z) : Prop :=
  1 <= index <= SqliteStatement.getParameterCount stmt.

(** A statement-category error raised with the log left as it was. *)
Definition rejected (c : M World unit) (w : World) : Prop :=
  exists e, c w = (Throw e, w) /\ class e = SqliteStatementException.

(** The word after "Failed to bind" in the message of the overload that
    [SqliteValueBinder::bind] selects for a value. *)
Definition bind_kind_text (v : SqliteValue) : string :=
  match v with
  | monostate => "null"
  | int64_value _ => "int64"
  | double_value _ => "double"
  | string_value _ => "text"
  | blob_value _ => "text"
  end.

(** [mentions word message]: [word] occurs in [message]. *)
Definition mentions (word message : string) : bool :=
  match String.index 0 word message with
  | Some _ => true
  | None => false
  end.

(** The engine refuses some bind, some step, on the statement. *)
Definition bind_refused (eng : Engine) (stmt : stmt_ptr) : Prop :=
  exists h i a, bind_reply eng h stmt i a <> SQLITE_OK.

Definition step_refused (eng : Engine) (stmt : stmt_ptr) : Prop :=
  exists h, step_reply eng h stmt <> SQLITE_ROW /\ step_reply eng h stmt <> SQLITE_DONE.

(** ** Failures that are surfaced *)

(** An operation surfaces the failures of the calls whose status the
    wrappers read when it returns normally only if every exec, prepare,
    bind and step call it made succeeded ([calls_ok] looks at no other
    status). *)
Definition surfaces_failures (eng : Engine) {A} (c : M World A) : Prop :=
  forall w a w', c w = (Ok a, w') ->
    exists t, w' = w ++ t /\ calls_ok eng w t = true.

(** ** Sample engines *)

(** Compiles any text into a statement with [P] placeholders and reports
    success for every call. *)
Definition obliging_engine (P : Z) : Engine :=
  mkEngine (fun _ _ => (SQLITE_OK, None))
           (fun _ => "not an error")
           (fun _ sql => (SQLITE_OK, Some (mkStmt sql P)))
           (fun _ _ _ _ => SQLITE_OK)
           (fun _ _ => SQLITE_DONE).

(** Refuses every command given to sqlite3_exec (SQLITE_BUSY). *)
Definition busy_engine : Engine :=
  mkEngine (fun _ _ => (5, Some "database is locked"))
           (fun _ => "database is locked")
           (fun _ sql => (SQLITE_OK, Some (mkStmt sql 1)))
           (fun _ _ _ _ => SQLITE_OK)
           (fun _ _ => SQLITE_DONE).

(** Refuses every bind (SQLITE_NOMEM). *)
Definition nomem_engine : Engine :=
  mkEngine (fun _ _ => (SQLITE_OK, None))
           (fun _ => "out of memory")
           (fun _ sql => (SQLITE_OK, Some (mkStmt sql 1)))
           (fun _ _ _ _ => 7)
           (fun _ _ => SQLITE_DONE).

Definition open_db : SqliteDb.t := SqliteDb.mk (Some (sqlite3_handle 0)).

(** * The rest of the statement and connection classes *)

(** ** Reading the current row (SqliteStatement.cpp) *)

Definition SQLITE_NULL : Z := 5.

(** What the engine lets a statement read: the shape and the values of
    the current row.  These calls are observations, like
    [sqlite3_errmsg]: they are not logged.  A null [const char*] is
    [None]. *)
Record Columns : Type := mkColumns {
  column_count_reply : World -> stmt_ptr -> Z;
  column_name_reply : World -> stmt_ptr -> Z -> option string;
  column_type_reply : World -> stmt_ptr -> Z -> Z;
  column_int_reply : World -> stmt_ptr -> Z -> Z;
  column_int64_reply : World -> stmt_ptr -> Z -> Z;
  column_double_reply : World -> stmt_ptr -> Z -> double;
  column_text_reply : World -> stmt_ptr -> Z -> option string;
  column_bytes_reply : World -> stmt_ptr -> Z -> Z;
  (* the bytes found at the address sqlite3_column_blob returns *)
  column_blob_reply : World -> stmt_ptr -> Z -> list byte
}.

Module SqliteStatementGetters.

Section Methods.
Variable cols : Columns.
Let t := SqliteStatement.t.
Let ptr (this : t) := SqliteStatement.mStatement this.

Definition getColumnCount (this : t) : M World Z :=
  fun w => (Ok (column_count_reply cols w (ptr this)), w).

Definition checkColumnIndex (this : t) (column : Z) : M World unit :=
  columnCount <- getColumnCount this ;;
  if (column <? 0) || (column >=? columnCount) then
    throw (SqliteStatementException_
             ("Column index " +++ to_string column +++ " out of range [0, "
              +++ to_string (columnCount - 1) +++ "]"))
  else ret tt.

Definition getInt (this : t) (column : Z) : M World Z :=
  checkColumnIndex this column ;;
  fun w => (Ok (column_int_reply cols w (ptr this) column), w).

Definition getInt64 (this : t) (column : Z) : M World Z :=
  checkColumnIndex this column ;;
  fun w => (Ok (column_int64_reply cols w (ptr this) column), w).

Definition getDouble (this : t) (column : Z) : M World double :=
  checkColumnIndex this column ;;
  fun w => (Ok (column_double_reply cols w (ptr this) column), w).

Definition getString (this : t) (column : Z) : M World string :=
  checkColumnIndex this column ;;
  fun w =>
    match column_text_reply cols w (ptr this) column with
    | Some text => (Ok text, w)
    | None => (Ok "", w)
    end.

(* std::vector<std::byte>(data, data + size) *)
Definition getBlob (this : t) (column : Z) : M World (list byte) :=
  checkColumnIndex this column ;;
  fun w =>
    let size := column_bytes_reply cols w (ptr this) column in
    let data := column_blob_reply cols w (ptr this) column in
    (Ok (firstn (Z.to_nat size) data), w).

Definition isNull (this : t) (column : Z) : M World bool :=
  checkColumnIndex this column ;;
  fun w => (Ok (column_type_reply cols w (ptr this) column =? SQLITE_NULL), w).

Definition getColumnName (this : t) (column : Z) : M World string :=
  checkColumnIndex this column ;;
  fun w =>
    match column_name_reply cols w (ptr this) column with
    | Some name => (Ok name, w)
    | None => (Ok "", w)
    end.

(** The values [i] takes in [for (int i = 0; i < count; ++i)]. *)
Definition loop_indices (count : Z) : list Z :=
  List.map Z.of_nat (List.seq 0 (Z.to_nat count)).

Fixpoint find_column (this : t) (name : string) (indices : list Z) : M World Z :=
  match indices with
  | [] => throw (SqliteStatementException_ ("Column not found: " +++ name))
  | i :: indices' =>
      n <- getColumnName this i ;;
      if (n =? name)%string then ret i else find_column this name indices'
  end.

Definition getColumnIndex (this : t) (name : string) : M World Z :=
  count <- getColumnCount this ;;
  find_column this name (loop_indices count).

Definition getInt_by_name (this : t) (columnName : string) : M World Z :=
  i <- getColumnIndex this columnName ;; getInt this i.

Definition getInt64_by_name (this : t) (columnName : string) : M World Z :=
  i <- getColumnIndex this columnName ;; getInt64 this i.

Definition getDouble_by_name (this : t) (columnName : string) : M World double :=
  i <- getColumnIndex this columnName ;; getDouble this i.

Definition getString_by_name (this : t) (columnName : string) : M World string :=
  i <- getColumnIndex this columnName ;; getString this i.

Definition getBlob_by_name (this : t) (columnName : string) : M World (list byte) :=
  i <- getColumnIndex this columnName ;; getBlob this i.

Definition isNull_by_name (this : t) (columnName : string) : M World bool :=
  i <- getColumnIndex this columnName ;; isNull this i.

(* isNull(column) ? std::optional<T>{} : std::optional{getT(column)} *)
Definition getOptionalInt (this : t) (column : Z) : M World (option Z) :=
  null <- isNull this column ;;
  if null then ret None else v <- getInt this column ;; ret (Some v).

Definition getOptionalInt64 (this : t) (column : Z) : M World (option Z) :=
  null <- isNull this column ;;
  if null then ret None else v <- getInt64 this column ;; ret (Some v).

Definition getOptionalDouble (this : t) (column : Z) : M World (option double) :=
  null <- isNull this column ;;
  if null then ret None else v <- getDouble this column ;; ret (Some v).

Definition getOptionalString (this : t) (column : Z) : M World (option string) :=
  null <- isNull this column ;;
  if null then ret None else v <- getString this column ;; ret (Some v).
End Methods.

End SqliteStatementGetters.

(** ** bindAll (SqliteStatement.hpp) *)

(** The argument kinds [bindParameter] accepts.  The branch written for
    byte vectors tests a decayed type against a reference type and is
    never chosen, so a byte vector is refused when the template is
    instantiated and is not an argument here. *)
Inductive bindable : Set :=
| bindable_int (v : Z)
| bindable_long_long (v : Z)
| bindable_double (v : double)
| bindable_string (v : string)
| bindable_cstr (v : string)
| bindable_nullptr.

Module SqliteStatementBindAll.

Section Methods.
Variable eng : Engine.

Definition bindParameter (this : SqliteStatement.t) (index : Z) (value : bindable)
    : M World unit :=
  match value with
  | bindable_int v => SqliteStatement.bind_int eng this index v
  | bindable_long_long v => SqliteStatement.bind_int64 eng this index v
  | bindable_double v => SqliteStatement.bind_double eng this index v
  | bindable_string v => SqliteStatement.bind_string eng this index v
  | bindable_cstr v => SqliteStatement.bind_cstr eng this index v
  | bindable_nullptr => SqliteStatement.bindNull eng this index
  end.

(* (bindParameter(index++, args), ...): left to right; a parameter pack is
   far shorter than INT_MAX, so the int index does not overflow *)
Fixpoint bindAll_from (this : SqliteStatement.t) (index : Z) (args : list bindable)
    : M World unit :=
  match args with
  | [] => ret tt
  | a :: args' => bindParameter this index a ;; bindAll_from this (index + 1) args'
  end.

Definition bindAll (this : SqliteStatement.t) (args : list bindable) : M World unit :=
  bindAll_from this 1 args.
End Methods.

End SqliteStatementBindAll.

Definition bind_arg_of_bindable (a : bindable) : bind_arg :=
  match a with
  | bindable_int v => arg_int v
  | bindable_long_long v => arg_int64 v
  | bindable_double v => arg_double v
  | bindable_string v => arg_text v
  | bindable_cstr v => arg_text v
  | bindable_nullptr => arg_null
  end.

Fixpoint args_binds (stmt : stmt_ptr) (index : Z) (args : list bindable) : list Call :=
  match args with
  | [] => []
  | a :: args' => Bind stmt index (bind_arg_of_bindable a) :: args_binds stmt (index + 1) args'
  end.

(** ** Connection introspection (SqliteDb.cpp) *)

Record Introspection : Type := mkIntrospection {
  errcode_reply : World -> Z;
  last_insert_rowid_reply : World -> Z
}.

Module SqliteDbIntrospection.

Section Methods.
Variable eng : Engine.
Variable intro : Introspection.

Definition getErrorCode (this : SqliteDb.t) : M World Z :=
  if SqliteDb.isOpen this then (fun w => (Ok (errcode_reply intro w), w)) else ret (-1).

Definition getLastInsertedRowId (this : SqliteDb.t) : M World Z :=
  SqliteDb.checkConnection this ;;
  fun w => (Ok (last_insert_rowid_reply intro w), w).
End Methods.

End SqliteDbIntrospection.

(** ** Loading an extension (SqliteDb.cpp) *)

(** The calls of [loadExtension] reach the engine through two entry points
    of their own; they are logged apart from the statement and command
    calls. *)
Inductive ext_call : Set :=
| EnableLoadExtension (db : option sqlite3) (onoff : Z)
| LoadExtension (db : option sqlite3) (zFile : string) (zProc : option string).

Record ExtensionLoader : Type := mkExtensionLoader {
  (* std::filesystem::exists *)
  file_exists : string -> bool;
  (* sqlite3_enable_load_extension *)
  enable_reply : list ext_call -> option sqlite3 -> Z -> Z;
  (* sqlite3_load_extension: result code and the message stored through [&errorMsg] *)
  load_reply : list ext_call -> option sqlite3 -> string -> option string -> Z * option string;
  (* sqlite3_errmsg *)
  ext_errmsg_reply : list ext_call -> string
}.

Module SqliteDbExtension.

Section Methods.
Variable ld : ExtensionLoader.

Definition sqlite3_enable_load_extension (db : option sqlite3) (onoff : Z)
    : M (list ext_call) Z :=
  fun l => (Ok (enable_reply ld l db onoff), l ++ [EnableLoadExtension db onoff]).

Definition sqlite3_load_extension (db : option sqlite3) (zFile : string)
    (zProc : option string) : M (list ext_call) (Z * option string) :=
  fun l => (Ok (load_reply ld l db zFile zProc), l ++ [LoadExtension db zFile zProc]).

Definition sqlite3_errmsg_ext : M (list ext_call) string :=
  fun l => (Ok (ext_errmsg_reply ld l), l).

(* getErrorMessage, read on this log *)
Definition getErrorMessage (this : SqliteDb.t) : M (list ext_call) string :=
  if SqliteDb.isOpen this then sqlite3_errmsg_ext else ret "No database connection".

Definition loadExtension (this : SqliteDb.t) (libraryPath entryPoint : string)
    : M (list ext_call) unit :=
  if negb (file_exists ld libraryPath) then
    throw (SqliteDbException_ ("'" +++ libraryPath +++ "' does not exist"))
  else
    let conn := SqliteDb.mConnection this in
    result <- sqlite3_enable_load_extension conn 1 ;;
    if negb (result =? SQLITE_OK) then
      msg <- getErrorMessage this ;;
      throw (mkException SqliteDbException
               ("Failed to enable extension loading: " +++ msg) result)
    else
      r <- sqlite3_load_extension conn libraryPath
             (if (entryPoint =? "")%string then None else Some entryPoint) ;;
      let (result, errorMsg) := r : Z * option string in
      (* disableExtensionGuard() *)
      _ <- sqlite3_enable_load_extension conn 0 ;;
      if negb (result =? SQLITE_OK) then
        detail <- match errorMsg with
                  | Some m => ret m
                  | None => sqlite3_errmsg_ext
                  end ;;
        throw (mkException SqliteDbException
                 ("Failed to load extension '" +++ libraryPath +++ "': " +++ detail) result)
      else ret tt.
End Methods.

End SqliteDbExtension.

(** ** More observations *)

Definition is_finalize (c : Call) : bool :=
  match c with Finalize _ => true | _ => false end.

(** A bind call, if it is one, addresses a placeholder of a statement
    with [P] of them. *)
Definition bind_within (P : Z) (c : Call) : Prop :=
  match c with
  | Bind _ index _ => 1 <= index <= P
  | _ => True
  end.

(** The name the wrapper sees for a column: the empty string stands for a
    null name. *)
Definition column_name_at (cols : Columns) (w : World) (stmt : stmt_ptr) (i : Z) : string :=
  match column_name_reply cols w stmt i with
  | Some name => name
  | None => ""
  end.

(** ** Statuses the wrappers drop *)

(** [sqlite3_reset], [sqlite3_clear_bindings] and [sqlite3_finalize]
    return a result code like the other calls; [reset], [clearBindings]
    and the statement deleter call them as plain statements and never
    look at it.  What the engine answers there is kept apart from
    [Engine], since no wrapper reads it. *)
Record DroppedStatuses : Type := mkDroppedStatuses {
  reset_reply : World -> stmt_ptr -> Z;
  clear_bindings_reply : World -> stmt_ptr -> Z;
  finalize_reply : World -> sqlite3_stmt -> Z
}.

(** Whether the engine reported success for call [c] made after [h],
    the dropped statuses included. *)
Definition status_ok (eng : Engine) (st : DroppedStatuses) (h : World) (c : Call) : bool :=
  match c with
  | Reset s => reset_reply st h s =? SQLITE_OK
  | ClearBindings s => clear_bindings_reply st h s =? SQLITE_OK
  | Finalize s => finalize_reply st h s =? SQLITE_OK
  | _ => call_ok eng h c
  end.

Fixpoint statuses_ok (eng : Engine) (st : DroppedStatuses) (h : World) (t : list Call)
    : bool :=
  match t with
  | [] => true
  | c :: t' => status_ok eng st h c && statuses_ok eng st (h ++ [c]) t'
  end.

(** An operation reports every failure when it returns normally only if
    every engine call it made answered success, whether the wrapper
    reads that answer or not. *)
Definition reports_every_failure (eng : Engine) (st : DroppedStatuses) {A}
    (c : M World A) : Prop :=
  forall w a w', c w = (Ok a, w') ->
    exists t, w' = w ++ t /\ statuses_ok eng st w t = true.

(** The same for a method of an object with mutable fields. *)
Definition method_reports_every_failure (eng : Engine) (st : DroppedStatuses) {O A}
    (c : M (O * World) A) : Prop :=
  forall o w a o' w', c (o, w) = (Ok a, (o', w')) ->
    exists t, w' = w ++ t /\ statuses_ok eng st w t = true.

(** The operations that read the status of every engine call they make. *)
Record failures_reported (eng : Engine) (st : DroppedStatuses) : Prop :=
  mkFailuresReported {
  fr_bind_int :
    forall s i v, reports_every_failure eng st (SqliteStatement.bind_int eng s i v);
  fr_bind_int64 :
    forall s i v, reports_every_failure eng st (SqliteStatement.bind_int64 eng s i v);
  fr_bind_double :
    forall s i v, reports_every_failure eng st (SqliteStatement.bind_double eng s i v);
  fr_bind_string :
    forall s i v, reports_every_failure eng st (SqliteStatement.bind_string eng s i v);
  fr_bind_cstr :
    forall s i v, reports_every_failure eng st (SqliteStatement.bind_cstr eng s i v);
  fr_bind_blob :
    forall s i v, reports_every_failure eng st (SqliteStatement.bind_blob eng s i v);
  fr_bindNull :
    forall s i, reports_every_failure eng st (SqliteStatement.bindNull eng s i);
  fr_step : forall s, reports_every_failure eng st (SqliteStatement.step eng s);
  fr_binder :
    forall b i v, reports_every_failure eng st (SqliteValueBinder.bind eng b i v);
  fr_bindAll :
    forall s args, reports_every_failure eng st (SqliteStatementBindAll.bindAll eng s args);
  fr_prepare : forall db sql, reports_every_failure eng st (SqliteDb.prepare eng db sql);
  fr_execute : forall db sql, reports_every_failure eng st (SqliteDb.execute eng db sql);
  fr_optimize : forall db, reports_every_failure eng st (SqliteDb.optimize eng db);
  fr_setForeignKeyOn :
    forall db v, reports_every_failure eng st (SqliteDb.setForeignKeyOn eng db v);
  fr_setJournalMode :
    forall db m, reports_every_failure eng st (SqliteDb.setJournalMode eng db m);
  fr_setSynchronous :
    forall db m, reports_every_failure eng st (SqliteDb.setSynchronous eng db m);
  fr_setTempStore :
    forall db m, reports_every_failure eng st (SqliteDb.setTempStore eng db m);
  fr_setCacheSize :
    forall db n, reports_every_failure eng st (SqliteDb.setCacheSize eng db n);
  fr_ctor : forall db m, reports_every_failure eng st (SqliteTransaction.ctor eng db m);
  fr_commit : method_reports_every_failure eng st (SqliteTransaction.commit eng);
  fr_rollback : method_reports_every_failure eng st (SqliteTransaction.rollback eng)
}.

(** The statuses of the calls of [loadExtension]. *)
Definition ext_status_ok (ld : ExtensionLoader) (l : list ext_call) (c : ext_call) : bool :=
  match c with
  | EnableLoadExtension db onoff => enable_reply ld l db onoff =? SQLITE_OK
  | LoadExtension db zFile zProc => fst (load_reply ld l db zFile zProc) =? SQLITE_OK
  end.

Fixpoint ext_statuses_ok (ld : ExtensionLoader) (l : list ext_call) (t : list ext_call)
    : bool :=
  match t with
  | [] => true
  | c :: t' => ext_status_ok ld l c && ext_statuses_ok ld (l ++ [c]) t'
  end.

(** ** More sample engines *)

(** Reports SQLITE_CONSTRAINT from every reset and finalize, and an error
    from every clear-bindings. *)
Definition refusing_statuses : DroppedStatuses :=
  mkDroppedStatuses (fun _ _ => 19) (fun _ _ => 1) (fun _ _ => 19).

(** Loads the library, then refuses to switch extension loading off. *)
Definition sticky_loader : ExtensionLoader :=
  mkExtensionLoader (fun path => (path =? "/lib/ext.so")%string)
                    (fun _ _ onoff => if onoff =? 0 then 1 else SQLITE_OK)
                    (fun _ _ _ _ => (SQLITE_OK, None))
                    (fun _ => "not an error").

(** A row of three columns, id, name and age, the last one NULL. *)
Definition users_row : Columns :=
  mkColumns (fun _ _ => 3)
            (fun _ _ i => if i =? 0 then Some "id" else if i =? 1 then Some "name"
                          else if i =? 2 then Some "age" else None)
            (fun _ _ i => if i =? 0 then 1 else if i =? 1 then 3 else SQLITE_NULL)
            (fun _ _ i => if i =? 0 then 7 else 0)
            (fun _ _ i => if i =? 0 then 7 else 0)
            (fun _ _ _ => 0)
            (fun _ _ i => if i =? 0 then Some "7" else if i =? 1 then Some "Alice" else None)
            (fun _ _ i => if i =? 0 then 1 else if i =? 1 then 5 else 0)
            (fun _ _ i => if i =? 1 then [x41; x6c; x69; x63; x65] else []).

(** Accepts every bind but refuses the second step it sees (SQLITE_CONSTRAINT). *)
Definition constraint_engine (P : Z) : Engine :=
  mkEngine (fun _ _ => (SQLITE_OK, None))
           (fun _ => "UNIQUE constraint failed")
           (fun _ sql => (SQLITE_OK, Some (mkStmt sql P)))
           (fun _ _ _ _ => SQLITE_OK)
           (fun h _ => if (count is_step h =? 0)%nat then SQLITE_DONE else 19).

(** The library file is there; enabling works; the load fails. *)
Definition broken_library : ExtensionLoader :=
  mkExtensionLoader (fun path => (path =? "/lib/ext.so")%string)
                    (fun _ _ _ => SQLITE_OK)
                    (fun _ _ _ _ => (1, Some "undefined symbol"))
                    (fun _ => "not an error").

Definition quiet_introspection : Introspection :=
  mkIntrospection (fun _ => 0) (fun _ => 42).

(** * Properties *)

(** ** Machine integers *)

Lemma static_cast_int_id (x : Z) : is_int x -> static_cast_int x = x.
Proof.
  unfold is_int, static_cast_int, INT_MAX. intros H.
  rewrite Z.mod_small by lia. lia.
Qed.

Lemma size_t_succ_small (idx : Z) : 0 <= idx <= INT_MAX -> size_t_succ idx = idx + 1.
Proof.
  unfold size_t_succ, INT_MAX, SIZE_MAX. intros H.
  apply Z.mod_small. lia.
Qed.

Lemma static_cast_int_wraps : static_cast_int (INT_MAX + 1) = - INT_MAX - 1.
Proof. reflexivity. Qed.

Lemma static_cast_int64_id (x : Z) :
  - 9223372036854775808 <= x <= 9223372036854775807 -> static_cast_int64 x = x.
Proof.
  unfold static_cast_int64. intros H. rewrite Z.mod_small by lia. lia.
Qed.

(** ** Statements *)

Section StatementFacts.
Variable eng : Engine.
Implicit Types (stmt : SqliteStatement.t) (index : Z) (w : World).

Lemma checkParameterIndex_in_range stmt index w :
  in_range stmt index ->
  SqliteStatement.checkParameterIndex stmt index w = (Ok tt, w).
Proof.
  unfold in_range, SqliteStatement.checkParameterIndex. intros [H1 H2].
  destruct (Z.ltb_spec index 1); [lia|].
  destruct (Z.gtb_spec index (SqliteStatement.getParameterCount stmt)); [lia|].
  reflexivity.
Qed.

Lemma checkParameterIndex_out_of_range stmt index w :
  ~ in_range stmt index ->
  rejected (SqliteStatement.checkParameterIndex stmt index) w.
Proof.
  unfold in_range, rejected, SqliteStatement.checkParameterIndex. intros H.
  destruct (Z.ltb_spec index 1).
  - eexists. split; reflexivity.
  - destruct (Z.gtb_spec index (SqliteStatement.getParameterCount stmt)); [|lia].
    eexists. split; reflexivity.
Qed.

(** A computation guarded by the index check is rejected with it. *)
Lemma rejected_guard stmt index (k : M World unit) w :
  ~ in_range stmt index ->
  rejected (SqliteStatement.checkParameterIndex stmt index ;; k) w.
Proof.
  intros H. destruct (checkParameterIndex_out_of_range stmt index w H) as (e & He & Hc).
  exists e. unfold bind. rewrite He. split; [reflexivity | exact Hc].
Qed.

(** What the binder does with a value at an index, in one equation:
    the overload chosen by the variant's alternative checks the index,
    makes the matching engine call, and throws on a status other than
    SQLITE_OK. *)
Lemma binder_bind_in_range binder index v w :
  in_range (SqliteValueBinder.mStmt binder) index ->
  SqliteValueBinder.bind eng binder index v w =
    let stmt := SqliteStatement.mStatement (SqliteValueBinder.mStmt binder) in
    let w' := w ++ [Bind stmt index (bind_arg_of v)] in
    if bind_reply eng w stmt index (bind_arg_of v) =? SQLITE_OK
    then (Ok tt, w')
    else (Throw (SqliteStatementException_
                   ("Failed to bind " +++ bind_kind_text v +++ " at index "
                    +++ to_string index)), w').
Proof.
  intros H.
  destruct v; cbn [SqliteValueBinder.bind bind_arg_of bind_kind_text];
    unfold SqliteStatement.bindNull, SqliteStatement.bind_int64,
      SqliteStatement.bind_double, SqliteStatement.bind_string,
      SqliteStatement.bind_blob, bind;
    rewrite (checkParameterIndex_in_range _ _ _ H);
    unfold sqlite3_bind; cbv zeta;
    match goal with |- context [?r =? SQLITE_OK] => destruct (r =? SQLITE_OK) end;
    reflexivity.
Qed.

Lemma binder_bind_out_of_range binder index v w :
  ~ in_range (SqliteValueBinder.mStmt binder) index ->
  rejected (SqliteValueBinder.bind eng binder index v) w.
Proof.
  intros H. destruct v; cbn [SqliteValueBinder.bind]; apply rejected_guard; exact H.
Qed.
End StatementFacts.

(** C7. A bind whose index is below 1 or above the statement's parameter
    count fails with a statement-category error in every overload and in
    [bindNull], and the log of engine calls is left untouched: the check
    fires before any engine bind call. *)
Theorem bind_index_out_of_range :
  forall (eng : Engine) (stmt : SqliteStatement.t) (index : Z) (w : World),
    index < 1 \/ index > SqliteStatement.getParameterCount stmt ->
    (forall v, rejected (SqliteStatement.bind_int eng stmt index v) w) /\
    (forall v, rejected (SqliteStatement.bind_int64 eng stmt index v) w) /\
    (forall v, rejected (SqliteStatement.bind_double eng stmt index v) w) /\
    (forall v, rejected (SqliteStatement.bind_string eng stmt index v) w) /\
    (forall v, rejected (SqliteStatement.bind_cstr eng stmt index v) w) /\
    (forall v, rejected (SqliteStatement.bind_blob eng stmt index v) w) /\
    rejected (SqliteStatement.bindNull eng stmt index) w /\
    (forall binder v, SqliteValueBinder.mStmt binder = stmt ->
       rejected (SqliteValueBinder.bind eng binder index v) w).
Proof.
  intros eng stmt index w H.
  assert (Hn : ~ in_range stmt index) by (unfold in_range; lia).
  repeat split; intros; try (apply rejected_guard; exact Hn).
  subst stmt. apply binder_bind_out_of_range. exact Hn.
Qed.

Lemma bind_index_out_of_range_witness :
  let stmt := SqliteStatement.mk (Some (mkStmt "INSERT INTO t VALUES (?, ?)" 2)) in
  rejected (SqliteStatement.bind_int (obliging_engine 2) stmt 3 7) [] /\
  rejected (SqliteStatement.bind_blob (obliging_engine 2) stmt 0 [x01]) [] /\
  rejected (SqliteStatement.bindNull (obliging_engine 2) stmt (-1)) [].
Proof.
  intros stmt. split; [|split].
  - apply (bind_index_out_of_range (obliging_engine 2) stmt 3 []). right. cbn. lia.
  - apply (bind_index_out_of_range (obliging_engine 2) stmt 0 []). left. lia.
  - apply (bind_index_out_of_range (obliging_engine 2) stmt (-1) []). left. lia.
Defined.

(** What the blob overload raises when the engine refuses its bind. *)
Lemma bind_blob_refused (eng : Engine) (stmt : SqliteStatement.t) (index : Z)
    (blob : list byte) (w : World) :
  in_range stmt index ->
  bind_reply eng w (SqliteStatement.mStatement stmt) index (arg_blob blob) <> SQLITE_OK ->
  SqliteStatement.bind_blob eng stmt index blob w =
    (Throw (SqliteStatementException_ ("Failed to bind text at index " +++ to_string index)),
     w ++ [Bind (SqliteStatement.mStatement stmt) index (arg_blob blob)]).
Proof.
  intros Hin Hno. unfold SqliteStatement.bind_blob, bind.
  rewrite (checkParameterIndex_in_range stmt index w Hin). unfold sqlite3_bind.
  destruct (Z.eqb_spec (bind_reply eng w (SqliteStatement.mStatement stmt) index
                          (arg_blob blob)) SQLITE_OK); [contradiction | reflexivity].
Qed.

(** C8, evaluated where the code departs from it.  When the engine
    refuses a bind, the int, int64, double, text and null overloads raise
    a statement-category error whose message names the index and their
    own kind; the blob overload raises a statement-category error whose
    message names the index and the kind "text", and does not mention
    "blob". *)
Theorem bind_blob_failure_names_text :
  let stmt := SqliteStatement.mk (Some (mkStmt "INSERT INTO t VALUES (?)" 1)) in
  let sent := [Bind (SqliteStatement.mStatement stmt) 1 (arg_blob [x01; x02])] in
  SqliteStatement.bind_blob nomem_engine stmt 1 [x01; x02] [] =
    (Throw (SqliteStatementException_ "Failed to bind text at index 1"), sent) /\
  mentions "blob" "Failed to bind text at index 1" = false /\
  SqliteStatement.bind_int nomem_engine stmt 1 7 [] =
    (Throw (SqliteStatementException_ "Failed to bind int at index 1"),
     [Bind (SqliteStatement.mStatement stmt) 1 (arg_int 7)]) /\
  SqliteStatement.bind_int64 nomem_engine stmt 1 7 [] =
    (Throw (SqliteStatementException_ "Failed to bind int64 at index 1"),
     [Bind (SqliteStatement.mStatement stmt) 1 (arg_int64 7)]) /\
  SqliteStatement.bind_double nomem_engine stmt 1 0 [] =
    (Throw (SqliteStatementException_ "Failed to bind double at index 1"),
     [Bind (SqliteStatement.mStatement stmt) 1 (arg_double 0)]) /\
  SqliteStatement.bind_string nomem_engine stmt 1 "a" [] =
    (Throw (SqliteStatementException_ "Failed to bind text at index 1"),
     [Bind (SqliteStatement.mStatement stmt) 1 (arg_text "a")]) /\
  SqliteStatement.bindNull nomem_engine stmt 1 [] =
    (Throw (SqliteStatementException_ "Failed to bind null at index 1"),
     [Bind (SqliteStatement.mStatement stmt) 1 arg_null]).
Proof. vm_compute. repeat split. Qed.

(** ** Connections *)

Section ConnectionFacts.
Variable eng : Engine.
Implicit Types (db : SqliteDb.t) (sql : string) (w : World).

Lemma execute_not_open db sql w :
  SqliteDb.isOpen db = false ->
  SqliteDb.execute eng db sql w = (Throw (SqliteDbException_ "Database not open"), w).
Proof.
  intros H. unfold SqliteDb.execute, SqliteDb.checkConnection, bind.
  rewrite H. reflexivity.
Qed.

Lemma execute_ok db sql w :
  SqliteDb.isOpen db = true ->
  fst (exec_reply eng w sql) = SQLITE_OK ->
  SqliteDb.execute eng db sql w = (Ok tt, w ++ [Exec sql]).
Proof.
  intros H Hrc. unfold SqliteDb.execute, SqliteDb.checkConnection, bind, sqlite3_exec.
  rewrite H. cbn. destruct (exec_reply eng w sql) as [rc errMsg]. cbn in Hrc.
  subst rc. reflexivity.
Qed.

Lemma execute_fail db sql w :
  SqliteDb.isOpen db = true ->
  fst (exec_reply eng w sql) <> SQLITE_OK ->
  exists error,
    SqliteDb.execute eng db sql w =
      (Throw (SqliteDbException_ ("SQL execution error: " +++ error)), w ++ [Exec sql]).
Proof.
  intros H Hrc. unfold SqliteDb.execute, SqliteDb.checkConnection, bind, sqlite3_exec.
  rewrite H. cbn. destruct (exec_reply eng w sql) as [rc errMsg]. cbn in Hrc.
  destruct (Z.eqb_spec rc SQLITE_OK) as [|_]; [contradiction|]. cbn.
  destruct errMsg as [m|].
  - exists m. reflexivity.
  - unfold SqliteDb.getErrorMessage. rewrite H. eexists. reflexivity.
Qed.

(** Whatever [execute] raises is a connection-category error. *)
Lemma execute_throws_db db sql w e w' :
  SqliteDb.execute eng db sql w = (Throw e, w') -> class e = SqliteDbException.
Proof.
  intros H. destruct (SqliteDb.isOpen db) eqn:Ho.
  - destruct (Z.eq_dec (fst (exec_reply eng w sql)) SQLITE_OK) as [Hrc|Hrc].
    + rewrite (execute_ok _ _ _ Ho Hrc) in H. discriminate.
    + destruct (execute_fail _ _ _ Ho Hrc) as (m & Hm). rewrite Hm in H.
      inversion H. reflexivity.
  - rewrite (execute_not_open _ _ _ Ho) in H. inversion H. reflexivity.
Qed.

(** [execute] sends at most the one command it was given. *)
Lemma execute_log db sql w :
  snd (SqliteDb.execute eng db sql w) =
    if SqliteDb.isOpen db then w ++ [Exec sql] else w.
Proof.
  destruct (SqliteDb.isOpen db) eqn:Ho.
  - destruct (Z.eq_dec (fst (exec_reply eng w sql)) SQLITE_OK) as [Hrc|Hrc].
    + rewrite (execute_ok _ _ _ Ho Hrc). reflexivity.
    + destruct (execute_fail _ _ _ Ho Hrc) as (m & Hm). rewrite Hm. reflexivity.
  - rewrite (execute_not_open _ _ _ Ho). reflexivity.
Qed.

(** Returning normally means the command was sent and accepted. *)
Lemma execute_returns db sql w w' :
  SqliteDb.execute eng db sql w = (Ok tt, w') ->
  SqliteDb.isOpen db = true /\ fst (exec_reply eng w sql) = SQLITE_OK /\
  w' = w ++ [Exec sql].
Proof.
  intros H. destruct (SqliteDb.isOpen db) eqn:Ho.
  - destruct (Z.eq_dec (fst (exec_reply eng w sql)) SQLITE_OK) as [Hrc|Hrc].
    + rewrite (execute_ok _ _ _ Ho Hrc) in H. inversion H. auto.
    + destruct (execute_fail _ _ _ Ho Hrc) as (m & Hm). rewrite Hm in H. discriminate.
  - rewrite (execute_not_open _ _ _ Ho) in H. discriminate.
Qed.
End ConnectionFacts.

(** C9. A requested cache size outside [0, 2000000] makes [setCacheSize]
    fail with an invalid-argument error and leaves the log of engine calls
    as it was (so for 2000001); a size inside the range, on an open
    connection, adds exactly one command to the log, the cache-size
    pragma for that size. *)
Theorem setCacheSize_validates_range :
  forall (eng : Engine) (db : SqliteDb.t) (sizeKb : Z) (w : World),
    (~ (0 <= sizeKb <= 2000000) ->
       exists e, SqliteDb.setCacheSize eng db sizeKb w = (Throw e, w) /\
                 class e = invalid_argument) /\
    (0 <= sizeKb <= 2000000 -> SqliteDb.isOpen db = true ->
       snd (SqliteDb.setCacheSize eng db sizeKb w) =
         w ++ [Exec ("PRAGMA cache_size = " +++ to_string sizeKb)]).
Proof.
  intros eng db sizeKb w. split.
  - intros H. unfold SqliteDb.setCacheSize, SqliteDb.MIN_CACHE_KB, SqliteDb.MAX_CACHE_KB.
    destruct (Z.ltb_spec sizeKb 0).
    + eexists. split; reflexivity.
    + destruct (Z.gtb_spec sizeKb 2000000); [|lia].
      eexists. split; reflexivity.
  - intros H Ho. unfold SqliteDb.setCacheSize, SqliteDb.MIN_CACHE_KB, SqliteDb.MAX_CACHE_KB.
    destruct (Z.ltb_spec sizeKb 0); [lia|].
    destruct (Z.gtb_spec sizeKb 2000000); [lia|].
    rewrite execute_log, Ho, static_cast_int64_id by lia. reflexivity.
Qed.

Lemma setCacheSize_validates_range_witness :
  (exists e, SqliteDb.setCacheSize (obliging_engine 0) open_db 2000001 [] = (Throw e, []) /\
             class e = invalid_argument) /\
  snd (SqliteDb.setCacheSize (obliging_engine 0) open_db 2000 []) =
    [Exec "PRAGMA cache_size = 2000"].
Proof.
  split.
  - apply (setCacheSize_validates_range (obliging_engine 0) open_db 2000001 []). lia.
  - apply (setCacheSize_validates_range (obliging_engine 0) open_db 2000 []);
      [lia | reflexivity].
Defined.

(** C10. The size is a [std::size_t], so the lower-bound test
    [sizeKb < MIN_CACHE_KB] never holds and the "too small" branch is
    never taken: [setCacheSize] raises an invalid-argument error exactly
    when [sizeKb > 2000000], and then with the "too large" message. *)
Theorem setCacheSize_too_small_unreachable :
  forall (eng : Engine) (db : SqliteDb.t) (sizeKb : Z) (w : World),
    is_size_t sizeKb ->
    (sizeKb <? SqliteDb.MIN_CACHE_KB) = false /\
    ((exists e, fst (SqliteDb.setCacheSize eng db sizeKb w) = Throw e /\
                class e = invalid_argument)
     <-> sizeKb > 2000000) /\
    (forall e, fst (SqliteDb.setCacheSize eng db sizeKb w) = Throw e ->
               class e = invalid_argument ->
               what e = "Cache size too large: " +++ to_string sizeKb
                        +++ " KB (maximum: 2000000 KB)").
Proof.
  intros eng db sizeKb w [Hlo Hhi].
  assert (Hlt : (sizeKb <? SqliteDb.MIN_CACHE_KB) = false).
  { apply Z.ltb_ge. exact Hlo. }
  unfold SqliteDb.setCacheSize. rewrite Hlt. unfold SqliteDb.MAX_CACHE_KB.
  split; [reflexivity|].
  destruct (Z.gtb_spec sizeKb 2000000) as [Hgt|Hle].
  - split.
    + split; [lia|]. intros _. eexists. split; reflexivity.
    + intros e He _. inversion He. reflexivity.
  - set (sql := "PRAGMA cache_size = " +++ to_string (static_cast_int64 sizeKb)).
    assert (Hdb : forall e, fst (SqliteDb.execute eng db sql w) = Throw e ->
                   class e = SqliteDbException).
    { intros e He. destruct (SqliteDb.execute eng db sql w) as [r w'] eqn:E.
      cbn in He. subst r. eapply execute_throws_db. exact E. }
    split.
    + split; [|lia]. intros (e & He & Hc). rewrite (Hdb e He) in Hc. discriminate.
    + intros e He Hc. rewrite (Hdb e He) in Hc. discriminate.
Qed.

Lemma setCacheSize_too_small_unreachable_witness :
  ((exists e, fst (SqliteDb.setCacheSize busy_engine open_db 0 []) = Throw e /\
              class e = invalid_argument)
   <-> 0 > 2000000) /\
  ((exists e, fst (SqliteDb.setCacheSize busy_engine open_db 2000001 []) = Throw e /\
              class e = invalid_argument)
   <-> 2000001 > 2000000).
Proof.
  split.
  - apply (setCacheSize_too_small_unreachable busy_engine open_db 0 []).
    unfold is_size_t, SIZE_MAX. lia.
  - apply (setCacheSize_too_small_unreachable busy_engine open_db 2000001 []).
    unfold is_size_t, SIZE_MAX. lia.
Defined.

(** ** Transactions *)

Section TransactionFacts.
Variable eng : Engine.
Implicit Types (db : SqliteDb.t) (sql : string) (w : World) (tx : SqliteTransaction.t).

Lemma exec_finished tx sql w :
  SqliteTransaction.mIntransaction tx = false ->
  SqliteTransaction.exec eng sql (tx, w) = (Ok tt, (tx, w)).
Proof.
  intros H. unfold SqliteTransaction.exec, bind, get_object. cbn. rewrite H.
  reflexivity.
Qed.

Lemma exec_ok tx sql w :
  SqliteTransaction.mIntransaction tx = true ->
  SqliteDb.isOpen (SqliteTransaction.mSqliteDb tx) = true ->
  fst (exec_reply eng w sql) = SQLITE_OK ->
  SqliteTransaction.exec eng sql (tx, w) =
    (Ok tt, (SqliteTransaction.mk (SqliteTransaction.mSqliteDb tx) false, w ++ [Exec sql])).
Proof.
  intros H Ho Hrc.
  unfold SqliteTransaction.exec, bind, get_object, try_catch, on_world. cbn.
  rewrite H. cbn. rewrite (execute_ok eng _ _ _ Ho Hrc). reflexivity.
Qed.

Lemma exec_fail tx sql w :
  SqliteTransaction.mIntransaction tx = true ->
  SqliteDb.isOpen (SqliteTransaction.mSqliteDb tx) = true ->
  fst (exec_reply eng w sql) <> SQLITE_OK ->
  exists error,
    SqliteTransaction.exec eng sql (tx, w) =
      (Throw (SqliteTransactionException_ ("SQL execution error: " +++ error)),
       (tx, w ++ [Exec sql])).
Proof.
  intros H Ho Hrc.
  destruct (execute_fail eng _ sql w Ho Hrc) as (m & Hm). exists m.
  unfold SqliteTransaction.exec, bind, get_object, try_catch, on_world. cbn.
  rewrite H. cbn. rewrite Hm. reflexivity.
Qed.

Lemma exec_not_open tx sql w :
  SqliteTransaction.mIntransaction tx = true ->
  SqliteDb.isOpen (SqliteTransaction.mSqliteDb tx) = false ->
  SqliteTransaction.exec eng sql (tx, w) =
    (Throw (SqliteTransactionException_ "Database not open"), (tx, w)).
Proof.
  intros H Ho.
  unfold SqliteTransaction.exec, bind, get_object, try_catch, on_world. cbn.
  rewrite H. cbn. rewrite (execute_not_open eng _ _ _ Ho). reflexivity.
Qed.

(** The cases of [exec] on an active transaction, by the reply to its
    command. *)
Lemma exec_active_cases tx sql w :
  SqliteTransaction.mIntransaction tx = true ->
  (SqliteDb.isOpen (SqliteTransaction.mSqliteDb tx) = true /\
   fst (exec_reply eng w sql) = SQLITE_OK /\
   SqliteTransaction.exec eng sql (tx, w) =
     (Ok tt, (SqliteTransaction.mk (SqliteTransaction.mSqliteDb tx) false,
              w ++ [Exec sql]))) \/
  (SqliteDb.isOpen (SqliteTransaction.mSqliteDb tx) = true /\
   fst (exec_reply eng w sql) <> SQLITE_OK /\
   exists e, class e = SqliteTransactionException /\
     SqliteTransaction.exec eng sql (tx, w) = (Throw e, (tx, w ++ [Exec sql]))) \/
  (SqliteDb.isOpen (SqliteTransaction.mSqliteDb tx) = false /\
   exists e, class e = SqliteTransactionException /\
     SqliteTransaction.exec eng sql (tx, w) = (Throw e, (tx, w))).
Proof.
  intros H. destruct (SqliteDb.isOpen (SqliteTransaction.mSqliteDb tx)) eqn:Ho.
  - destruct (Z.eq_dec (fst (exec_reply eng w sql)) SQLITE_OK) as [Hrc|Hrc].
    + left. auto using exec_ok.
    + right. left. destruct (exec_fail _ _ _ H Ho Hrc) as (m & Hm).
      repeat split; try assumption. eexists. split; [|exact Hm]. reflexivity.
  - right. right. split; [reflexivity|]. eexists. split; [|apply exec_not_open; auto].
    reflexivity.
Qed.
End TransactionFacts.

(** C5. On an active transaction, when the COMMIT command that [commit]
    sends is refused by the engine, [commit] raises a
    transaction-category error and the transaction object is unchanged,
    still active; when the COMMIT is accepted the transaction becomes
    finished; and these are the only ways [commit] ends on an open
    connection, so only an accepted COMMIT finishes it. *)
Theorem commit_failure_keeps_active :
  forall (eng : Engine) (tx : SqliteTransaction.t) (w : World),
    SqliteTransaction.mIntransaction tx = true ->
    SqliteDb.isOpen (SqliteTransaction.mSqliteDb tx) = true ->
    (fst (exec_reply eng w "COMMIT") <> SQLITE_OK ->
       exists e,
         SqliteTransaction.commit eng (tx, w) = (Throw e, (tx, w ++ [Exec "COMMIT"])) /\
         class e = SqliteTransactionException) /\
    (fst (exec_reply eng w "COMMIT") = SQLITE_OK ->
       SqliteTransaction.commit eng (tx, w) =
         (Ok tt, (SqliteTransaction.mk (SqliteTransaction.mSqliteDb tx) false,
                  w ++ [Exec "COMMIT"]))) /\
    (SqliteTransaction.inTransaction (fst (snd (SqliteTransaction.commit eng (tx, w)))) = false
       <-> fst (exec_reply eng w "COMMIT") = SQLITE_OK).
Proof.
  intros eng tx w H Ho. unfold SqliteTransaction.commit, SqliteTransaction.inTransaction.
  split; [|split].
  - intros Hrc. destruct (exec_fail eng tx "COMMIT" w H Ho Hrc) as (m & Hm).
    eexists. split; [exact Hm | reflexivity].
  - intros Hrc. apply exec_ok; assumption.
  - destruct (Z.eq_dec (fst (exec_reply eng w "COMMIT")) SQLITE_OK) as [Hrc|Hrc].
    + rewrite (exec_ok eng tx "COMMIT" w H Ho Hrc). cbn. tauto.
    + destruct (exec_fail eng tx "COMMIT" w H Ho Hrc) as (m & Hm). rewrite Hm. cbn.
      rewrite H. split; [discriminate | contradiction].
Qed.

Lemma commit_failure_keeps_active_witness :
  let tx := SqliteTransaction.mk open_db true in
  exists e,
    SqliteTransaction.commit busy_engine (tx, []) = (Throw e, (tx, [Exec "COMMIT"])) /\
    class e = SqliteTransactionException.
Proof.
  apply (commit_failure_keeps_active busy_engine (SqliteTransaction.mk open_db true) []);
    [reflexivity | reflexivity | discriminate].
Defined.

(** C4, as the code has it.  Construction on a connection that is not
    open raises a transaction-category error and sends nothing.  On an
    open connection the BEGIN command of the requested mode is sent; when
    the engine refuses it, construction fails with the
    connection-category error raised by [SqliteDb::execute], untranslated,
    and no object is produced; when the engine accepts it, an active
    transaction is produced. *)
Theorem ctor_failure_categories :
  forall (eng : Engine) (db : SqliteDb.t) (mode : SqliteTransaction.Mode) (w : World),
    let sql := match mode with
               | SqliteTransaction.Deferred => "BEGIN DEFERRED;"
               | SqliteTransaction.Exclusive => "BEGIN EXCLUSIVE;"
               | SqliteTransaction.Immediate => "BEGIN IMMEDIATE;"
               end in
    (SqliteDb.isOpen db = false ->
       SqliteTransaction.ctor eng db mode w =
         (Throw (SqliteTransactionException_ "No database"), w)) /\
    (SqliteDb.isOpen db = true -> fst (exec_reply eng w sql) <> SQLITE_OK ->
       exists e, SqliteTransaction.ctor eng db mode w = (Throw e, w ++ [Exec sql]) /\
                 class e = SqliteDbException) /\
    (SqliteDb.isOpen db = true -> fst (exec_reply eng w sql) = SQLITE_OK ->
       SqliteTransaction.ctor eng db mode w =
         (Ok (SqliteTransaction.mk db true), w ++ [Exec sql])).
Proof.
  intros eng db mode w sql. unfold SqliteTransaction.ctor. split; [|split].
  - intros Ho. rewrite Ho. reflexivity.
  - intros Ho Hrc. rewrite Ho. cbn [negb]. unfold bind.
    assert (Hf : exists error,
               SqliteDb.execute eng db sql w =
                 (Throw (SqliteDbException_ ("SQL execution error: " +++ error)),
                  w ++ [Exec sql])) by (apply execute_fail; assumption).
    destruct Hf as (m & Hm). subst sql. destruct mode; rewrite Hm; eexists; split; reflexivity.
  - intros Ho Hrc. rewrite Ho. cbn [negb]. unfold bind.
    assert (Hk : SqliteDb.execute eng db sql w = (Ok tt, w ++ [Exec sql]))
      by (apply execute_ok; assumption).
    subst sql. destruct mode; rewrite Hk; reflexivity.
Qed.

Lemma ctor_failure_categories_witness :
  SqliteTransaction.ctor busy_engine (SqliteDb.mk None) SqliteTransaction.Immediate [] =
    (Throw (SqliteTransactionException_ "No database"), []) /\
  (exists e, SqliteTransaction.ctor busy_engine open_db SqliteTransaction.Immediate [] =
               (Throw e, [Exec "BEGIN IMMEDIATE;"]) /\
             class e = SqliteDbException) /\
  SqliteTransaction.ctor (obliging_engine 0) open_db SqliteTransaction.Deferred [] =
    (Ok (SqliteTransaction.mk open_db true), [Exec "BEGIN DEFERRED;"]).
Proof.
  split; [|split].
  - apply (ctor_failure_categories busy_engine (SqliteDb.mk None)
             SqliteTransaction.Immediate []). reflexivity.
  - apply (ctor_failure_categories busy_engine open_db SqliteTransaction.Immediate []);
      [reflexivity | discriminate].
  - apply (ctor_failure_categories (obliging_engine 0) open_db
             SqliteTransaction.Deferred []); reflexivity.
Defined.

(** C4 as stated fails: with an engine that refuses BEGIN, construction
    on an open connection raises a connection-category error, not a
    transaction-category one. *)
Lemma ctor_begin_failure_not_transaction_error :
  SqliteTransaction.ctor busy_engine open_db SqliteTransaction.Immediate [] =
    (Throw (SqliteDbException_ "SQL execution error: database is locked"),
     [Exec "BEGIN IMMEDIATE;"]) /\
  class (SqliteDbException_ "SQL execution error: database is locked")
    <> SqliteTransactionException.
Proof. split; [reflexivity | discriminate]. Qed.

(** ** Segments of the log *)

Section SegmentFacts.
Variable eng : Engine.

Lemma calls_ok_app (h t1 t2 : list Call) :
  calls_ok eng h (t1 ++ t2) = calls_ok eng h t1 && calls_ok eng (h ++ t1) t2.
Proof.
  revert h. induction t1 as [|c t1 IH]; intros h; cbn.
  - rewrite app_nil_r. reflexivity.
  - rewrite IH, <- app_assoc, andb_assoc. reflexivity.
Qed.

Lemma finalized_app (h t1 t2 : list Call) :
  finalized eng h (t1 ++ t2) = (finalized eng h t1 + finalized eng (h ++ t1) t2)%nat.
Proof.
  revert h. induction t1 as [|c t1 IH]; intros h; cbn.
  - rewrite app_nil_r. reflexivity.
  - rewrite IH, <- app_assoc. cbn. lia.
Qed.

Lemma finalized_refused (h : World) (sql : string) :
  fst (exec_reply eng h sql) <> SQLITE_OK -> finalized eng h [Exec sql] = O.
Proof.
  intros H. cbn. destruct (Z.eqb_spec (fst (exec_reply eng h sql)) SQLITE_OK);
    [contradiction|]. rewrite andb_false_r. reflexivity.
Qed.

Lemma finalized_single (h : World) (c : Call) : (finalized eng h [c] <= 1)%nat.
Proof. cbn. destruct (is_finalizing c && call_ok eng h c); lia. Qed.
End SegmentFacts.

Section TransactionSequences.
Variable eng : Engine.
Implicit Types (w : World) (tx : SqliteTransaction.t).

(** After a first finalizing call, a second one changes nothing: either
    the first raised and the second is not reached, or the first
    finished the transaction and the second finds it finished. *)
Lemma exec_then_exec (sql1 sql2 : string) (s : SqliteTransaction.t * World) :
  (SqliteTransaction.exec eng sql1 ;; SqliteTransaction.exec eng sql2) s =
  SqliteTransaction.exec eng sql1 s.
Proof.
  destruct s as [tx w]. unfold bind at 1.
  destruct (SqliteTransaction.mIntransaction tx) eqn:H.
  - destruct (exec_active_cases eng tx sql1 w H)
      as [(_ & _ & E) | [(_ & _ & e & _ & E) | (_ & e & _ & E)]]; rewrite E.
    + apply exec_finished. reflexivity.
    + reflexivity.
    + reflexivity.
  - rewrite (exec_finished eng tx sql1 w H). apply exec_finished. exact H.
Qed.

Lemma run_tx_call_is_exec (c : tx_call) :
  run_tx_call eng c =
    SqliteTransaction.exec eng match c with
                               | call_commit => "COMMIT"
                               | call_rollback => "ROLLBACK"
                               end.
Proof. destruct c; reflexivity. Qed.

Lemma run_tx_calls_finished (cs : list tx_call) tx w :
  SqliteTransaction.mIntransaction tx = false ->
  run_tx_calls eng cs (tx, w) = (tx, w).
Proof.
  intros H. induction cs as [|c cs IH]; cbn; [reflexivity|].
  rewrite run_tx_call_is_exec, (exec_finished eng tx _ w H). exact IH.
Qed.

Lemma run_tx_calls_finalized (cs : list tx_call) tx w :
  exists t, snd (run_tx_calls eng cs (tx, w)) = w ++ t /\
            (finalized eng w t <= 1)%nat.
Proof.
  revert tx w. induction cs as [|c cs IH]; intros tx w; cbn [run_tx_calls].
  - exists []. rewrite app_nil_r. split; [reflexivity | cbn; lia].
  - rewrite run_tx_call_is_exec.
    set (sql := match c with call_commit => "COMMIT" | call_rollback => "ROLLBACK" end).
    destruct (SqliteTransaction.mIntransaction tx) eqn:H.
    + destruct (exec_active_cases eng tx sql w H)
        as [(_ & _ & E) | [(_ & Hrc & e & _ & E) | (_ & e & _ & E)]]; rewrite E; cbn [snd].
      * rewrite run_tx_calls_finished by reflexivity. exists [Exec sql].
        split; [reflexivity | apply finalized_single].
      * destruct (IH tx (w ++ [Exec sql])) as (t & Ht & Hn).
        exists (Exec sql :: t). rewrite Ht, <- app_assoc. split; [reflexivity|].
        change (Exec sql :: t) with ([Exec sql] ++ t).
        rewrite finalized_app, (finalized_refused eng w sql Hrc). exact Hn.
      * apply IH.
    + rewrite (exec_finished eng tx sql w H). cbn [snd]. apply IH.
Qed.
End TransactionSequences.

(** C3. Once the active flag of a transaction is false, [commit] and
    [rollback] return normally and leave both the object and the log of
    engine calls as they were, and so does any sequence of them.  Hence a
    second [commit] or [rollback] after a first one, in any of the four
    combinations, is the same as the first call alone; and over any
    sequence of commit and rollback calls whose errors the caller
    catches, at most one COMMIT or ROLLBACK takes effect on the
    connection. *)
Theorem finished_transaction_is_inert :
  forall (eng : Engine) (tx : SqliteTransaction.t) (w : World),
    (SqliteTransaction.mIntransaction tx = false ->
       SqliteTransaction.commit eng (tx, w) = (Ok tt, (tx, w)) /\
       SqliteTransaction.rollback eng (tx, w) = (Ok tt, (tx, w)) /\
       forall cs, run_tx_calls eng cs (tx, w) = (tx, w)) /\
    ((SqliteTransaction.commit eng ;; SqliteTransaction.commit eng) (tx, w) =
       SqliteTransaction.commit eng (tx, w) /\
     (SqliteTransaction.rollback eng ;; SqliteTransaction.rollback eng) (tx, w) =
       SqliteTransaction.rollback eng (tx, w) /\
     (SqliteTransaction.rollback eng ;; SqliteTransaction.commit eng) (tx, w) =
       SqliteTransaction.rollback eng (tx, w) /\
     (SqliteTransaction.commit eng ;; SqliteTransaction.rollback eng) (tx, w) =
       SqliteTransaction.commit eng (tx, w)) /\
    (forall cs, exists t,
       snd (run_tx_calls eng cs (tx, w)) = w ++ t /\ (finalized eng w t <= 1)%nat).
Proof.
  intros eng tx w. split; [|split].
  - intros H. repeat split.
    + apply exec_finished. exact H.
    + apply exec_finished. exact H.
    + intros cs. apply run_tx_calls_finished. exact H.
  - unfold SqliteTransaction.commit, SqliteTransaction.rollback.
    repeat split; apply exec_then_exec.
  - intros cs. apply run_tx_calls_finalized.
Qed.

Lemma finished_transaction_is_inert_witness :
  let tx := SqliteTransaction.mk open_db false in
  SqliteTransaction.commit busy_engine (tx, [Exec "COMMIT"]) = (Ok tt, (tx, [Exec "COMMIT"])) /\
  SqliteTransaction.rollback busy_engine (tx, [Exec "COMMIT"]) = (Ok tt, (tx, [Exec "COMMIT"])) /\
  forall cs, run_tx_calls busy_engine cs (tx, [Exec "COMMIT"]) = (tx, [Exec "COMMIT"]).
Proof.
  apply (finished_transaction_is_inert busy_engine (SqliteTransaction.mk open_db false)
           [Exec "COMMIT"]).
  reflexivity.
Defined.

(** ** Batch execution *)

Section BatchFacts.
Variable eng : Engine.
Variable stmt : SqliteStatement.t.

Let ptr := SqliteStatement.mStatement stmt.
Let binder := SqliteValueBinder.mk stmt.
Let P := SqliteStatement.getParameterCount stmt.

(** The placeholder count is an [int]. *)
Hypothesis P_is_int : is_int P.

Let bind_refused := bind_refused eng ptr.
Let step_refused := step_refused eng ptr.

Lemma past_count_not_in_range (idx : Z) :
  1 <= idx -> P < idx <= INT_MAX + 1 -> ~ in_range stmt (static_cast_int idx).
Proof.
  intros H1 [H2 H3]. unfold in_range. fold P.
  destruct (Z.eq_dec idx (INT_MAX + 1)) as [->|Hne].
  - rewrite static_cast_int_wraps. unfold INT_MAX. lia.
  - rewrite static_cast_int_id by (unfold is_int, INT_MAX in *; lia). lia.
Qed.

Lemma bind_row_spec (row : list SqliteValue) :
  forall (idx : Z) (w : World),
    1 <= idx <= Z.max P 0 + 1 ->
    exists t rest,
      snd (SqliteDb.bind_row eng binder idx row w) = w ++ t /\
      row_binds ptr idx row = t ++ rest /\
      idx + Z.of_nat (List.length t) <= Z.max P 0 + 1 /\
      match fst (SqliteDb.bind_row eng binder idx row w) with
      | Ok _ => rest = [] /\ calls_ok eng w t = true
      | Throw e =>
          class e = SqliteStatementException /\
          (idx + Z.of_nat (List.length row) > Z.max P 0 + 1 \/ bind_refused)
      end.
Proof.
  induction row as [|v row IH]; intros idx w Hidx.
  - exists [], []. cbn. rewrite app_nil_r. repeat split; lia.
  - cbn [SqliteDb.bind_row row_binds List.length]. unfold bind.
    destruct (Z_le_gt_dec idx P) as [Hle|Hgt].
    + assert (Hint : is_int idx) by (unfold is_int, INT_MAX in *; lia).
      rewrite (static_cast_int_id idx Hint).
      rewrite binder_bind_in_range by (unfold in_range; fold P; cbn; lia).
      cbn [SqliteValueBinder.mStmt binder]. fold ptr. cbv zeta.
      destruct (Z.eqb_spec (bind_reply eng w ptr idx (bind_arg_of v)) SQLITE_OK)
        as [Hok|Hno].
      * rewrite size_t_succ_small by (unfold is_int, INT_MAX in *; lia).
        destruct (IH (idx + 1) (w ++ [Bind ptr idx (bind_arg_of v)]))
          as (t & rest & Hw & Hr & Hb & Hf); [lia|].
        exists (Bind ptr idx (bind_arg_of v) :: t), rest.
        rewrite Hw, <- app_assoc, Hr. split; [reflexivity|]. split; [reflexivity|].
        split; [cbn [List.length]; lia|].
        destruct (fst (SqliteDb.bind_row eng binder (idx + 1) row
                         (w ++ [Bind ptr idx (bind_arg_of v)]))).
        -- destruct Hf as (Hf1 & Hf2). split; [exact Hf1|].
           cbn. rewrite Hok, Hf2. reflexivity.
        -- destruct Hf as (Hf1 & Hf2). split; [exact Hf1|].
           destruct Hf2 as [Hf2|Hf2]; [left; lia | right; exact Hf2].
      * exists [Bind ptr idx (bind_arg_of v)], (row_binds ptr (idx + 1) row).
        cbn [fst snd app List.length]. repeat split; [lia|].
        right. exists w, idx, (bind_arg_of v). exact Hno.
    + assert (Hr : rejected (SqliteValueBinder.bind eng binder (static_cast_int idx) v) w).
      { apply binder_bind_out_of_range. apply past_count_not_in_range;
          unfold is_int, INT_MAX in *; lia. }
      destruct Hr as (e & He & Hc). rewrite He.
      exists [], (Bind ptr idx (bind_arg_of v) :: row_binds ptr (idx + 1) row).
      cbn [fst snd app List.length]. rewrite app_nil_r.
      repeat split; [lia | exact Hc |]. left. lia.
Qed.

Lemma row_binds_length (row : list SqliteValue) (idx : Z) :
  List.length (row_binds ptr idx row) = List.length row.
Proof.
  revert idx. induction row as [|v row IH]; intros idx; cbn; [reflexivity|].
  rewrite IH. reflexivity.
Qed.

Lemma step_spec (w : World) :
  SqliteStatement.step eng stmt w =
    if step_reply eng w ptr =? SQLITE_ROW then (Ok true, w ++ [Step ptr])
    else if step_reply eng w ptr =? SQLITE_DONE then (Ok false, w ++ [Step ptr])
    else (Throw (SqliteStatementException_
                   ("Step failed with error code: " +++ to_string (step_reply eng w ptr))),
          w ++ [Step ptr]).
Proof.
  unfold SqliteStatement.step, bind, sqlite3_step. fold ptr.
  destruct (step_reply eng w ptr =? SQLITE_ROW); [reflexivity|].
  destruct (step_reply eng w ptr =? SQLITE_DONE); reflexivity.
Qed.

(** One turn of the row loop after its binds: step, reset, clear. *)
Lemma for_rows_cons (row : list SqliteValue) (rows : list (list SqliteValue)) (w : World) :
  SqliteDb.for_rows eng stmt binder (row :: rows) w =
    match SqliteDb.bind_row eng binder 1 row w with
    | (Ok _, w1) =>
        if (step_reply eng w1 ptr =? SQLITE_ROW) || (step_reply eng w1 ptr =? SQLITE_DONE)
        then SqliteDb.for_rows eng stmt binder rows
               (w1 ++ [Step ptr; Reset ptr; ClearBindings ptr])
        else (Throw (SqliteStatementException_
                       ("Step failed with error code: "
                        +++ to_string (step_reply eng w1 ptr))),
              w1 ++ [Step ptr])
    | (Throw e, w1) => (Throw e, w1)
    end.
Proof.
  cbn [SqliteDb.for_rows]. unfold bind at 1.
  destruct (SqliteDb.bind_row eng binder 1 row w) as [[u|e] w1]; [|reflexivity].
  unfold bind at 1. rewrite step_spec.
  destruct (step_reply eng w1 ptr =? SQLITE_ROW);
    [|destruct (step_reply eng w1 ptr =? SQLITE_DONE)]; cbn [orb];
    try reflexivity;
    unfold bind, SqliteStatement.reset, SqliteStatement.clearBindings,
      sqlite3_reset, sqlite3_clear_bindings; fold ptr;
    rewrite <- !app_assoc; reflexivity.
Qed.

Lemma for_rows_spec (rows : list (list SqliteValue)) :
  forall (w : World),
    exists t rest,
      snd (SqliteDb.for_rows eng stmt binder rows w) = w ++ t /\
      flat_map (row_calls ptr) rows = t ++ rest /\
      match fst (SqliteDb.for_rows eng stmt binder rows w) with
      | Ok _ => rest = [] /\ calls_ok eng w t = true
      | Throw e =>
          class e = SqliteStatementException /\ rest <> [] /\
          (Exists (fun row => Z.of_nat (List.length row) > Z.max P 0) rows \/
           bind_refused \/ step_refused)
      end.
Proof.
  induction rows as [|row rows IH]; intros w.
  - exists [], []. cbn. rewrite app_nil_r. auto.
  - rewrite for_rows_cons.
    destruct (bind_row_spec row 1 w) as (t1 & rest1 & Hw1 & Hr1 & Hb1 & Hf1); [lia|].
    destruct (SqliteDb.bind_row eng binder 1 row w) as [[u|e] w1];
      cbn [fst snd] in Hw1, Hf1; subst w1.
    + destruct Hf1 as (-> & Hok1). rewrite app_nil_r in Hr1.
      destruct ((step_reply eng (w ++ t1) ptr =? SQLITE_ROW)
                || (step_reply eng (w ++ t1) ptr =? SQLITE_DONE)) eqn:Hs.
      * destruct (IH ((w ++ t1) ++ [Step ptr; Reset ptr; ClearBindings ptr]))
          as (t & rest & Hw & Hr & Hf).
        exists (t1 ++ [Step ptr; Reset ptr; ClearBindings ptr] ++ t), rest.
        rewrite Hw. split; [rewrite <- !app_assoc; reflexivity|].
        split.
        { cbn [flat_map]. unfold row_calls at 1. rewrite Hr1, Hr, <- !app_assoc.
          reflexivity. }
        destruct (fst (SqliteDb.for_rows eng stmt binder rows
                         ((w ++ t1) ++ [Step ptr; Reset ptr; ClearBindings ptr]))).
        -- destruct Hf as (Hf & Hok). split; [exact Hf|].
           rewrite calls_ok_app, Hok1. cbn [andb].
           rewrite calls_ok_app, Hok, andb_true_r. cbn. rewrite Hs. reflexivity.
        -- destruct Hf as (Hc & Hne & Hwhy). repeat split; try assumption.
           destruct Hwhy as [Hwhy|Hwhy]; [left; apply Exists_cons_tl; exact Hwhy | right; exact Hwhy].
      * exists (t1 ++ [Step ptr]),
          ([Reset ptr; ClearBindings ptr] ++ flat_map (row_calls ptr) rows).
        cbn [fst snd]. split; [rewrite <- app_assoc; reflexivity|].
        split.
        { cbn [flat_map]. unfold row_calls at 1. rewrite Hr1, <- !app_assoc. reflexivity. }
        split; [reflexivity|]. split; [discriminate|].
        right. right. exists (w ++ t1). apply orb_false_elim in Hs.
        destruct Hs as [Hs1 Hs2]. split; apply Z.eqb_neq; assumption.
    + exists t1, (rest1 ++ [Step ptr; Reset ptr; ClearBindings ptr]
                  ++ flat_map (row_calls ptr) rows).
      cbn [fst snd]. split; [reflexivity|].
      split.
      { cbn [flat_map]. unfold row_calls at 1. rewrite Hr1, <- !app_assoc. reflexivity. }
      destruct Hf1 as (Hc & Hwhy). split; [exact Hc|].
      split; [destruct rest1; discriminate|].
      destruct Hwhy as [Hwhy|Hwhy]; [left; apply Exists_cons_hd; lia | right; left; exact Hwhy].
Qed.
End BatchFacts.

Section BatchRuns.
Variable eng : Engine.
Implicit Types (db : SqliteDb.t) (sql : string) (w : World)
  (rows : list (list SqliteValue)).

Lemma for_rows_app stmt binder rows1 rows2 w :
  SqliteDb.for_rows eng stmt binder (rows1 ++ rows2) w =
    match SqliteDb.for_rows eng stmt binder rows1 w with
    | (Ok _, w1) => SqliteDb.for_rows eng stmt binder rows2 w1
    | (Throw e, w1) => (Throw e, w1)
    end.
Proof.
  revert w. induction rows1 as [|row rows1 IH]; intros w; [reflexivity|].
  cbn [app SqliteDb.for_rows]. unfold bind.
  destruct (SqliteDb.bind_row eng binder 1 row w) as [[u|e] w1]; [|reflexivity].
  destruct (SqliteStatement.step eng stmt w1) as [[b|e] w2]; [|reflexivity].
  destruct (SqliteStatement.reset stmt w2) as [[u1|e] w3]; [|reflexivity].
  destruct (SqliteStatement.clearBindings stmt w3) as [[u2|e] w4]; [|reflexivity].
  apply IH.
Qed.

Lemma prepare_spec db sql w :
  SqliteDb.isOpen db = true ->
  SqliteDb.prepare eng db sql w =
    (if fst (prepare_reply eng w sql) =? SQLITE_OK
     then Ok (SqliteStatement.mk (snd (prepare_reply eng w sql)))
     else Throw (SqliteDbException_
                   ("Failed to prepare statement: "
                    +++ errmsg_reply eng (w ++ [Prepare sql]))),
     w ++ [Prepare sql]).
Proof.
  intros Ho. unfold SqliteDb.prepare, SqliteDb.checkConnection, bind, sqlite3_prepare_v2.
  rewrite Ho. cbn. destruct (prepare_reply eng w sql) as [rc p]. cbn.
  destruct (rc =? SQLITE_OK); reflexivity.
Qed.

Lemma deleter_log (p : stmt_ptr) w :
  snd (SqliteStatementDeleter p w) = w ++ finalize_calls p.
Proof. destruct p; cbn; [reflexivity | rewrite app_nil_r; reflexivity]. Qed.

Lemma executeBatch_open db sql rows w :
  SqliteDb.isOpen db = true ->
  SqliteDb.executeBatch eng db sql rows w =
    let p := snd (prepare_reply eng w sql) in
    if fst (prepare_reply eng w sql) =? SQLITE_OK then
      let stmt := SqliteStatement.mk p in
      let run := SqliteDb.for_rows eng stmt (SqliteValueBinder.mk stmt) rows
                   (w ++ [Prepare sql]) in
      (fst run, snd run ++ finalize_calls p)
    else
      (Throw (SqliteDbException_
                ("Failed to prepare statement: "
                 +++ errmsg_reply eng (w ++ [Prepare sql]))),
       w ++ [Prepare sql]).
Proof.
  intros Ho. unfold SqliteDb.executeBatch. rewrite Ho. cbn [negb]. unfold bind.
  rewrite (prepare_spec db sql w Ho).
  destruct (fst (prepare_reply eng w sql) =? SQLITE_OK); [|reflexivity].
  unfold scoped, SqliteStatement.dtor. cbn [SqliteStatement.mStatement]. cbv zeta.
  destruct (SqliteDb.for_rows eng _ _ rows (w ++ [Prepare sql])) as [r w1].
  rewrite deleter_log. reflexivity.
Qed.
End BatchRuns.

Lemma count_app (f : Call -> bool) (t1 t2 : list Call) :
  count f (t1 ++ t2) = (count f t1 + count f t2)%nat.
Proof. unfold count. rewrite filter_app, length_app. reflexivity. Qed.

Lemma count_none (f : Call -> bool) (t : list Call) :
  Forall (fun c => f c = false) t -> count f t = O.
Proof.
  unfold count. induction 1 as [|c t Hc _ IH]; cbn; [reflexivity|].
  rewrite Hc. exact IH.
Qed.

Lemma row_binds_are_binds (p : stmt_ptr) (row : list SqliteValue) (index : Z) :
  Forall (fun c => is_bind c = true) (row_binds p index row).
Proof.
  revert index. induction row as [|v row IH]; intros index; cbn; constructor;
    [reflexivity | apply IH].
Qed.

Lemma batch_rows_no_prepare (p : stmt_ptr) (rows : list (list SqliteValue)) :
  Forall (fun c => is_prepare c = false) (flat_map (row_calls p) rows).
Proof.
  induction rows as [|row rows IH]; cbn; [constructor|].
  apply Forall_app. split; [|exact IH]. unfold row_calls. apply Forall_app. split.
  - eapply Forall_impl; [|apply row_binds_are_binds]. intros [] H; cbn in *; congruence.
  - repeat constructor.
Qed.

Lemma batch_rows_steps (p : stmt_ptr) (rows : list (list SqliteValue)) :
  count is_step (flat_map (row_calls p) rows) = List.length rows.
Proof.
  induction rows as [|row rows IH]; cbn [flat_map List.length]; [reflexivity|].
  rewrite count_app, IH. unfold row_calls. rewrite count_app.
  rewrite (count_none is_step (row_binds p 1 row)).
  - reflexivity.
  - eapply Forall_impl; [|apply row_binds_are_binds]. intros [] H; cbn in *; congruence.
Qed.

Lemma finalize_calls_count (f : Call -> bool) (p : stmt_ptr) :
  (forall s, f (Finalize s) = false) -> count f (finalize_calls p) = O.
Proof. intros H. destruct p; cbn; [|reflexivity]. unfold count. cbn. rewrite H. reflexivity. Qed.

(** C1. On an open connection [executeBatch] sends exactly one prepare
    call, first, and what follows it is always an initial part of the
    protocol: for each row in order one bind per value at the indices
    1, 2, ... and then one step, one reset and one clear-bindings.
    Whenever it returns normally, what it sent is the whole protocol
    trace, closed by the release of the statement, and that trace holds
    exactly as many steps as there are rows.  And it does return normally
    when the template compiles, every row has as many values as the
    template has placeholders, and the engine accepts every bind and every
    step. *)
Theorem executeBatch_protocol :
  forall (eng : Engine) (db : SqliteDb.t) (sql : string)
         (rows : list (list SqliteValue)) (w : World),
    let stmt := snd (prepare_reply eng w sql) in
    let P := sqlite3_bind_parameter_count stmt in
    let run := SqliteDb.executeBatch eng db sql rows w in
    SqliteDb.isOpen db = true ->
    is_int P ->
    (exists sent unsent released,
       snd run = w ++ Prepare sql :: sent ++ released /\
       flat_map (row_calls stmt) rows = sent ++ unsent /\
       (released = [] \/ released = finalize_calls stmt) /\
       count is_prepare (sent ++ released) = O) /\
    (fst run = Ok tt ->
       snd run = w ++ batch_calls sql stmt rows /\
       count is_step (batch_calls sql stmt rows) = List.length rows) /\
    (fst (prepare_reply eng w sql) = SQLITE_OK ->
     Forall (fun row => Z.of_nat (List.length row) = P) rows ->
     (forall h i a, bind_reply eng h stmt i a = SQLITE_OK) ->
     (forall h, step_reply eng h stmt = SQLITE_ROW \/ step_reply eng h stmt = SQLITE_DONE) ->
     fst run = Ok tt).
Proof.
  intros eng db sql rows w stmt P run Ho HP. subst run.
  rewrite (executeBatch_open eng db sql rows w Ho). cbv zeta. fold stmt.
  destruct (Z.eqb_spec (fst (prepare_reply eng w sql)) SQLITE_OK) as [Hrc|Hrc].
  - destruct (for_rows_spec eng (SqliteStatement.mk stmt) HP rows (w ++ [Prepare sql]))
      as (t & rest & Hw & Hr & Hf).
    cbn [SqliteStatement.mStatement] in *.
    set (go := SqliteDb.for_rows eng (SqliteStatement.mk stmt)
                 (SqliteValueBinder.mk (SqliteStatement.mk stmt)) rows
                 (w ++ [Prepare sql])) in *.
    cbn [fst snd]. rewrite Hw. split; [|split].
    + exists t, rest, (finalize_calls stmt). rewrite <- !app_assoc.
      split; [reflexivity|]. split; [exact Hr|]. split; [right; reflexivity|].
      rewrite count_app, finalize_calls_count by reflexivity.
      rewrite count_none; [reflexivity|].
      pose proof (batch_rows_no_prepare stmt rows) as Hnp. rewrite Hr in Hnp.
      apply Forall_app in Hnp. apply Hnp.
    + intros Hgo. rewrite Hgo in Hf. destruct Hf as (-> & _). rewrite app_nil_r in Hr.
      subst t. unfold batch_calls. rewrite <- !app_assoc. split; [reflexivity|].
      change (Prepare sql :: flat_map (row_calls stmt) rows ++ finalize_calls stmt)
        with ([Prepare sql] ++ flat_map (row_calls stmt) rows ++ finalize_calls stmt).
      rewrite !count_app, batch_rows_steps, finalize_calls_count by reflexivity.
      cbn. lia.
    + intros _ Hlen Hbind Hstep. destruct (fst go) as [[]|e]; [reflexivity|].
      destruct Hf as (_ & _ & [Hlong | [Hb | Hs]]).
      * apply Exists_exists in Hlong. destruct Hlong as (row & Hin & Hrow).
        rewrite Forall_forall in Hlen. specialize (Hlen row Hin).
        unfold SqliteStatement.getParameterCount in Hrow.
        cbn [SqliteStatement.mStatement] in Hrow. fold P in Hrow. lia.
      * destruct Hb as (h & i & a & Hb). elim Hb. apply Hbind.
      * destruct Hs as (h & Hs1 & Hs2). destruct (Hstep h); contradiction.
  - cbn [fst snd]. split; [|split].
    + exists [], (flat_map (row_calls stmt) rows), []. repeat split. left. reflexivity.
    + discriminate.
    + intros Hok. contradiction.
Qed.

Lemma executeBatch_protocol_witness :
  let sql := "INSERT INTO users (name, age) VALUES (?, ?)" in
  let rows := [[string_value "Alice"; int64_value 25];
               [string_value "Bob"; int64_value 30];
               [string_value "Charlie"; monostate]] in
  let run := SqliteDb.executeBatch (obliging_engine 2) open_db sql rows [] in
  fst run = Ok tt /\
  snd run = batch_calls sql (Some (mkStmt sql 2)) rows /\
  count is_step (snd run) = 3%nat.
Proof.
  intros sql rows run.
  destruct (executeBatch_protocol (obliging_engine 2) open_db sql rows [])
    as (_ & H2 & H3).
  - reflexivity.
  - unfold is_int, INT_MAX. cbn. lia.
  - assert (Hrun : fst run = Ok tt).
    { apply H3.
      + reflexivity.
      + repeat constructor.
      + reflexivity.
      + right. reflexivity. }
    destruct (H2 Hrun) as (Hlog & Hsteps).
    split; [exact Hrun|]. split; [exact Hlog|].
    unfold run. rewrite Hlog. exact Hsteps.
Defined.

(** C2, as the code has it.  When the rows before it were executed, a
    row with more values than the template has placeholders makes
    [executeBatch] fail with a statement-category error during that row's
    binds: the log keeps every call of the earlier rows, then holds only
    binds of the long row, no step for it and nothing of the rows after
    it, and ends with the release of the statement; nothing is sent to
    undo the earlier rows. *)
Theorem executeBatch_long_row_fails :
  forall (eng : Engine) (db : SqliteDb.t) (sql : string)
         (pre post : list (list SqliteValue)) (row : list SqliteValue) (w : World),
    let stmt := snd (prepare_reply eng w sql) in
    let P := sqlite3_bind_parameter_count stmt in
    SqliteDb.isOpen db = true ->
    0 <= P <= INT_MAX ->
    fst (SqliteDb.executeBatch eng db sql pre w) = Ok tt ->
    Z.of_nat (List.length row) > P ->
    exists e sent unsent,
      SqliteDb.executeBatch eng db sql (pre ++ row :: post) w =
        (Throw e,
         w ++ Prepare sql :: flat_map (row_calls stmt) pre ++ sent ++ finalize_calls stmt) /\
      class e = SqliteStatementException /\
      row_binds stmt 1 row = sent ++ unsent /\
      unsent <> [].
Proof.
  intros eng db sql pre post row w stmt P Ho HP Hpre Hlong.
  assert (HPi : is_int P) by (unfold is_int, INT_MAX in *; lia).
  rewrite (executeBatch_open eng db sql pre w Ho) in Hpre.
  rewrite (executeBatch_open eng db sql (pre ++ row :: post) w Ho).
  cbv zeta in *. fold stmt in Hpre |- *.
  destruct (fst (prepare_reply eng w sql) =? SQLITE_OK); [|discriminate].
  cbn [fst] in Hpre.
  rewrite for_rows_app.
  destruct (for_rows_spec eng (SqliteStatement.mk stmt) HPi pre (w ++ [Prepare sql]))
    as (t & rest & Hw & Hr & Hf).
  cbn [SqliteStatement.mStatement] in *.
  destruct (SqliteDb.for_rows eng (SqliteStatement.mk stmt)
              (SqliteValueBinder.mk (SqliteStatement.mk stmt)) pre (w ++ [Prepare sql]))
    as [[u|e0] w1]; [|discriminate].
  cbn [fst snd] in Hw, Hf. destruct Hf as (-> & _). rewrite app_nil_r in Hr. subst t w1.
  rewrite for_rows_cons.
  destruct (bind_row_spec eng (SqliteStatement.mk stmt) HPi row 1
              ((w ++ [Prepare sql]) ++ flat_map (row_calls stmt) pre))
    as (sent & unsent & Hw1 & Hr1 & Hb1 & Hf1).
  { unfold SqliteStatement.getParameterCount. cbn [SqliteStatement.mStatement].
    fold P. lia. }
  unfold SqliteStatement.getParameterCount in Hb1.
  cbn [SqliteStatement.mStatement] in *. fold P in Hb1.
  assert (Hleft : unsent <> []).
  { intros ->. rewrite app_nil_r in Hr1. subst sent.
    rewrite (row_binds_length (SqliteStatement.mk stmt)) in Hb1. lia. }
  destruct (SqliteDb.bind_row eng (SqliteValueBinder.mk (SqliteStatement.mk stmt)) 1 row
              ((w ++ [Prepare sql]) ++ flat_map (row_calls stmt) pre))
    as [[u1|e] w2]; cbn [fst snd] in Hw1, Hf1.
  - destruct Hf1 as (Hnil & _). contradiction.
  - exists e, sent, unsent. subst w2. cbn [fst snd]. rewrite <- !app_assoc.
    destruct Hf1 as (Hc & _). repeat split; assumption.
Qed.

Lemma executeBatch_long_row_fails_witness :
  let sql := "INSERT INTO t VALUES (?)" in
  let stmt := Some (mkStmt sql 1) in
  exists e sent unsent,
    SqliteDb.executeBatch (obliging_engine 1) open_db sql
      ([[int64_value 1]] ++ [int64_value 2; int64_value 3] :: [[int64_value 4]]) [] =
      (Throw e,
       [] ++ Prepare sql :: flat_map (row_calls stmt) [[int64_value 1]] ++ sent
          ++ finalize_calls stmt) /\
    class e = SqliteStatementException /\
    row_binds stmt 1 [int64_value 2; int64_value 3] = sent ++ unsent /\
    unsent <> [].
Proof.
  apply (executeBatch_long_row_fails (obliging_engine 1) open_db
           "INSERT INTO t VALUES (?)" [[int64_value 1]] [[int64_value 4]]
           [int64_value 2; int64_value 3] []).
  - reflexivity.
  - unfold INT_MAX. cbn. lia.
  - reflexivity.
  - cbn. lia.
Defined.

(** C2 as stated fails for a row that is too short: with a template of
    two placeholders and a row of one value, [executeBatch] returns
    normally; the value is bound at index 1, the row is stepped, and the
    second placeholder is left unbound. *)
Lemma executeBatch_short_row_is_stepped :
  let sql := "INSERT INTO users (name, age) VALUES (?, ?)" in
  let stmt := Some (mkStmt sql 2) in
  sqlite3_bind_parameter_count stmt = 2 /\
  SqliteDb.executeBatch (obliging_engine 2) open_db sql [[string_value "Alice"]] [] =
    (Ok tt,
     [Prepare sql; Bind stmt 1 (arg_text "Alice"); Step stmt; Reset stmt;
      ClearBindings stmt; Finalize (mkStmt sql 2)]).
Proof. split; reflexivity. Qed.

(** ** Surfaced and suppressed failures *)

Section Surfacing.
Variable eng : Engine.

Lemma surfaces_ret {A} (a : A) : surfaces_failures eng (ret a).
Proof.
  intros w a' w' H. inversion H. exists []. rewrite app_nil_r. auto.
Qed.

Lemma surfaces_throw {A} (e : exception) : surfaces_failures eng (@throw World A e).
Proof. intros w a w' H. discriminate. Qed.

Lemma surfaces_bind {A B} (c : M World A) (k : A -> M World B) :
  surfaces_failures eng c -> (forall a, surfaces_failures eng (k a)) ->
  surfaces_failures eng (bind c k).
Proof.
  intros Hc Hk w b w' H. unfold bind in H.
  destruct (c w) as [[a|e] w1] eqn:E; [|discriminate].
  destruct (Hc w a w1 E) as (t1 & -> & Ht1).
  destruct (Hk a (w ++ t1) b w' H) as (t2 & -> & Ht2).
  exists (t1 ++ t2). rewrite app_assoc, calls_ok_app, Ht1, Ht2. auto.
Qed.

Lemma surfaces_if {A} (b : bool) (c1 c2 : M World A) :
  surfaces_failures eng c1 -> surfaces_failures eng c2 ->
  surfaces_failures eng (if b then c1 else c2).
Proof. destruct b; auto. Qed.

Lemma surfaces_checkParameterIndex stmt index :
  surfaces_failures eng (SqliteStatement.checkParameterIndex stmt index).
Proof.
  unfold SqliteStatement.checkParameterIndex.
  apply surfaces_if; [apply surfaces_throw|].
  apply surfaces_if; [apply surfaces_throw | apply surfaces_ret].
Qed.

(** The body shared by the bind overloads: the engine call and the test
    of its status. *)
Lemma surfaces_checked_bind (p : stmt_ptr) (index : Z) (a : bind_arg) (e : exception) :
  surfaces_failures eng
    (result <- sqlite3_bind eng p index a ;;
     if negb (result =? SQLITE_OK) then throw e else ret tt).
Proof.
  intros w u w' H. unfold bind, sqlite3_bind in H.
  destruct (Z.eqb_spec (bind_reply eng w p index a) SQLITE_OK) as [Hok|Hno];
    cbn in H; [|discriminate].
  inversion H. exists [Bind p index a]. split; [reflexivity|].
  cbn. rewrite Hok. reflexivity.
Qed.

Lemma surfaces_step stmt : surfaces_failures eng (SqliteStatement.step eng stmt).
Proof.
  intros w b w' H. rewrite step_spec in H.
  exists [Step (SqliteStatement.mStatement stmt)].
  destruct (step_reply eng w (SqliteStatement.mStatement stmt) =? SQLITE_ROW) eqn:E1.
  - inversion H. split; [reflexivity|]. cbn. rewrite E1. reflexivity.
  - destruct (step_reply eng w (SqliteStatement.mStatement stmt) =? SQLITE_DONE) eqn:E2;
      [|discriminate].
    inversion H. split; [reflexivity|]. cbn. rewrite E1, E2. reflexivity.
Qed.

Lemma surfaces_reset stmt : surfaces_failures eng (SqliteStatement.reset stmt).
Proof.
  intros w u w' H. inversion H. eexists. split; reflexivity.
Qed.

Lemma surfaces_clearBindings stmt :
  surfaces_failures eng (SqliteStatement.clearBindings stmt).
Proof.
  intros w u w' H. inversion H. eexists. split; reflexivity.
Qed.

Lemma surfaces_binder binder index v :
  surfaces_failures eng (SqliteValueBinder.bind eng binder index v).
Proof.
  destruct v; cbn [SqliteValueBinder.bind];
    (apply surfaces_bind;
     [apply surfaces_checkParameterIndex | intros _; apply surfaces_checked_bind]).
Qed.

Lemma surfaces_execute db sql : surfaces_failures eng (SqliteDb.execute eng db sql).
Proof.
  intros w [] w' H. destruct (execute_returns eng db sql w w' H) as (_ & Hrc & ->).
  exists [Exec sql]. split; [reflexivity|]. cbn. rewrite Hrc. reflexivity.
Qed.

Lemma surfaces_prepare db sql : surfaces_failures eng (SqliteDb.prepare eng db sql).
Proof.
  intros w s w' H. destruct (SqliteDb.isOpen db) eqn:Ho.
  - rewrite (prepare_spec eng db sql w Ho) in H.
    destruct (fst (prepare_reply eng w sql) =? SQLITE_OK) eqn:E; [|discriminate].
    inversion H. exists [Prepare sql]. split; [reflexivity|]. cbn. rewrite E. reflexivity.
  - unfold SqliteDb.prepare, SqliteDb.checkConnection, bind in H. rewrite Ho in H.
    discriminate.
Qed.

Lemma surfaces_bind_row binder row :
  forall idx, surfaces_failures eng (SqliteDb.bind_row eng binder idx row).
Proof.
  induction row as [|v row IH]; intros idx; cbn [SqliteDb.bind_row].
  - apply surfaces_ret.
  - apply surfaces_bind; [apply surfaces_binder | intros _; apply IH].
Qed.

Lemma surfaces_for_rows stmt binder rows :
  surfaces_failures eng (SqliteDb.for_rows eng stmt binder rows).
Proof.
  induction rows as [|row rows IH]; cbn [SqliteDb.for_rows].
  - apply surfaces_ret.
  - apply surfaces_bind; [apply surfaces_bind_row | intros _].
    apply surfaces_bind; [apply surfaces_step | intros _].
    apply surfaces_bind; [apply surfaces_reset | intros _].
    apply surfaces_bind; [apply surfaces_clearBindings | intros _]. exact IH.
Qed.

(** Releasing the statement at the end of the block adds no failure. *)
Lemma surfaces_scoped_statement {A} (body : M World A) (stmt : SqliteStatement.t) :
  surfaces_failures eng body ->
  surfaces_failures eng (scoped body (SqliteStatement.dtor stmt)).
Proof.
  intros Hb w a w' H. unfold scoped, SqliteStatement.dtor in H.
  destruct (body w) as [r w1] eqn:E. rewrite deleter_log in H. inversion H. subst r.
  destruct (Hb w a w1 E) as (t & -> & Ht).
  exists (t ++ finalize_calls (SqliteStatement.mStatement stmt)).
  rewrite app_assoc. split; [reflexivity|]. rewrite calls_ok_app, Ht.
  destruct (SqliteStatement.mStatement stmt); reflexivity.
Qed.

Lemma surfaces_executeBatch db sql rows :
  surfaces_failures eng (SqliteDb.executeBatch eng db sql rows).
Proof.
  unfold SqliteDb.executeBatch. apply surfaces_if; [apply surfaces_throw|].
  apply surfaces_bind; [apply surfaces_prepare | intros stmt].
  apply surfaces_scoped_statement. apply surfaces_for_rows.
Qed.

(** The destructor of a transaction never raises. *)
Lemma dtor_returns (tx : SqliteTransaction.t) (w : World) :
  fst (SqliteTransaction.dtor eng (tx, w)) = Ok tt.
Proof.
  unfold SqliteTransaction.dtor, bind, get_object, try_catch, on_world. cbn.
  destruct (SqliteTransaction.mIntransaction tx); [|reflexivity]. cbn.
  destruct (SqliteDb.execute eng (SqliteTransaction.mSqliteDb tx) "ROLLBACK" w)
    as [[[]|e] w1]; reflexivity.
Qed.

Lemma dtor_log (tx : SqliteTransaction.t) (w : World) :
  snd (snd (SqliteTransaction.dtor eng (tx, w))) =
    snd (if SqliteTransaction.mIntransaction tx
         then SqliteDb.execute eng (SqliteTransaction.mSqliteDb tx) "ROLLBACK" w
         else (Ok tt, w)).
Proof.
  unfold SqliteTransaction.dtor, bind, get_object, try_catch, on_world. cbn.
  destruct (SqliteTransaction.mIntransaction tx); [|reflexivity]. cbn.
  destruct (SqliteDb.execute eng (SqliteTransaction.mSqliteDb tx) "ROLLBACK" w)
    as [[[]|e] w1]; reflexivity.
Qed.
End Surfacing.

Section Reporting.
Variable eng : Engine.
Variable st : DroppedStatuses.

Lemma statuses_ok_app (h t1 t2 : list Call) :
  statuses_ok eng st h (t1 ++ t2) =
    statuses_ok eng st h t1 && statuses_ok eng st (h ++ t1) t2.
Proof.
  revert h. induction t1 as [|c t1 IH]; intros h; cbn.
  - rewrite app_nil_r. reflexivity.
  - rewrite IH, <- app_assoc, andb_assoc. reflexivity.
Qed.

Lemma reports_ret {A} (a : A) : reports_every_failure eng st (ret a).
Proof.
  intros w a' w' H. inversion H. exists []. rewrite app_nil_r. auto.
Qed.

Lemma reports_throw {A} (e : exception) : reports_every_failure eng st (@throw (list Call) A e).
Proof. intros w a w' H. discriminate. Qed.

Lemma reports_bind {A B} (c : M (list Call) A) (k : A -> M (list Call) B) :
  reports_every_failure eng st c -> (forall a, reports_every_failure eng st (k a)) ->
  reports_every_failure eng st (bind c k).
Proof.
  intros Hc Hk w b w' H. unfold bind in H.
  destruct (c w) as [[a|e] w1] eqn:E; [|discriminate].
  destruct (Hc w a w1 E) as (t1 & -> & Ht1).
  destruct (Hk a (w ++ t1) b w' H) as (t2 & -> & Ht2).
  exists (t1 ++ t2). rewrite app_assoc, statuses_ok_app, Ht1, Ht2. auto.
Qed.

Lemma reports_if {A} (b : bool) (c1 c2 : M (list Call) A) :
  reports_every_failure eng st c1 -> reports_every_failure eng st c2 ->
  reports_every_failure eng st (if b then c1 else c2).
Proof. destruct b; auto. Qed.

Lemma reports_checkParameterIndex stmt index :
  reports_every_failure eng st (SqliteStatement.checkParameterIndex stmt index).
Proof.
  unfold SqliteStatement.checkParameterIndex.
  apply reports_if; [apply reports_throw|].
  apply reports_if; [apply reports_throw | apply reports_ret].
Qed.

Lemma reports_checked_bind (p : stmt_ptr) (index : Z) (a : bind_arg) (e : exception) :
  reports_every_failure eng st
    (result <- sqlite3_bind eng p index a ;;
     if negb (result =? SQLITE_OK) then throw e else ret tt).
Proof.
  intros w u w' H. unfold bind, sqlite3_bind in H.
  destruct (Z.eqb_spec (bind_reply eng w p index a) SQLITE_OK) as [Hok|Hno];
    cbn in H; [|discriminate].
  inversion H. exists [Bind p index a]. split; [reflexivity|].
  cbn. rewrite Hok. reflexivity.
Qed.

Lemma reports_step stmt : reports_every_failure eng st (SqliteStatement.step eng stmt).
Proof.
  intros w b w' H. rewrite step_spec in H.
  exists [Step (SqliteStatement.mStatement stmt)].
  destruct (step_reply eng w (SqliteStatement.mStatement stmt) =? SQLITE_ROW) eqn:E1.
  - inversion H. split; [reflexivity|]. cbn. rewrite E1. reflexivity.
  - destruct (step_reply eng w (SqliteStatement.mStatement stmt) =? SQLITE_DONE) eqn:E2;
      [|discriminate].
    inversion H. split; [reflexivity|]. cbn. rewrite E1, E2. reflexivity.
Qed.

Lemma reports_binder binder index v :
  reports_every_failure eng st (SqliteValueBinder.bind eng binder index v).
Proof.
  destruct v; cbn [SqliteValueBinder.bind];
    (apply reports_bind;
     [apply reports_checkParameterIndex | intros _; apply reports_checked_bind]).
Qed.

Lemma reports_bindAll_from stmt args :
  forall index,
    reports_every_failure eng st (SqliteStatementBindAll.bindAll_from eng stmt index args).
Proof.
  induction args as [|a args IH]; intros index; cbn [SqliteStatementBindAll.bindAll_from].
  - apply reports_ret.
  - apply reports_bind; [|intros _; apply IH].
    destruct a; cbn [SqliteStatementBindAll.bindParameter];
      (apply reports_bind;
       [apply reports_checkParameterIndex | intros _; apply reports_checked_bind]).
Qed.

Lemma reports_execute db sql : reports_every_failure eng st (SqliteDb.execute eng db sql).
Proof.
  intros w [] w' H. destruct (execute_returns eng db sql w w' H) as (_ & Hrc & ->).
  exists [Exec sql]. split; [reflexivity|]. cbn. rewrite Hrc. reflexivity.
Qed.

Lemma reports_prepare db sql : reports_every_failure eng st (SqliteDb.prepare eng db sql).
Proof.
  intros w s w' H. destruct (SqliteDb.isOpen db) eqn:Ho.
  - rewrite (prepare_spec eng db sql w Ho) in H.
    destruct (fst (prepare_reply eng w sql) =? SQLITE_OK) eqn:E; [|discriminate].
    inversion H. exists [Prepare sql]. split; [reflexivity|]. cbn. rewrite E. reflexivity.
  - unfold SqliteDb.prepare, SqliteDb.checkConnection, bind in H. rewrite Ho in H.
    discriminate.
Qed.

Lemma reports_setCacheSize db n :
  reports_every_failure eng st (SqliteDb.setCacheSize eng db n).
Proof.
  unfold SqliteDb.setCacheSize. apply reports_if; [apply reports_throw|].
  apply reports_if; [apply reports_throw | apply reports_execute].
Qed.

Lemma reports_ctor db mode :
  reports_every_failure eng st (SqliteTransaction.ctor eng db mode).
Proof.
  unfold SqliteTransaction.ctor. apply reports_if; [apply reports_throw|].
  apply reports_bind; [apply reports_execute | intros _; apply reports_ret].
Qed.

Lemma reports_exec sql :
  method_reports_every_failure eng st (SqliteTransaction.exec eng sql).
Proof.
  intros tx w u tx' w' H. destruct (SqliteTransaction.mIntransaction tx) eqn:Ha.
  - destruct (exec_active_cases eng tx sql w Ha)
      as [(_ & Hrc & E) | [(_ & _ & e & _ & E) | (_ & e & _ & E)]];
      rewrite E in H; inversion H.
    exists [Exec sql]. split; [reflexivity|]. cbn. rewrite Hrc. reflexivity.
  - rewrite (exec_finished eng tx sql w Ha) in H. inversion H.
    exists []. rewrite app_nil_r. auto.
Qed.

Lemma all_failures_reported : failures_reported eng st.
Proof.
  constructor; intros;
    try (apply reports_bind;
         [apply reports_checkParameterIndex | intros _; apply reports_checked_bind]).
  - apply reports_step.
  - apply reports_binder.
  - apply reports_bindAll_from.
  - apply reports_prepare.
  - apply reports_execute.
  - apply reports_execute.
  - apply reports_execute.
  - apply reports_execute.
  - apply reports_execute.
  - apply reports_execute.
  - apply reports_setCacheSize.
  - apply reports_ctor.
  - apply reports_exec.
  - apply reports_exec.
Qed.
End Reporting.

(** What [loadExtension] does once the file is there and loading was
    switched on. *)
Lemma loadExtension_enabled (ld : ExtensionLoader) (db : SqliteDb.t)
    (libraryPath entryPoint : string) (l : list ext_call) :
  let conn := SqliteDb.mConnection db in
  let proc := if (entryPoint =? "")%string then None else Some entryPoint in
  file_exists ld libraryPath = true ->
  enable_reply ld l conn 1 = SQLITE_OK ->
  fst (load_reply ld (l ++ [EnableLoadExtension conn 1]) conn libraryPath proc) = SQLITE_OK ->
  SqliteDbExtension.loadExtension ld db libraryPath entryPoint l =
    (Ok tt, l ++ [EnableLoadExtension conn 1; LoadExtension conn libraryPath proc;
                  EnableLoadExtension conn 0]).
Proof.
  intros conn proc Hf Hen Hld. unfold SqliteDbExtension.loadExtension. fold conn proc.
  rewrite Hf. cbn [negb].
  unfold bind, SqliteDbExtension.sqlite3_enable_load_extension,
    SqliteDbExtension.sqlite3_load_extension.
  rewrite Hen. cbn [Z.eqb negb SQLITE_OK].
  destruct (load_reply ld (l ++ [EnableLoadExtension conn 1]) conn libraryPath proc)
    as [rc errorMsg]. cbn [fst] in Hld. subst rc. cbn [Z.eqb negb SQLITE_OK].
  rewrite <- !app_assoc. reflexivity.
Qed.




(** * Properties of the rest of the code *)

(** ** Reading columns *)

Section GetterFacts.
Variable cols : Columns.
Implicit Types (this : SqliteStatement.t) (column : Z) (w : World).

Lemma checkColumnIndex_in_range this column w :
  0 <= column < column_count_reply cols w (SqliteStatement.mStatement this) ->
  SqliteStatementGetters.checkColumnIndex cols this column w = (Ok tt, w).
Proof.
  intros H. unfold SqliteStatementGetters.checkColumnIndex,
    SqliteStatementGetters.getColumnCount, bind.
  destruct (Z.ltb_spec column 0); [lia|].
  destruct (Z.geb_spec column (column_count_reply cols w (SqliteStatement.mStatement this)));
    [lia | reflexivity].
Qed.

Lemma checkColumnIndex_out_of_range this column w :
  column < 0 \/ column >= column_count_reply cols w (SqliteStatement.mStatement this) ->
  SqliteStatementGetters.checkColumnIndex cols this column w =
    (Throw (SqliteStatementException_
              ("Column index " +++ to_string column +++ " out of range [0, "
               +++ to_string (column_count_reply cols w (SqliteStatement.mStatement this) - 1)
               +++ "]")), w).
Proof.
  intros H. unfold SqliteStatementGetters.checkColumnIndex,
    SqliteStatementGetters.getColumnCount, bind.
  destruct (Z.ltb_spec column 0); [reflexivity|].
  destruct (Z.geb_spec column (column_count_reply cols w (SqliteStatement.mStatement this)));
    [reflexivity | lia].
Qed.

Lemma getColumnName_in_range this column w :
  0 <= column < column_count_reply cols w (SqliteStatement.mStatement this) ->
  SqliteStatementGetters.getColumnName cols this column w =
    (Ok (column_name_at cols w (SqliteStatement.mStatement this) column), w).
Proof.
  intros H. unfold SqliteStatementGetters.getColumnName, bind, column_name_at.
  rewrite (checkColumnIndex_in_range this column w H).
  destruct (column_name_reply cols w (SqliteStatement.mStatement this) column); reflexivity.
Qed.

(** The search over the indices [a], [a+1], ..., [a+n-1], all of them
    columns of the row. *)
Lemma find_column_cases this (name : string) w (n : nat) :
  forall a : nat,
    (forall j : nat, (a <= j < a + n)%nat ->
       Z.of_nat j < column_count_reply cols w (SqliteStatement.mStatement this)) ->
    let name_at := column_name_at cols w (SqliteStatement.mStatement this) in
    let run := SqliteStatementGetters.find_column cols this name
                 (List.map Z.of_nat (List.seq a n)) w in
    (exists k : nat,
        (a <= k < a + n)%nat /\ name_at (Z.of_nat k) = name /\
        (forall j : nat, (a <= j < k)%nat -> name_at (Z.of_nat j) <> name) /\
        run = (Ok (Z.of_nat k), w)) \/
    ((forall j : nat, (a <= j < a + n)%nat -> name_at (Z.of_nat j) <> name) /\
     run = (Throw (SqliteStatementException_ ("Column not found: " +++ name)), w)).
Proof.
  induction n as [|n IH]; intros a Ha name_at run; subst run.
  - right. split; [intros j Hj; lia | reflexivity].
  - cbn [List.seq List.map SqliteStatementGetters.find_column]. unfold bind.
    rewrite getColumnName_in_range by (specialize (Ha a); lia). fold name_at.
    destruct (String.eqb_spec (name_at (Z.of_nat a)) name) as [Heq|Hne].
    + left. exists a. split; [lia|]. split; [exact Heq|]. split; [intros j Hj; lia | reflexivity].
    + destruct (IH (S a)) as [(k & Hk & Hname & Hfirst & Hrun) | (Hnone & Hrun)];
        [intros j Hj; apply Ha; lia| |].
      * left. exists k. split; [lia|]. split; [exact Hname|]. split; [|exact Hrun].
        intros j Hj. destruct (Nat.eq_dec j a) as [->|Hja]; [exact Hne|].
        apply Hfirst. lia.
      * right. split; [|exact Hrun]. intros j Hj.
        destruct (Nat.eq_dec j a) as [->|Hja]; [exact Hne|]. apply Hnone. lia.
Qed.

Lemma getColumnIndex_cases this (name : string) w :
  let count := column_count_reply cols w (SqliteStatement.mStatement this) in
  let name_at := column_name_at cols w (SqliteStatement.mStatement this) in
  let run := SqliteStatementGetters.getColumnIndex cols this name w in
  (exists i, 0 <= i < count /\ name_at i = name /\
             (forall j, 0 <= j < i -> name_at j <> name) /\
             run = (Ok i, w)) \/
  ((forall j, 0 <= j < count -> name_at j <> name) /\
   run = (Throw (SqliteStatementException_ ("Column not found: " +++ name)), w)).
Proof.
  intros count name_at run. subst run.
  unfold SqliteStatementGetters.getColumnIndex, SqliteStatementGetters.getColumnCount,
    SqliteStatementGetters.loop_indices, bind. fold count.
  destruct (find_column_cases this name w (Z.to_nat count) 0)
    as [(k & Hk & Hname & Hfirst & Hrun) | (Hnone & Hrun)].
  - fold count. intros j Hj. lia.
  - left. exists (Z.of_nat k). split; [lia|]. split; [exact Hname|]. split; [|exact Hrun].
    intros j Hj. rewrite <- (Z2Nat.id j) by lia. apply Hfirst. lia.
  - right. split; [|exact Hrun]. intros j Hj. rewrite <- (Z2Nat.id j) by lia.
    apply Hnone. lia.
Qed.
End GetterFacts.

(** X1. The six index-based getters and [getColumnName] share one bounds
    check.  A column index below 0 or not below the column count makes
    each of them raise the same statement-category error, whose message
    gives the index and the range up to the count minus one; an index
    inside the range makes each return what the engine holds for that
    column, where a null text or name reads as the empty string and a
    blob is cut to the byte count the engine gives.  None of them sends
    anything to the engine. *)
Theorem getters_check_column_index :
  forall (cols : Columns) (this : SqliteStatement.t) (column : Z) (w : World),
    let p := SqliteStatement.mStatement this in
    let count := column_count_reply cols w p in
    (column < 0 \/ column >= count ->
       let e := SqliteStatementException_
                  ("Column index " +++ to_string column +++ " out of range [0, "
                   +++ to_string (count - 1) +++ "]") in
       SqliteStatementGetters.getInt cols this column w = (Throw e, w) /\
       SqliteStatementGetters.getInt64 cols this column w = (Throw e, w) /\
       SqliteStatementGetters.getDouble cols this column w = (Throw e, w) /\
       SqliteStatementGetters.getString cols this column w = (Throw e, w) /\
       SqliteStatementGetters.getBlob cols this column w = (Throw e, w) /\
       SqliteStatementGetters.isNull cols this column w = (Throw e, w) /\
       SqliteStatementGetters.getColumnName cols this column w = (Throw e, w)) /\
    (0 <= column < count ->
       SqliteStatementGetters.getInt cols this column w =
         (Ok (column_int_reply cols w p column), w) /\
       SqliteStatementGetters.getInt64 cols this column w =
         (Ok (column_int64_reply cols w p column), w) /\
       SqliteStatementGetters.getDouble cols this column w =
         (Ok (column_double_reply cols w p column), w) /\
       SqliteStatementGetters.getString cols this column w =
         (Ok (match column_text_reply cols w p column with
              | Some text => text
              | None => ""
              end), w) /\
       SqliteStatementGetters.getBlob cols this column w =
         (Ok (firstn (Z.to_nat (column_bytes_reply cols w p column))
                (column_blob_reply cols w p column)), w) /\
       SqliteStatementGetters.isNull cols this column w =
         (Ok (column_type_reply cols w p column =? SQLITE_NULL), w) /\
       SqliteStatementGetters.getColumnName cols this column w =
         (Ok (column_name_at cols w p column), w)).
Proof.
  intros cols this column w p count. split.
  - intros H e.
    unfold SqliteStatementGetters.getInt, SqliteStatementGetters.getInt64,
      SqliteStatementGetters.getDouble, SqliteStatementGetters.getString,
      SqliteStatementGetters.getBlob, SqliteStatementGetters.isNull,
      SqliteStatementGetters.getColumnName, bind.
    rewrite (checkColumnIndex_out_of_range cols this column w H).
    repeat split.
  - intros H.
    unfold SqliteStatementGetters.getInt, SqliteStatementGetters.getInt64,
      SqliteStatementGetters.getDouble, SqliteStatementGetters.getString,
      SqliteStatementGetters.getBlob, SqliteStatementGetters.isNull,
      SqliteStatementGetters.getColumnName, bind, column_name_at.
    rewrite (checkColumnIndex_in_range cols this column w H). fold p.
    destruct (column_text_reply cols w p column);
      destruct (column_name_reply cols w p column); repeat split.
Qed.

Lemma getters_check_column_index_witness :
  let this := SqliteStatement.mk (Some (mkStmt "SELECT id, name, age FROM users" 0)) in
  SqliteStatementGetters.getString users_row this 3 [] =
    (Throw (SqliteStatementException_ "Column index 3 out of range [0, 2]"), []) /\
  SqliteStatementGetters.getInt users_row this (-1) [] =
    (Throw (SqliteStatementException_ "Column index -1 out of range [0, 2]"), []) /\
  SqliteStatementGetters.getString users_row this 1 [] = (Ok "Alice", []) /\
  SqliteStatementGetters.getString users_row this 2 [] = (Ok "", []).
Proof.
  intros this. split; [|split; [|split]].
  - apply (getters_check_column_index users_row this 3 []). right. cbn. lia.
  - apply (getters_check_column_index users_row this (-1) []). left. lia.
  - apply (getters_check_column_index users_row this 1 []). cbn. lia.
  - apply (getters_check_column_index users_row this 2 []). cbn. lia.
Defined.

(** X2. [getColumnIndex] returns the first index, counting from 0, whose
    column name equals the requested name exactly (case matters), and it
    raises the statement-category error "Column not found: <name>"
    exactly when no column of the row has that name.  It sends nothing to
    the engine. *)
Theorem getColumnIndex_first_match :
  forall (cols : Columns) (this : SqliteStatement.t) (name : string) (w : World),
    let count := column_count_reply cols w (SqliteStatement.mStatement this) in
    let name_at := column_name_at cols w (SqliteStatement.mStatement this) in
    let run := SqliteStatementGetters.getColumnIndex cols this name w in
    (forall i, 0 <= i < count -> name_at i = name ->
               (forall j, 0 <= j < i -> name_at j <> name) ->
               run = (Ok i, w)) /\
    (forall i w', run = (Ok i, w') ->
                  w' = w /\ 0 <= i < count /\ name_at i = name /\
                  forall j, 0 <= j < i -> name_at j <> name) /\
    ((forall j, 0 <= j < count -> name_at j <> name) <->
     run = (Throw (SqliteStatementException_ ("Column not found: " +++ name)), w)).
Proof.
  intros cols this name w count name_at run.
  destruct (getColumnIndex_cases cols this name w)
    as [(k & Hk & Hname & Hfirst & Hrun) | (Hnone & Hrun)];
    fold count name_at run in Hk, Hname, Hfirst, Hrun || fold count name_at run in Hnone, Hrun.
  - split; [|split].
    + intros i Hi Hin Hifirst. rewrite Hrun.
      destruct (Z.lt_trichotomy i k) as [Hlt | [-> | Hgt]]; [|reflexivity|].
      * elim (Hfirst i); [lia | exact Hin].
      * elim (Hifirst k); [lia | exact Hname].
    + intros i w' Hi. rewrite Hrun in Hi. inversion Hi. subst i w'. auto.
    + split.
      * intros Hnone. elim (Hnone k Hk). exact Hname.
      * intros Hthrow. rewrite Hrun in Hthrow. discriminate.
  - split; [|split].
    + intros i Hi Hin _. elim (Hnone i Hi). exact Hin.
    + intros i w' Hi. rewrite Hrun in Hi. discriminate.
    + split; [intros _; exact Hrun | intros _; exact Hnone].
Qed.

Lemma getColumnIndex_first_match_witness :
  let this := SqliteStatement.mk (Some (mkStmt "SELECT id, name, age FROM users" 0)) in
  SqliteStatementGetters.getColumnIndex users_row this "name" [] = (Ok 1, []).
Proof.
  intros this.
  apply (getColumnIndex_first_match users_row this "name" []).
  - cbn. lia.
  - reflexivity.
  - intros j Hj. assert (j = 0) as -> by lia. discriminate.
Defined.

(** X3. A name-based getter reads the first column that carries the
    name: when column [i] is the first one named [name], each
    name-based getter returns what the index-based getter returns at
    [i], and never an index error; when no column is named [name], each
    raises "Column not found: <name>".  With two columns of the same name
    the later one cannot be reached by name. *)
Theorem named_getters_read_first_match :
  forall (cols : Columns) (this : SqliteStatement.t) (name : string) (w : World),
    let p := SqliteStatement.mStatement this in
    let count := column_count_reply cols w p in
    let name_at := column_name_at cols w p in
    (forall i, 0 <= i < count -> name_at i = name ->
       (forall j, 0 <= j < i -> name_at j <> name) ->
       SqliteStatementGetters.getInt_by_name cols this name w =
         (Ok (column_int_reply cols w p i), w) /\
       SqliteStatementGetters.getInt64_by_name cols this name w =
         (Ok (column_int64_reply cols w p i), w) /\
       SqliteStatementGetters.getDouble_by_name cols this name w =
         (Ok (column_double_reply cols w p i), w) /\
       SqliteStatementGetters.getString_by_name cols this name w =
         SqliteStatementGetters.getString cols this i w /\
       SqliteStatementGetters.getBlob_by_name cols this name w =
         SqliteStatementGetters.getBlob cols this i w /\
       SqliteStatementGetters.isNull_by_name cols this name w =
         (Ok (column_type_reply cols w p i =? SQLITE_NULL), w)) /\
    ((forall j, 0 <= j < count -> name_at j <> name) ->
       let e := SqliteStatementException_ ("Column not found: " +++ name) in
       SqliteStatementGetters.getInt_by_name cols this name w = (Throw e, w) /\
       SqliteStatementGetters.getInt64_by_name cols this name w = (Throw e, w) /\
       SqliteStatementGetters.getDouble_by_name cols this name w = (Throw e, w) /\
       SqliteStatementGetters.getString_by_name cols this name w = (Throw e, w) /\
       SqliteStatementGetters.getBlob_by_name cols this name w = (Throw e, w) /\
       SqliteStatementGetters.isNull_by_name cols this name w = (Throw e, w)).
Proof.
  intros cols this name w p count name_at.
  unfold SqliteStatementGetters.getInt_by_name, SqliteStatementGetters.getInt64_by_name,
    SqliteStatementGetters.getDouble_by_name, SqliteStatementGetters.getString_by_name,
    SqliteStatementGetters.getBlob_by_name, SqliteStatementGetters.isNull_by_name.
  destruct (getColumnIndex_cases cols this name w)
    as [(k & Hk & Hname & Hfirst & Hrun) | (Hnone & Hrun)]; split.
  - intros i Hi Hin Hifirst.
    assert (i = k) as ->.
    { destruct (Z.lt_trichotomy i k) as [Hlt | [Heq | Hgt]]; [|exact Heq|].
      - elim (Hfirst i); [lia | exact Hin].
      - elim (Hifirst k); [lia | exact Hname]. }
    unfold bind at 1 2 3 4 5 6. rewrite Hrun.
    unfold SqliteStatementGetters.getInt, SqliteStatementGetters.getInt64,
      SqliteStatementGetters.getDouble, SqliteStatementGetters.isNull, bind.
    rewrite (checkColumnIndex_in_range cols this k w Hk). repeat split.
  - intros Hnone. elim (Hnone k Hk). exact Hname.
  - intros i Hi Hin _. elim (Hnone i Hi). exact Hin.
  - intros _. cbv zeta. unfold bind. rewrite Hrun. repeat split.
Qed.

Lemma named_getters_read_first_match_witness :
  let this := SqliteStatement.mk (Some (mkStmt "SELECT id, name, age FROM users" 0)) in
  SqliteStatementGetters.getInt_by_name users_row this "id" [] = (Ok 7, []) /\
  SqliteStatementGetters.getString_by_name users_row this "Name" [] =
    (Throw (SqliteStatementException_ "Column not found: Name"), []).
Proof.
  intros this. split.
  - destruct (named_getters_read_first_match users_row this "id" []) as (Hfound & _).
    destruct (Hfound 0) as (Hint & _).
    + cbn. lia.
    + reflexivity.
    + intros j Hj. lia.
    + exact Hint.
  - destruct (named_getters_read_first_match users_row this "Name" []) as (_ & Hnone).
    destruct Hnone as (_ & _ & _ & Hstring & _).
    + intros j Hj. cbn in Hj.
      assert (j = 0 \/ j = 1 \/ j = 2) as [-> | [-> | ->]] by lia; discriminate.
    + exact Hstring.
Defined.

(** X4. An optional getter on a column inside the range yields the
    absent value exactly when the engine reports the column's type as
    NULL, and otherwise the value of the matching plain getter; on a
    column outside the range it raises the same statement-category error
    as the plain getters. *)
Theorem optional_getters_absent_iff_null :
  forall (cols : Columns) (this : SqliteStatement.t) (column : Z) (w : World),
    let p := SqliteStatement.mStatement this in
    let count := column_count_reply cols w p in
    let null := column_type_reply cols w p column =? SQLITE_NULL in
    (0 <= column < count ->
       SqliteStatementGetters.getOptionalInt cols this column w =
         (Ok (if null then None else Some (column_int_reply cols w p column)), w) /\
       SqliteStatementGetters.getOptionalInt64 cols this column w =
         (Ok (if null then None else Some (column_int64_reply cols w p column)), w) /\
       SqliteStatementGetters.getOptionalDouble cols this column w =
         (Ok (if null then None else Some (column_double_reply cols w p column)), w) /\
       SqliteStatementGetters.getOptionalString cols this column w =
         (Ok (if null then None
              else Some (match column_text_reply cols w p column with
                         | Some text => text
                         | None => ""
                         end)), w)) /\
    (column < 0 \/ column >= count ->
       let e := SqliteStatementException_
                  ("Column index " +++ to_string column +++ " out of range [0, "
                   +++ to_string (count - 1) +++ "]") in
       SqliteStatementGetters.getOptionalInt cols this column w = (Throw e, w) /\
       SqliteStatementGetters.getOptionalInt64 cols this column w = (Throw e, w) /\
       SqliteStatementGetters.getOptionalDouble cols this column w = (Throw e, w) /\
       SqliteStatementGetters.getOptionalString cols this column w = (Throw e, w)).
Proof.
  intros cols this column w p count null.
  unfold SqliteStatementGetters.getOptionalInt, SqliteStatementGetters.getOptionalInt64,
    SqliteStatementGetters.getOptionalDouble, SqliteStatementGetters.getOptionalString,
    SqliteStatementGetters.isNull, SqliteStatementGetters.getInt,
    SqliteStatementGetters.getInt64, SqliteStatementGetters.getDouble,
    SqliteStatementGetters.getString, bind.
  split.
  - intros H. rewrite (checkColumnIndex_in_range cols this column w H). fold p null.
    destruct null; [repeat split|].
    rewrite (checkColumnIndex_in_range cols this column w H). fold p.
    destruct (column_text_reply cols w p column); repeat split.
  - intros H. cbv zeta. rewrite (checkColumnIndex_out_of_range cols this column w H).
    repeat split.
Qed.

Lemma optional_getters_absent_iff_null_witness :
  let this := SqliteStatement.mk (Some (mkStmt "SELECT id, name, age FROM users" 0)) in
  SqliteStatementGetters.getOptionalInt users_row this 2 [] = (Ok None, []) /\
  SqliteStatementGetters.getOptionalString users_row this 1 [] = (Ok (Some "Alice"), []) /\
  SqliteStatementGetters.getOptionalInt users_row this 5 [] =
    (Throw (SqliteStatementException_ "Column index 5 out of range [0, 2]"), []).
Proof.
  intros this. split; [|split].
  - apply (optional_getters_absent_iff_null users_row this 2 []). cbn. lia.
  - apply (optional_getters_absent_iff_null users_row this 1 []). cbn. lia.
  - apply (optional_getters_absent_iff_null users_row this 5 []). right. cbn. lia.
Defined.

(** ** bindAll *)

Section BindAllFacts.
Variable eng : Engine.
Variable this : SqliteStatement.t.

Let p := SqliteStatement.mStatement this.
Let P := SqliteStatement.getParameterCount this.

Lemma bindParameter_in_range (index : Z) (a : bindable) (w : World) :
  in_range this index ->
  exists e, class e = SqliteStatementException /\
    SqliteStatementBindAll.bindParameter eng this index a w =
      (if bind_reply eng w p index (bind_arg_of_bindable a) =? SQLITE_OK
       then Ok tt else Throw e,
       w ++ [Bind p index (bind_arg_of_bindable a)]).
Proof.
  intros H.
  destruct a; cbn [SqliteStatementBindAll.bindParameter bind_arg_of_bindable];
    unfold SqliteStatement.bindNull, SqliteStatement.bind_int, SqliteStatement.bind_int64,
      SqliteStatement.bind_double, SqliteStatement.bind_string, SqliteStatement.bind_cstr,
      bind;
    rewrite (checkParameterIndex_in_range _ _ _ H);
    unfold sqlite3_bind; fold p;
    match goal with
    | |- context [if negb (?r =? SQLITE_OK) then throw ?e else _] =>
        exists e; split; [reflexivity|]; destruct (r =? SQLITE_OK); reflexivity
    end.
Qed.

Lemma bindParameter_out_of_range (index : Z) (a : bindable) (w : World) :
  ~ in_range this index ->
  rejected (SqliteStatementBindAll.bindParameter eng this index a) w.
Proof.
  intros H. destruct a; cbn [SqliteStatementBindAll.bindParameter];
    apply rejected_guard; exact H.
Qed.

Lemma args_binds_length (args : list bindable) (idx : Z) :
  List.length (args_binds p idx args) = List.length args.
Proof.
  revert idx. induction args as [|a args IH]; intros idx; cbn; [reflexivity|].
  rewrite IH. reflexivity.
Qed.

Lemma args_binds_prefix_within (M : Z) (args : list bindable) :
  forall (idx : Z) (sent unsent : list Call),
    args_binds p idx args = sent ++ unsent ->
    1 <= idx -> idx + Z.of_nat (List.length sent) <= M + 1 ->
    Forall (bind_within M) sent.
Proof.
  induction args as [|a args IH]; intros idx sent unsent Heq Hidx Hlen.
  - cbn in Heq. symmetry in Heq. apply app_eq_nil in Heq. destruct Heq as [-> _].
    constructor.
  - destruct sent as [|c sent]; [constructor|].
    cbn in Heq. inversion Heq as [[Hc Hrest]]. cbn [List.length] in Hlen.
    constructor; [cbn; lia|]. apply (IH (idx + 1) sent unsent Hrest); lia.
Qed.

Lemma bindAll_from_spec (args : list bindable) :
  forall (idx : Z) (w : World),
    1 <= idx <= Z.max P 0 + 1 ->
    exists sent unsent,
      snd (SqliteStatementBindAll.bindAll_from eng this idx args w) = w ++ sent /\
      args_binds p idx args = sent ++ unsent /\
      idx + Z.of_nat (List.length sent) <= Z.max P 0 + 1 /\
      match fst (SqliteStatementBindAll.bindAll_from eng this idx args w) with
      | Ok _ => unsent = [] /\ calls_ok eng w sent = true
      | Throw e => class e = SqliteStatementException
      end.
Proof.
  induction args as [|a args IH]; intros idx w Hidx.
  - exists [], []. cbn. rewrite app_nil_r. repeat split; lia.
  - cbn [SqliteStatementBindAll.bindAll_from args_binds]. unfold bind.
    destruct (Z_le_gt_dec idx P) as [Hle|Hgt].
    + destruct (bindParameter_in_range idx a w) as (e & He & Hrun);
        [unfold in_range; fold P; lia|].
      rewrite Hrun.
      destruct (Z.eqb_spec (bind_reply eng w p idx (bind_arg_of_bindable a)) SQLITE_OK)
        as [Hok|Hno].
      * destruct (IH (idx + 1) (w ++ [Bind p idx (bind_arg_of_bindable a)]))
          as (sent & unsent & Hw & Hr & Hb & Hf); [lia|].
        exists (Bind p idx (bind_arg_of_bindable a) :: sent), unsent.
        rewrite Hw, <- app_assoc, Hr. split; [reflexivity|]. split; [reflexivity|].
        split; [cbn [List.length]; lia|].
        destruct (fst (SqliteStatementBindAll.bindAll_from eng this (idx + 1) args
                         (w ++ [Bind p idx (bind_arg_of_bindable a)]))); [|exact Hf].
        destruct Hf as (Hf1 & Hf2). split; [exact Hf1|]. cbn. rewrite Hok, Hf2. reflexivity.
      * exists [Bind p idx (bind_arg_of_bindable a)], (args_binds p (idx + 1) args).
        cbn [fst snd app List.length]. repeat split; [lia | exact He].
    + destruct (bindParameter_out_of_range idx a w) as (e & He & Hc);
        [unfold in_range; fold P; lia|].
      rewrite He.
      exists [], (Bind p idx (bind_arg_of_bindable a) :: args_binds p (idx + 1) args).
      cbn [fst snd app List.length]. rewrite app_nil_r. repeat split; [lia | exact Hc].
Qed.

Lemma bindAll_from_accepts (args : list bindable) :
  forall (idx : Z) (w : World),
    1 <= idx -> idx + Z.of_nat (List.length args) <= Z.max P 0 + 1 ->
    calls_ok eng w (args_binds p idx args) = true ->
    SqliteStatementBindAll.bindAll_from eng this idx args w =
      (Ok tt, w ++ args_binds p idx args).
Proof.
  induction args as [|a args IH]; intros idx w Hidx Hlen Hok.
  - cbn. rewrite app_nil_r. reflexivity.
  - cbn [SqliteStatementBindAll.bindAll_from args_binds List.length] in *. unfold bind.
    destruct (bindParameter_in_range idx a w) as (e & He & Hrun);
      [unfold in_range; fold P; lia|].
    cbn [calls_ok call_ok] in Hok. apply andb_prop in Hok. destruct Hok as [Hok1 Hok2].
    rewrite Hrun, Hok1. rewrite IH; [|lia|lia|exact Hok2].
    rewrite <- app_assoc. reflexivity.
Qed.
End BindAllFacts.

(** X5. [bindAll] binds its arguments from left to right at the indices
    1, 2, 3, ...  Whatever happens, what it sent is an initial part of
    that sequence and every index it used addresses a placeholder of the
    statement.  It returns normally exactly when there are no more
    arguments than placeholders and the engine accepted each bind; every
    error it raises is a statement-category error, and the binds sent
    before the failing one are not taken back. *)
Theorem bindAll_binds_consecutive :
  forall (eng : Engine) (this : SqliteStatement.t) (args : list bindable) (w : World),
    let p := SqliteStatement.mStatement this in
    let P := SqliteStatement.getParameterCount this in
    let run := SqliteStatementBindAll.bindAll eng this args w in
    (exists sent unsent,
       snd run = w ++ sent /\ args_binds p 1 args = sent ++ unsent /\
       Forall (bind_within (Z.max P 0)) sent) /\
    (fst run = Ok tt <->
       Z.of_nat (List.length args) <= Z.max P 0 /\
       calls_ok eng w (args_binds p 1 args) = true) /\
    (forall e, fst run = Throw e -> class e = SqliteStatementException).
Proof.
  intros eng this args w p P run. subst run. unfold SqliteStatementBindAll.bindAll.
  destruct (bindAll_from_spec eng this args 1 w) as (sent & unsent & Hw & Hr & Hb & Hf);
    [fold P; lia|].
  fold p P in Hw, Hr, Hb, Hf |- *.
  split; [|split].
  - exists sent, unsent. split; [exact Hw|]. split; [exact Hr|].
    apply (args_binds_prefix_within this (Z.max P 0) args 1 sent unsent Hr); lia.
  - split.
    + intros Hok. rewrite Hok in Hf. destruct Hf as (-> & Hcalls).
      rewrite app_nil_r in Hr. subst sent. split; [|exact Hcalls].
      rewrite (args_binds_length this) in Hb. lia.
    + intros (Hlen & Hcalls).
      rewrite (bindAll_from_accepts eng this args 1 w); [reflexivity | lia | | exact Hcalls].
      fold P. lia.
  - intros e He. rewrite He in Hf. exact Hf.
Qed.

(** X6. With an index inside [1, parameter count], every bind overload,
    [bindNull] and the value binder send exactly one engine bind call, at
    that index and of the kind of the value; each returns normally
    exactly when the engine answers SQLITE_OK and otherwise raises a
    statement-category error.  A value offered through the binder is
    bound as null, int64, double, text or blob according to the
    alternative the variant holds. *)
Theorem bind_in_range_sends_one_call :
  forall (eng : Engine) (this : SqliteStatement.t) (index : Z) (w : World),
    let p := SqliteStatement.mStatement this in
    let one_call := fun (run : outcome unit * World) (a : bind_arg) =>
      snd run = w ++ [Bind p index a] /\
      (fst run = Ok tt <-> bind_reply eng w p index a = SQLITE_OK) /\
      (forall e, fst run = Throw e -> class e = SqliteStatementException) in
    1 <= index <= SqliteStatement.getParameterCount this ->
    (forall v, one_call (SqliteStatement.bind_int eng this index v w) (arg_int v)) /\
    (forall v, one_call (SqliteStatement.bind_int64 eng this index v w) (arg_int64 v)) /\
    (forall v, one_call (SqliteStatement.bind_double eng this index v w) (arg_double v)) /\
    (forall v, one_call (SqliteStatement.bind_string eng this index v w) (arg_text v)) /\
    (forall v, one_call (SqliteStatement.bind_cstr eng this index v w) (arg_text v)) /\
    (forall v, one_call (SqliteStatement.bind_blob eng this index v w) (arg_blob v)) /\
    one_call (SqliteStatement.bindNull eng this index w) arg_null /\
    (forall v, one_call (SqliteValueBinder.bind eng (SqliteValueBinder.mk this) index v w)
                        (bind_arg_of v)).
Proof.
  intros eng this index w p one_call H.
  assert (Hin : in_range this index) by exact H.
  assert (Hgen : forall (a : bind_arg) (e : exception),
             class e = SqliteStatementException ->
             one_call ((SqliteStatement.checkParameterIndex this index ;;
                        result <- sqlite3_bind eng p index a ;;
                        if negb (result =? SQLITE_OK) then throw e else ret tt) w) a).
  { intros a e He. unfold one_call, bind.
    rewrite (checkParameterIndex_in_range this index w Hin). unfold sqlite3_bind.
    destruct (Z.eqb_spec (bind_reply eng w p index a) SQLITE_OK) as [Hok|Hno]; cbn.
    - split; [reflexivity|]. split; [tauto | discriminate].
    - split; [reflexivity|]. split.
      + split; [discriminate | contradiction].
      + intros e' He'. inversion He'. subst e'. exact He. }
  refine (conj _ (conj _ (conj _ (conj _ (conj _ (conj _ (conj _ _)))))));
    intros; try (apply Hgen; reflexivity).
  destruct v; apply Hgen; reflexivity.
Qed.

Lemma bind_in_range_sends_one_call_witness :
  let this := SqliteStatement.mk (Some (mkStmt "INSERT INTO t VALUES (?, ?)" 2)) in
  snd (SqliteStatement.bind_blob (obliging_engine 2) this 2 [x01] []) =
    [Bind (SqliteStatement.mStatement this) 2 (arg_blob [x01])] /\
  (fst (SqliteStatement.bind_blob (obliging_engine 2) this 2 [x01] []) = Ok tt <->
   bind_reply (obliging_engine 2) [] (SqliteStatement.mStatement this) 2 (arg_blob [x01])
     = SQLITE_OK).
Proof.
  intros this.
  destruct (bind_in_range_sends_one_call (obliging_engine 2) this 2 [])
    as (_ & _ & _ & _ & _ & Hblob & _).
  - cbn. lia.
  - destruct (Hblob [x01]) as (H1 & H2 & _). split; [exact H1 | exact H2].
Defined.

(** ** More on batch execution *)

Section BatchDetails.
Variable eng : Engine.
Variable stmt : SqliteStatement.t.

Let ptr := SqliteStatement.mStatement stmt.
Let binder := SqliteValueBinder.mk stmt.
Let P := SqliteStatement.getParameterCount stmt.

Hypothesis P_is_int : is_int P.

Lemma row_binds_prefix_within (row : list SqliteValue) :
  forall (idx : Z) (sent unsent : list Call),
    row_binds ptr idx row = sent ++ unsent ->
    1 <= idx -> idx + Z.of_nat (List.length sent) <= Z.max P 0 + 1 ->
    Forall (bind_within P) sent.
Proof.
  induction row as [|v row IH]; intros idx sent unsent Heq Hidx Hlen.
  - cbn in Heq. symmetry in Heq. apply app_eq_nil in Heq. destruct Heq as [-> _].
    constructor.
  - destruct sent as [|c sent]; [constructor|].
    cbn in Heq. inversion Heq as [[Hc Hrest]]. cbn [List.length] in Hlen.
    constructor; [cbn; lia|]. apply (IH (idx + 1) sent unsent Hrest); lia.
Qed.

Lemma bind_row_accepts (row : list SqliteValue) :
  forall (idx : Z) (w : World),
    1 <= idx -> idx + Z.of_nat (List.length row) <= Z.max P 0 + 1 ->
    calls_ok eng w (row_binds ptr idx row) = true ->
    SqliteDb.bind_row eng binder idx row w = (Ok tt, w ++ row_binds ptr idx row).
Proof.
  induction row as [|v row IH]; intros idx w Hidx Hlen Hok.
  - cbn. rewrite app_nil_r. reflexivity.
  - cbn [SqliteDb.bind_row row_binds List.length] in *. unfold bind.
    assert (Hint : is_int idx) by (unfold is_int, INT_MAX in *; lia).
    rewrite (static_cast_int_id idx Hint).
    rewrite binder_bind_in_range by (unfold in_range; fold P; cbn; lia).
    cbn [SqliteValueBinder.mStmt binder]. fold ptr. cbv zeta.
    cbn [calls_ok call_ok] in Hok. apply andb_prop in Hok. destruct Hok as [Hok1 Hok2].
    rewrite Hok1. rewrite size_t_succ_small by (unfold is_int, INT_MAX in *; lia).
    rewrite IH; [|lia|lia|exact Hok2]. rewrite <- app_assoc. reflexivity.
Qed.

Lemma for_rows_ok_iff (rows : list (list SqliteValue)) :
  forall (w : World),
    fst (SqliteDb.for_rows eng stmt binder rows w) = Ok tt <->
    Forall (fun row => Z.of_nat (List.length row) <= Z.max P 0) rows /\
    calls_ok eng w (flat_map (row_calls ptr) rows) = true.
Proof.
  induction rows as [|row rows IH]; intros w.
  - cbn. split; [intros _; split; [constructor | reflexivity] | reflexivity].
  - rewrite for_rows_cons. cbn [flat_map]. unfold row_calls at 1.
    rewrite <- app_assoc, calls_ok_app, calls_ok_app.
    assert (Hstep : calls_ok eng (w ++ row_binds ptr 1 row)
                      [Step ptr; Reset ptr; ClearBindings ptr] =
                    (step_reply eng (w ++ row_binds ptr 1 row) ptr =? SQLITE_ROW)
                    || (step_reply eng (w ++ row_binds ptr 1 row) ptr =? SQLITE_DONE))
      by (cbn; rewrite andb_true_r; reflexivity).
    rewrite Hstep. clear Hstep.
    split.
    + intros Hrun. fold ptr binder in Hrun.
      destruct (bind_row_spec eng stmt P_is_int row 1 w) as (t1 & rest1 & Hw1 & Hr1 & Hb1 & Hf1);
        [fold P; lia|].
      fold ptr binder P in Hw1, Hr1, Hb1, Hf1.
      destruct (SqliteDb.bind_row eng binder 1 row w) as [[u|e] w1];
        cbv beta iota in Hrun; [|cbn [fst] in Hrun; discriminate Hrun].
      cbn [fst snd] in Hw1, Hf1. destruct Hf1 as (-> & Hok1). rewrite app_nil_r in Hr1.
      subst t1 w1. rewrite (row_binds_length stmt) in Hb1. fold ptr in Hb1.
      destruct ((step_reply eng (w ++ row_binds ptr 1 row) ptr =? SQLITE_ROW)
                || (step_reply eng (w ++ row_binds ptr 1 row) ptr =? SQLITE_DONE));
        [|cbn [fst] in Hrun; discriminate Hrun].
      apply IH in Hrun. destruct Hrun as (Hfit & Hcalls).
      split; [constructor; [lia | exact Hfit]|].
      rewrite Hok1. cbn [andb]. exact Hcalls.
    + intros (Hfit & Hcalls). fold ptr binder. inversion Hfit as [|r rs Hrow Hrows]; subst.
      apply andb_prop in Hcalls. destruct Hcalls as [Hok1 Hcalls].
      apply andb_prop in Hcalls. destruct Hcalls as [Hs Hcalls].
      rewrite (bind_row_accepts row 1 w); [|lia|lia|exact Hok1]. rewrite Hs.
      apply IH. split; [exact Hrows | exact Hcalls].
Qed.

Lemma for_rows_within (rows : list (list SqliteValue)) :
  forall (w : World),
    exists t, snd (SqliteDb.for_rows eng stmt binder rows w) = w ++ t /\
              Forall (bind_within P) t.
Proof.
  induction rows as [|row rows IH]; intros w.
  - exists []. cbn. rewrite app_nil_r. split; [reflexivity | constructor].
  - rewrite for_rows_cons. fold ptr binder.
    destruct (bind_row_spec eng stmt P_is_int row 1 w) as (t1 & rest1 & Hw1 & Hr1 & Hb1 & _);
      [fold P; lia|].
    fold ptr binder P in Hw1, Hr1, Hb1.
    assert (Hin1 : Forall (bind_within P) t1)
      by (apply (row_binds_prefix_within row 1 t1 rest1 Hr1); lia).
    destruct (SqliteDb.bind_row eng binder 1 row w) as [[u|e] w1]; cbn [snd] in Hw1; subst w1.
    + destruct ((step_reply eng (w ++ t1) ptr =? SQLITE_ROW)
                || (step_reply eng (w ++ t1) ptr =? SQLITE_DONE)).
      * destruct (IH ((w ++ t1) ++ [Step ptr; Reset ptr; ClearBindings ptr]))
          as (t & Hw & Hin).
        exists (t1 ++ [Step ptr; Reset ptr; ClearBindings ptr] ++ t).
        rewrite Hw, <- !app_assoc. split; [reflexivity|].
        apply Forall_app. split; [exact Hin1|]. apply Forall_app. split; [|exact Hin].
        repeat constructor.
      * exists (t1 ++ [Step ptr]). cbn [snd]. rewrite <- app_assoc.
        split; [reflexivity|]. apply Forall_app. split; [exact Hin1 | repeat constructor].
    + exists t1. split; [reflexivity | exact Hin1].
Qed.
End BatchDetails.

Lemma batch_rows_no_finalize (p : stmt_ptr) (rows : list (list SqliteValue)) :
  Forall (fun c => is_finalize c = false) (flat_map (row_calls p) rows).
Proof.
  induction rows as [|row rows IH]; cbn; [constructor|].
  apply Forall_app. split; [|exact IH]. unfold row_calls. apply Forall_app. split.
  - eapply Forall_impl; [|apply row_binds_are_binds]. intros [] H; cbn in *; congruence.
  - repeat constructor.
Qed.

(** X7. Edge cases of [executeBatch].  On a connection that is not open
    it raises the connection-category error "Database not open" and
    sends nothing.  When the template does not compile it raises a
    connection-category error carrying the engine's message, after the
    prepare call alone: nothing is bound, stepped or released.  With no
    rows it prepares the statement, releases it and returns normally. *)
Theorem executeBatch_edge_cases :
  forall (eng : Engine) (db : SqliteDb.t) (sql : string)
         (rows : list (list SqliteValue)) (w : World),
    (SqliteDb.isOpen db = false ->
       SqliteDb.executeBatch eng db sql rows w =
         (Throw (SqliteDbException_ "Database not open"), w)) /\
    (SqliteDb.isOpen db = true -> fst (prepare_reply eng w sql) <> SQLITE_OK ->
       SqliteDb.executeBatch eng db sql rows w =
         (Throw (SqliteDbException_
                   ("Failed to prepare statement: "
                    +++ errmsg_reply eng (w ++ [Prepare sql]))),
          w ++ [Prepare sql])) /\
    (SqliteDb.isOpen db = true -> fst (prepare_reply eng w sql) = SQLITE_OK ->
       SqliteDb.executeBatch eng db sql [] w =
         (Ok tt, w ++ Prepare sql :: finalize_calls (snd (prepare_reply eng w sql)))).
Proof.
  intros eng db sql rows w. split; [|split].
  - intros Ho. unfold SqliteDb.executeBatch. rewrite Ho. reflexivity.
  - intros Ho Hrc. rewrite (executeBatch_open eng db sql rows w Ho). cbv zeta.
    destruct (Z.eqb_spec (fst (prepare_reply eng w sql)) SQLITE_OK);
      [contradiction | reflexivity].
  - intros Ho Hrc. rewrite (executeBatch_open eng db sql [] w Ho). cbv zeta.
    rewrite Hrc. cbn. rewrite <- app_assoc. reflexivity.
Qed.

Lemma executeBatch_edge_cases_witness :
  SqliteDb.executeBatch (obliging_engine 1) (SqliteDb.mk None) "DELETE FROM t"
    [[int64_value 1]] [] = (Throw (SqliteDbException_ "Database not open"), []) /\
  SqliteDb.executeBatch (obliging_engine 1) open_db "DELETE FROM t" [] [] =
    (Ok tt, [Prepare "DELETE FROM t"; Finalize (mkStmt "DELETE FROM t" 1)]).
Proof.
  split.
  - apply (executeBatch_edge_cases (obliging_engine 1) (SqliteDb.mk None) "DELETE FROM t"
             [[int64_value 1]] []). reflexivity.
  - apply (executeBatch_edge_cases (obliging_engine 1) open_db "DELETE FROM t" [] []);
      reflexivity.
Defined.

(** X8. [executeBatch] releases the statement it compiled exactly once,
    as the last call it makes, however the batch ends: after a normal
    return and after a failure of a bind or a step alike.  When the
    template did not compile, or the engine handed back no statement,
    nothing is released. *)
Theorem executeBatch_releases_statement_once :
  forall (eng : Engine) (db : SqliteDb.t) (sql : string)
         (rows : list (list SqliteValue)) (w : World),
    let stmt := snd (prepare_reply eng w sql) in
    let compiled := fst (prepare_reply eng w sql) =? SQLITE_OK in
    SqliteDb.isOpen db = true ->
    is_int (sqlite3_bind_parameter_count stmt) ->
    exists t,
      snd (SqliteDb.executeBatch eng db sql rows w) = w ++ t /\
      count is_finalize t =
        (if compiled then List.length (finalize_calls stmt) else O) /\
      (compiled = true ->
         exists t0, t = t0 ++ finalize_calls stmt /\ count is_finalize t0 = O).
Proof.
  intros eng db sql rows w stmt compiled Ho HP. subst compiled.
  rewrite (executeBatch_open eng db sql rows w Ho). cbv zeta. fold stmt.
  destruct (fst (prepare_reply eng w sql) =? SQLITE_OK).
  - destruct (for_rows_spec eng (SqliteStatement.mk stmt) HP rows (w ++ [Prepare sql]))
      as (t & rest & Hw & Hr & _).
    cbn [SqliteStatement.mStatement fst snd] in *. rewrite Hw.
    assert (Hnone : count is_finalize (Prepare sql :: t) = O).
    { apply count_none. constructor; [reflexivity|].
      pose proof (batch_rows_no_finalize stmt rows) as Hnf. rewrite Hr in Hnf.
      apply Forall_app in Hnf. apply Hnf. }
    exists ((Prepare sql :: t) ++ finalize_calls stmt).
    split; [cbn; rewrite <- !app_assoc; reflexivity|]. split.
    + rewrite count_app, Hnone. destruct stmt; reflexivity.
    + intros _. exists (Prepare sql :: t). split; [reflexivity | exact Hnone].
  - exists [Prepare sql]. cbn [snd]. split; [reflexivity|]. split; [reflexivity|].
    discriminate.
Qed.

Lemma executeBatch_releases_statement_once_witness :
  exists t,
    snd (SqliteDb.executeBatch (constraint_engine 1) open_db "INSERT INTO t VALUES (?)"
           [[int64_value 1]; [int64_value 1]; [int64_value 2]] []) = [] ++ t /\
    count is_finalize t = 1%nat /\
    (true = true ->
       exists t0,
         t = t0 ++ [Finalize (mkStmt "INSERT INTO t VALUES (?)" 1)] /\
         count is_finalize t0 = O).
Proof.
  apply (executeBatch_releases_statement_once (constraint_engine 1) open_db
           "INSERT INTO t VALUES (?)" [[int64_value 1]; [int64_value 1]; [int64_value 2]] []).
  - reflexivity.
  - unfold is_int, INT_MAX. cbn. lia.
Defined.

(** X9. [executeBatch] never sends the engine a bind whose index is below
    1 or above the placeholder count of the compiled statement, whatever
    the lengths of the rows: the values of a row that is too long are
    bound up to the last placeholder and the next one is refused by the
    wrapper itself. *)
Theorem executeBatch_binds_within_placeholders :
  forall (eng : Engine) (db : SqliteDb.t) (sql : string)
         (rows : list (list SqliteValue)) (w : World),
    let P := sqlite3_bind_parameter_count (snd (prepare_reply eng w sql)) in
    SqliteDb.isOpen db = true ->
    is_int P ->
    exists t,
      snd (SqliteDb.executeBatch eng db sql rows w) = w ++ t /\
      Forall (bind_within P) t.
Proof.
  intros eng db sql rows w P Ho HP.
  rewrite (executeBatch_open eng db sql rows w Ho). cbv zeta.
  destruct (fst (prepare_reply eng w sql) =? SQLITE_OK).
  - destruct (for_rows_within eng (SqliteStatement.mk (snd (prepare_reply eng w sql))) HP
                rows (w ++ [Prepare sql])) as (t & Hw & Hin).
    cbn [SqliteStatement.mStatement fst snd] in *. rewrite Hw.
    exists (Prepare sql :: t ++ finalize_calls (snd (prepare_reply eng w sql))).
    split; [rewrite <- !app_assoc; reflexivity|].
    constructor; [exact I|]. apply Forall_app. split; [exact Hin|].
    destruct (snd (prepare_reply eng w sql)); repeat constructor.
  - exists [Prepare sql]. split; [reflexivity | repeat constructor].
Qed.

Lemma executeBatch_binds_within_placeholders_witness :
  exists t,
    snd (SqliteDb.executeBatch (obliging_engine 1) open_db "INSERT INTO t VALUES (?)"
           [[int64_value 1; int64_value 2; int64_value 3]] []) = [] ++ t /\
    Forall (bind_within 1) t.
Proof.
  apply (executeBatch_binds_within_placeholders (obliging_engine 1) open_db
           "INSERT INTO t VALUES (?)" [[int64_value 1; int64_value 2; int64_value 3]] []).
  - reflexivity.
  - unfold is_int, INT_MAX. cbn. lia.
Defined.

(** X10. When the engine refuses the step of a row (any code other than
    ROW and DONE) after the earlier rows were executed and the row's
    values were bound, [executeBatch] raises a statement-category error
    whose message carries the numeric code.  The statement is not reset
    and its bindings are not cleared for that row, the rows after it are
    not attempted, the calls made for the earlier rows stand, and the
    statement is released. *)
Theorem executeBatch_step_failure :
  forall (eng : Engine) (db : SqliteDb.t) (sql : string)
         (pre post : list (list SqliteValue)) (row : list SqliteValue) (w : World),
    let stmt := snd (prepare_reply eng w sql) in
    let P := sqlite3_bind_parameter_count stmt in
    let before := w ++ Prepare sql :: flat_map (row_calls stmt) pre in
    let code := step_reply eng (before ++ row_binds stmt 1 row) stmt in
    SqliteDb.isOpen db = true ->
    is_int P ->
    fst (SqliteDb.executeBatch eng db sql pre w) = Ok tt ->
    Z.of_nat (List.length row) <= P ->
    calls_ok eng before (row_binds stmt 1 row) = true ->
    code <> SQLITE_ROW -> code <> SQLITE_DONE ->
    SqliteDb.executeBatch eng db sql (pre ++ row :: post) w =
      (Throw (SqliteStatementException_
                ("Step failed with error code: " +++ to_string code)),
       before ++ row_binds stmt 1 row ++ [Step stmt] ++ finalize_calls stmt).
Proof.
  intros eng db sql pre post row w stmt P before code Ho HP Hpre Hfit Hbinds Hrow Hdone.
  rewrite (executeBatch_open eng db sql pre w Ho) in Hpre.
  rewrite (executeBatch_open eng db sql (pre ++ row :: post) w Ho).
  cbv zeta in *. fold stmt in Hpre |- *.
  destruct (fst (prepare_reply eng w sql) =? SQLITE_OK); [|discriminate].
  cbn [fst] in Hpre. rewrite for_rows_app.
  destruct (for_rows_spec eng (SqliteStatement.mk stmt) HP pre (w ++ [Prepare sql]))
    as (t & rest & Hw & Hr & Hf).
  cbn [SqliteStatement.mStatement] in *.
  destruct (SqliteDb.for_rows eng (SqliteStatement.mk stmt)
              (SqliteValueBinder.mk (SqliteStatement.mk stmt)) pre (w ++ [Prepare sql]))
    as [[u|e0] w1]; [|discriminate].
  cbn [fst snd] in Hw, Hf. destruct Hf as (-> & _). rewrite app_nil_r in Hr. subst t w1.
  assert (Hb : (w ++ [Prepare sql]) ++ flat_map (row_calls stmt) pre = before)
    by (subst before; rewrite <- app_assoc; reflexivity).
  rewrite Hb. rewrite for_rows_cons.
  rewrite (bind_row_accepts eng (SqliteStatement.mk stmt) HP row 1 before);
    [| lia | | exact Hbinds].
  - cbn [SqliteStatement.mStatement]. fold code.
    destruct (Z.eqb_spec code SQLITE_ROW); [contradiction|].
    destruct (Z.eqb_spec code SQLITE_DONE); [contradiction|].
    cbn [orb fst snd]. rewrite <- !app_assoc. reflexivity.
  - unfold SqliteStatement.getParameterCount. cbn [SqliteStatement.mStatement].
    fold P. lia.
Qed.

Lemma executeBatch_step_failure_witness :
  let sql := "INSERT INTO t VALUES (?)" in
  let stmt := Some (mkStmt sql 1) in
  SqliteDb.executeBatch (constraint_engine 1) open_db sql
    ([[int64_value 1]] ++ [int64_value 1] :: [[int64_value 2]]) [] =
    (Throw (SqliteStatementException_ "Step failed with error code: 19"),
     [Prepare sql; Bind stmt 1 (arg_int64 1); Step stmt; Reset stmt; ClearBindings stmt;
      Bind stmt 1 (arg_int64 1); Step stmt; Finalize (mkStmt sql 1)]).
Proof.
  apply (executeBatch_step_failure (constraint_engine 1) open_db
           "INSERT INTO t VALUES (?)" [[int64_value 1]] [[int64_value 2]]
           [int64_value 1] []).
  - reflexivity.
  - unfold is_int, INT_MAX. cbn. lia.
  - reflexivity.
  - cbn. lia.
  - reflexivity.
  - discriminate.
  - discriminate.
Defined.

(** X11. The exact condition for success of a batch on an open
    connection: [executeBatch] returns normally if and only if the
    template compiled, no row holds more values than the template has
    placeholders, and the engine accepted every bind and every step of
    the protocol trace.  Rows with fewer values than placeholders are
    therefore executed like any other. *)
Theorem executeBatch_returns_iff :
  forall (eng : Engine) (db : SqliteDb.t) (sql : string)
         (rows : list (list SqliteValue)) (w : World),
    let stmt := snd (prepare_reply eng w sql) in
    let P := sqlite3_bind_parameter_count stmt in
    SqliteDb.isOpen db = true ->
    is_int P ->
    (fst (SqliteDb.executeBatch eng db sql rows w) = Ok tt <->
       Forall (fun row => Z.of_nat (List.length row) <= Z.max P 0) rows /\
       calls_ok eng w (batch_calls sql stmt rows) = true).
Proof.
  intros eng db sql rows w stmt P Ho HP.
  rewrite (executeBatch_open eng db sql rows w Ho). cbv zeta. fold stmt.
  unfold batch_calls. cbn [calls_ok call_ok].
  destruct (fst (prepare_reply eng w sql) =? SQLITE_OK); cbn [andb fst].
  - rewrite (for_rows_ok_iff eng (SqliteStatement.mk stmt) HP rows (w ++ [Prepare sql])).
    cbn [SqliteStatement.mStatement]. unfold SqliteStatement.getParameterCount.
    cbn [SqliteStatement.mStatement]. fold P.
    rewrite calls_ok_app.
    assert (Hfin : forall h, calls_ok eng h (finalize_calls stmt) = true)
      by (intros h; destruct stmt; reflexivity).
    rewrite Hfin, andb_true_r. tauto.
  - split; [discriminate | intros (_ & H); discriminate].
Qed.

Lemma executeBatch_returns_iff_witness :
  fst (SqliteDb.executeBatch (obliging_engine 2) open_db "INSERT INTO t VALUES (?, ?)"
         [[int64_value 1]; []; [int64_value 2; monostate]] []) = Ok tt.
Proof.
  apply (executeBatch_returns_iff (obliging_engine 2) open_db "INSERT INTO t VALUES (?, ?)"
           [[int64_value 1]; []; [int64_value 2; monostate]] []).
  - reflexivity.
  - unfold is_int, INT_MAX. cbn. lia.
  - split; [repeat constructor; cbn; lia | reflexivity].
Defined.

(** ** The connection *)

(** X12. On a connection whose handle is null, [prepare], [execute],
    [executeBatch], [optimize], every pragma setter (the cache size being
    valid) and [getLastInsertedRowId] raise the connection-category error
    "Database not open" without sending anything, while
    [getErrorMessage] and [getErrorCode] do not raise: they return "No
    database connection" and -1. *)
Theorem closed_connection_refuses :
  forall (eng : Engine) (intro : Introspection) (db : SqliteDb.t) (w : World),
    SqliteDb.isOpen db = false ->
    let refused := fun {A} (run : outcome A * World) =>
      run = (Throw (SqliteDbException_ "Database not open"), w) in
    (forall sql, refused (SqliteDb.prepare eng db sql w)) /\
    (forall sql, refused (SqliteDb.execute eng db sql w)) /\
    (forall sql rows, refused (SqliteDb.executeBatch eng db sql rows w)) /\
    refused (SqliteDb.optimize eng db w) /\
    (forall v, refused (SqliteDb.setForeignKeyOn eng db v w)) /\
    (forall m, refused (SqliteDb.setJournalMode eng db m w)) /\
    (forall m, refused (SqliteDb.setSynchronous eng db m w)) /\
    (forall m, refused (SqliteDb.setTempStore eng db m w)) /\
    (forall n, 0 <= n <= 2000000 -> refused (SqliteDb.setCacheSize eng db n w)) /\
    refused (SqliteDbIntrospection.getLastInsertedRowId intro db w) /\
    SqliteDb.getErrorMessage eng db w = (Ok "No database connection", w) /\
    SqliteDbIntrospection.getErrorCode intro db w = (Ok (-1), w).
Proof.
  intros eng intro db w Ho refused. subst refused. cbv beta.
  assert (Hx : forall sql,
             SqliteDb.execute eng db sql w =
               (Throw (SqliteDbException_ "Database not open"), w))
    by (intros sql; apply execute_not_open; exact Ho).
  refine (conj _ (conj _ (conj _ (conj _ (conj _ (conj _ (conj _ (conj _ (conj _
           (conj _ (conj _ _))))))))))); intros; try apply Hx.
  - unfold SqliteDb.prepare, SqliteDb.checkConnection, bind. rewrite Ho. reflexivity.
  - unfold SqliteDb.executeBatch. rewrite Ho. reflexivity.
  - unfold SqliteDb.setCacheSize, SqliteDb.MIN_CACHE_KB, SqliteDb.MAX_CACHE_KB.
    destruct (Z.ltb_spec n 0); [lia|]. destruct (Z.gtb_spec n 2000000); [lia|]. apply Hx.
  - unfold SqliteDbIntrospection.getLastInsertedRowId, SqliteDb.checkConnection, bind.
    rewrite Ho. reflexivity.
  - unfold SqliteDb.getErrorMessage. rewrite Ho. reflexivity.
  - unfold SqliteDbIntrospection.getErrorCode. rewrite Ho. reflexivity.
Qed.

Lemma closed_connection_refuses_witness :
  SqliteDb.execute (obliging_engine 0) (SqliteDb.mk None) "VACUUM;" [] =
    (Throw (SqliteDbException_ "Database not open"), []) /\
  SqliteDbIntrospection.getErrorCode quiet_introspection (SqliteDb.mk None) [] = (Ok (-1), []).
Proof.
  destruct (closed_connection_refuses (obliging_engine 0) quiet_introspection
              (SqliteDb.mk None) [] eq_refl)
    as (_ & Hexec & _ & _ & _ & _ & _ & _ & _ & _ & _ & Hcode).
  split; [apply Hexec | exact Hcode].
Defined.

Section SetterFacts.
Variable eng : Engine.

Lemma execute_one_command (db : SqliteDb.t) (sql : string) (w : World) :
  SqliteDb.isOpen db = true ->
  snd (SqliteDb.execute eng db sql w) = w ++ [Exec sql] /\
  (fst (SqliteDb.execute eng db sql w) = Ok tt <-> fst (exec_reply eng w sql) = SQLITE_OK) /\
  (forall e, fst (SqliteDb.execute eng db sql w) = Throw e -> class e = SqliteDbException).
Proof.
  intros Ho. split; [rewrite execute_log, Ho; reflexivity|]. split.
  - destruct (Z.eq_dec (fst (exec_reply eng w sql)) SQLITE_OK) as [Hrc|Hrc].
    + rewrite (execute_ok eng db sql w Ho Hrc). tauto.
    + destruct (execute_fail eng db sql w Ho Hrc) as (m & Hm). rewrite Hm.
      split; [discriminate | contradiction].
  - intros e He. destruct (SqliteDb.execute eng db sql w) as [r w'] eqn:E.
    cbn in He. subst r. exact (execute_throws_db eng db sql w e w' E).
Qed.
End SetterFacts.

(** X13. On an open connection [optimize] and each pragma setter send
    exactly one command, return normally exactly when the engine accepts
    it, and otherwise raise a connection-category error.  The command
    names the option asked for: different journal modes, synchronous
    levels and temp-store locations give different commands, and
    [optimize] sends VACUUM. *)
Theorem pragma_setters_send_one_command :
  forall (eng : Engine) (db : SqliteDb.t) (w : World),
    SqliteDb.isOpen db = true ->
    let sends := fun (run : outcome unit * World) (sql : string) =>
      snd run = w ++ [Exec sql] /\
      (fst run = Ok tt <-> fst (exec_reply eng w sql) = SQLITE_OK) /\
      (forall e, fst run = Throw e -> class e = SqliteDbException) in
    sends (SqliteDb.optimize eng db w) "VACUUM;" /\
    sends (SqliteDb.setForeignKeyOn eng db true w) "PRAGMA foreign_keys = ON" /\
    sends (SqliteDb.setForeignKeyOn eng db false w) "PRAGMA foreign_keys = OFF" /\
    (forall m, sends (SqliteDb.setJournalMode eng db m w)
                     ("PRAGMA journal_mode = " +++ SqliteDb.journalModeToString m)) /\
    (forall m, sends (SqliteDb.setSynchronous eng db m w)
                     ("PRAGMA synchronous = " +++ SqliteDb.synchronousToString m)) /\
    (forall m, sends (SqliteDb.setTempStore eng db m w)
                     ("PRAGMA temp_store = " +++ SqliteDb.tempStoreToString m)) /\
    (forall m1 m2, SqliteDb.journalModeToString m1 = SqliteDb.journalModeToString m2 ->
                   m1 = m2) /\
    (forall m1 m2, SqliteDb.synchronousToString m1 = SqliteDb.synchronousToString m2 ->
                   m1 = m2) /\
    (forall m1 m2, SqliteDb.tempStoreToString m1 = SqliteDb.tempStoreToString m2 ->
                   m1 = m2).
Proof.
  intros eng db w Ho sends. subst sends. cbv beta.
  refine (conj _ (conj _ (conj _ (conj _ (conj _ (conj _ (conj _ (conj _ _))))))));
    intros; try (apply execute_one_command; exact Ho).
  - destruct m1, m2; (reflexivity || discriminate).
  - destruct m1, m2; (reflexivity || discriminate).
  - destruct m1, m2; (reflexivity || discriminate).
Qed.

Lemma pragma_setters_send_one_command_witness :
  snd (SqliteDb.setJournalMode (obliging_engine 0) open_db JournalMode_WAL []) =
    [Exec "PRAGMA journal_mode = WAL"] /\
  snd (SqliteDb.setSynchronous busy_engine open_db Synchronous_NORMAL []) =
    [Exec "PRAGMA synchronous = NORMAL"].
Proof.
  split.
  - destruct (pragma_setters_send_one_command (obliging_engine 0) open_db [] eq_refl)
      as (_ & _ & _ & Hj & _).
    apply (Hj JournalMode_WAL).
  - destruct (pragma_setters_send_one_command busy_engine open_db [] eq_refl)
      as (_ & _ & _ & _ & Hs & _).
    apply (Hs Synchronous_NORMAL).
Defined.

(** X14. [loadExtension] checks the library file first: when it does not
    exist a connection-category error is raised and the engine is not
    called.  When switching extension loading on is refused, the error
    carries the engine's code, no load is attempted and nothing is
    switched off.  Once loading is switched on, the calls are always
    switch on, load, switch off, whether the load succeeds or not; the
    operation returns normally exactly when the load succeeds and
    otherwise raises a connection-category error carrying the load's
    code.  An empty entry point is passed to the engine as null. *)
Theorem loadExtension_switches_loading_off :
  forall (ld : ExtensionLoader) (db : SqliteDb.t) (libraryPath entryPoint : string)
         (l : list ext_call),
    let conn := SqliteDb.mConnection db in
    let proc := if (entryPoint =? "")%string then None else Some entryPoint in
    let run := SqliteDbExtension.loadExtension ld db libraryPath entryPoint l in
    let enabled := enable_reply ld l conn 1 in
    let loaded := fst (load_reply ld (l ++ [EnableLoadExtension conn 1]) conn
                         libraryPath proc) in
    (file_exists ld libraryPath = false ->
       run = (Throw (SqliteDbException_ ("'" +++ libraryPath +++ "' does not exist")), l)) /\
    (file_exists ld libraryPath = true -> enabled <> SQLITE_OK ->
       exists e, run = (Throw e, l ++ [EnableLoadExtension conn 1]) /\
                 class e = SqliteDbException /\ errorCode e = enabled) /\
    (file_exists ld libraryPath = true -> enabled = SQLITE_OK ->
       snd run = l ++ [EnableLoadExtension conn 1; LoadExtension conn libraryPath proc;
                       EnableLoadExtension conn 0] /\
       (fst run = Ok tt <-> loaded = SQLITE_OK) /\
       (forall e, fst run = Throw e ->
                  class e = SqliteDbException /\ errorCode e = loaded)).
Proof.
  intros ld db libraryPath entryPoint l conn proc run enabled loaded.
  subst run. unfold SqliteDbExtension.loadExtension. fold conn proc.
  split; [|split].
  - intros Hf. rewrite Hf. reflexivity.
  - intros Hf Hen. rewrite Hf. cbn [negb].
    unfold bind, SqliteDbExtension.sqlite3_enable_load_extension. fold enabled.
    destruct (Z.eqb_spec enabled SQLITE_OK); [contradiction|]. cbn [negb].
    unfold SqliteDbExtension.getErrorMessage.
    destruct (SqliteDb.isOpen db); eexists; (split; [reflexivity|]); split; reflexivity.
  - intros Hf Hen. rewrite Hf. cbn [negb].
    unfold bind, SqliteDbExtension.sqlite3_enable_load_extension,
      SqliteDbExtension.sqlite3_load_extension. fold enabled. rewrite Hen.
    cbn [Z.eqb negb SQLITE_OK]. fold loaded.
    destruct (load_reply ld (l ++ [EnableLoadExtension conn 1]) conn libraryPath proc)
      as [rc errorMsg] eqn:E. cbn [fst] in loaded. subst loaded.
    rewrite <- !app_assoc.
    destruct (Z.eqb_spec rc SQLITE_OK) as [Hok|Hno]; cbn [negb].
    + split; [reflexivity|]. split; [tauto | discriminate].
    + destruct errorMsg as [m|]; cbn [fst snd];
        (split; [reflexivity|]); (split; [split; [discriminate | contradiction]|]);
        intros e He; inversion He; split; reflexivity.
Qed.

Lemma loadExtension_switches_loading_off_witness :
  SqliteDbExtension.loadExtension broken_library open_db "/lib/missing.so" "" [] =
    (Throw (SqliteDbException_ "'/lib/missing.so' does not exist"), []) /\
  snd (SqliteDbExtension.loadExtension broken_library open_db "/lib/ext.so" "" []) =
    [EnableLoadExtension (Some (sqlite3_handle 0)) 1;
     LoadExtension (Some (sqlite3_handle 0)) "/lib/ext.so" None;
     EnableLoadExtension (Some (sqlite3_handle 0)) 0].
Proof.
  split.
  - apply (loadExtension_switches_loading_off broken_library open_db
             "/lib/missing.so" "" []). reflexivity.
  - apply (loadExtension_switches_loading_off broken_library open_db "/lib/ext.so" "" []);
      reflexivity.
Defined.

(** ** The life of a transaction *)

Section TransactionLife.
Variable eng : Engine.
Implicit Types (w : World) (tx : SqliteTransaction.t).

Lemma ctor_returns db mode w0 tx w :
  SqliteTransaction.ctor eng db mode w0 = (Ok tx, w) ->
  SqliteDb.isOpen db = true /\ tx = SqliteTransaction.mk db true /\
  exists sql, w = w0 ++ [Exec sql].
Proof.
  unfold SqliteTransaction.ctor. destruct (SqliteDb.isOpen db) eqn:Ho; [|discriminate].
  cbn [negb]. unfold bind. intros H.
  match type of H with
  | context [SqliteDb.execute eng db ?sql w0] =>
      destruct (SqliteDb.execute eng db sql w0) as [[[]|e] w1] eqn:E; [|discriminate];
      destruct (execute_returns eng db sql w0 w1 E) as (_ & _ & ->);
      inversion H; subst; split; [reflexivity|]; split; [reflexivity|];
      exists sql; reflexivity
  end.
Qed.

Lemma finalized_accepted (h : World) (c : tx_call) :
  let sql := match c with call_commit => "COMMIT" | call_rollback => "ROLLBACK" end in
  fst (exec_reply eng h sql) = SQLITE_OK -> finalized eng h [Exec sql] = 1%nat.
Proof.
  intros sql H. subst sql. destruct c; cbn; rewrite H; reflexivity.
Qed.

(** After any sequence of commit and rollback calls on an active
    transaction of an open connection, the transaction is active and no
    finalizing command was accepted, or it is finished and exactly one
    was. *)
Lemma run_tx_calls_state (cs : list tx_call) :
  forall tx w,
    SqliteTransaction.mIntransaction tx = true ->
    SqliteDb.isOpen (SqliteTransaction.mSqliteDb tx) = true ->
    exists tx1 t,
      run_tx_calls eng cs (tx, w) = (tx1, w ++ t) /\
      SqliteTransaction.mSqliteDb tx1 = SqliteTransaction.mSqliteDb tx /\
      ((SqliteTransaction.mIntransaction tx1 = true /\ finalized eng w t = O) \/
       (SqliteTransaction.mIntransaction tx1 = false /\ finalized eng w t = 1%nat)).
Proof.
  induction cs as [|c cs IH]; intros tx w Ha Ho; cbn [run_tx_calls].
  - exists tx, []. rewrite app_nil_r. split; [reflexivity|]. split; [reflexivity|].
    left. split; [exact Ha | reflexivity].
  - rewrite run_tx_call_is_exec.
    set (sql := match c with call_commit => "COMMIT" | call_rollback => "ROLLBACK" end).
    destruct (exec_active_cases eng tx sql w Ha)
      as [(_ & Hrc & E) | [(_ & Hrc & e & _ & E) | (Hno & _)]];
      [| |congruence]; rewrite E; cbn [snd].
    + rewrite run_tx_calls_finished by reflexivity.
      exists (SqliteTransaction.mk (SqliteTransaction.mSqliteDb tx) false), [Exec sql].
      split; [reflexivity|]. split; [reflexivity|]. right. split; [reflexivity|].
      apply (finalized_accepted w c). exact Hrc.
    + destruct (IH tx (w ++ [Exec sql]) Ha Ho) as (tx1 & t & Hrun & Hdb & Hst).
      exists tx1, (Exec sql :: t). rewrite Hrun, <- app_assoc.
      split; [reflexivity|]. split; [exact Hdb|].
      change (Exec sql :: t) with ([Exec sql] ++ t).
      rewrite finalized_app, (finalized_refused eng w sql Hrc). exact Hst.
Qed.
End TransactionLife.

(** X15. The scope guarantee of a transaction.  After a successful
    construction, whatever commit and rollback calls the caller makes
    (catching their errors) before the object is destroyed, the
    destructor sends a ROLLBACK exactly when the transaction is still
    active and nothing when it is finished; and when the object is gone
    either exactly one COMMIT or ROLLBACK was accepted by the engine, or
    none was and the last command sent is the destructor's ROLLBACK,
    which the engine refused. *)
Theorem transaction_scope_finalizes :
  forall (eng : Engine) (db : SqliteDb.t) (mode : SqliteTransaction.Mode)
         (w0 w : World) (tx : SqliteTransaction.t) (cs : list tx_call),
    SqliteTransaction.ctor eng db mode w0 = (Ok tx, w) ->
    let s1 := run_tx_calls eng cs (tx, w) in
    let s2 := snd (SqliteTransaction.dtor eng s1) in
    SqliteTransaction.inTransaction tx = true /\
    (SqliteTransaction.inTransaction (fst s1) = false -> snd s2 = snd s1) /\
    (SqliteTransaction.inTransaction (fst s1) = true ->
       snd s2 = snd s1 ++ [Exec "ROLLBACK"]) /\
    exists t,
      snd s2 = w ++ t /\
      (finalized eng w t = 1%nat \/
       (finalized eng w t = O /\
        exists t0, t = t0 ++ [Exec "ROLLBACK"] /\
                   fst (exec_reply eng (w ++ t0) "ROLLBACK") <> SQLITE_OK)).
Proof.
  intros eng db mode w0 w tx cs Hctor s1 s2.
  destruct (ctor_returns eng db mode w0 tx w Hctor) as (Ho & -> & _).
  destruct (run_tx_calls_state eng cs (SqliteTransaction.mk db true) w eq_refl Ho)
    as (tx1 & t & Hrun & Hdb & Hst).
  subst s2 s1. rewrite Hrun. cbn [fst snd]. unfold SqliteTransaction.inTransaction.
  cbn [SqliteTransaction.mSqliteDb SqliteTransaction.mIntransaction] in *.
  assert (Hlog : snd (snd (SqliteTransaction.dtor eng (tx1, w ++ t))) =
                 if SqliteTransaction.mIntransaction tx1
                 then (w ++ t) ++ [Exec "ROLLBACK"] else w ++ t).
  { rewrite dtor_log. destruct (SqliteTransaction.mIntransaction tx1); [|reflexivity].
    rewrite execute_log, Hdb, Ho. reflexivity. }
  split; [reflexivity|]. split; [|split].
  - intros Hf. rewrite Hlog, Hf. reflexivity.
  - intros Ha. rewrite Hlog, Ha. reflexivity.
  - rewrite Hlog. destruct Hst as [(Ha & Hn) | (Hf & Hn)].
    + rewrite Ha. exists (t ++ [Exec "ROLLBACK"]). rewrite <- app_assoc.
      split; [reflexivity|]. rewrite finalized_app, Hn.
      destruct (Z.eq_dec (fst (exec_reply eng (w ++ t) "ROLLBACK")) SQLITE_OK) as [Hrc|Hrc].
      * left. rewrite (finalized_accepted eng (w ++ t) call_rollback Hrc). reflexivity.
      * right. rewrite (finalized_refused eng (w ++ t) "ROLLBACK" Hrc).
        split; [reflexivity|]. exists t. split; [reflexivity | exact Hrc].
    + rewrite Hf. exists t. split; [reflexivity|]. left. exact Hn.
Qed.

Lemma transaction_scope_finalizes_witness :
  let tx := SqliteTransaction.mk open_db true in
  let s1 := run_tx_calls (obliging_engine 0) [call_commit; call_rollback]
              (tx, [Exec "BEGIN IMMEDIATE;"]) in
  SqliteTransaction.inTransaction (fst s1) = false /\
  snd (snd (SqliteTransaction.dtor (obliging_engine 0) s1)) =
    [Exec "BEGIN IMMEDIATE;"; Exec "COMMIT"].
Proof.
  intros tx s1.
  destruct (transaction_scope_finalizes (obliging_engine 0) open_db
              SqliteTransaction.Immediate [] [Exec "BEGIN IMMEDIATE;"] tx
              [call_commit; call_rollback] eq_refl)
    as (_ & Hfinished & _).
  split; [reflexivity|]. exact (Hfinished eq_refl).
Defined.

(** X16. On an active transaction of an open connection, a ROLLBACK the
    engine refuses makes the explicit [rollback] raise a
    transaction-category error whose message is that of the connection
    error ("SQL execution error: " and the engine's message, the one
    returned with the reply or else the connection's last one) and whose
    code is 0; the transaction stays active, so the destructor sends
    ROLLBACK once more. *)
Theorem rollback_failure_keeps_active :
  forall (eng : Engine) (tx : SqliteTransaction.t) (w : World),
    let reply := exec_reply eng w "ROLLBACK" in
    let w' := w ++ [Exec "ROLLBACK"] in
    let detail := match snd reply with
                  | Some m => m
                  | None => errmsg_reply eng w'
                  end in
    SqliteTransaction.mIntransaction tx = true ->
    SqliteDb.isOpen (SqliteTransaction.mSqliteDb tx) = true ->
    fst reply <> SQLITE_OK ->
    SqliteTransaction.rollback eng (tx, w) =
      (Throw (mkException SqliteTransactionException
                ("SQL execution error: " +++ detail) 0), (tx, w')) /\
    snd (snd (SqliteTransaction.dtor eng (tx, w'))) = w' ++ [Exec "ROLLBACK"].
Proof.
  intros eng tx w reply w' detail Ha Ho Hrc. split.
  - assert (Hm : SqliteDb.execute eng (SqliteTransaction.mSqliteDb tx) "ROLLBACK" w =
                 (Throw (SqliteDbException_ ("SQL execution error: " +++ detail)), w')).
    { unfold SqliteDb.execute, SqliteDb.checkConnection, bind, sqlite3_exec,
        SqliteDb.getErrorMessage, sqlite3_errmsg.
      rewrite Ho. cbn [negb ret]. subst detail w' reply.
      destruct (exec_reply eng w "ROLLBACK") as [rc errMsg]. cbn [fst snd] in *.
      destruct (Z.eqb_spec rc SQLITE_OK); [contradiction|]. cbn [negb].
      destruct errMsg; reflexivity. }
    unfold SqliteTransaction.rollback, SqliteTransaction.exec, bind, get_object,
      try_catch, on_world. cbn. rewrite Ha. cbn. rewrite Hm. reflexivity.
  - rewrite dtor_log, Ha, execute_log, Ho. reflexivity.
Qed.

Lemma rollback_failure_keeps_active_witness :
  let tx := SqliteTransaction.mk open_db true in
  SqliteTransaction.rollback busy_engine (tx, []) =
    (Throw (mkException SqliteTransactionException
              "SQL execution error: database is locked" 0), (tx, [Exec "ROLLBACK"])) /\
  snd (snd (SqliteTransaction.dtor busy_engine (tx, [Exec "ROLLBACK"]))) =
    [Exec "ROLLBACK"; Exec "ROLLBACK"].
Proof.
  apply (rollback_failure_keeps_active busy_engine (SqliteTransaction.mk open_db true) []).
  - reflexivity.
  - reflexivity.
  - discriminate.
Defined.
